(** * rexpath: the response objects and their encoding-resolution pipeline

    A shallow embedding of [src/response.py] (classes [Response] and
    [TextResponse]) and of the part of [src/selector.py] that reads a
    response, together with the library functions they call:
    [urllib.parse.urljoin] of the Python standard library and
    [w3lib.encoding.html_to_unicode].

    The embedding follows the Python 3 execution of the code
    ([six.PY2] is [False], [six.text_type] is [str]).  A Python object is
    a record, attribute stores are functional updates, and a method that
    reads or writes attributes is a computation in a state-and-exception
    monad over that record. *)

From Stdlib Require Import String Ascii List Bool NArith ZArith Lia.
From Stdlib Require Import Strings.Byte.
From Stdlib Require DecimalString DecimalZ.
Import ListNotations.
Local Open Scope string_scope.
Local Open Scope list_scope.

Set Implicit Arguments.

(** ** Python prelude *)

Module Py.

(** The exception classes the modelled code can raise.  [UnicodeError]
    stands for the class and its subclasses [UnicodeDecodeError] and
    [UnicodeEncodeError], which is what [except UnicodeError] catches. *)
Inductive exn : Type :=
| TypeError
| ValueError
| UnicodeError
| LookupError
| AttributeError.

(** The result of evaluating an expression: a value or a raised exception. *)
Inductive outcome (A : Type) : Type :=
| Ok (a : A)
| Raise (e : exn).
Arguments Ok {A} a.
Arguments Raise {A} e.

Definition is_ok {A} (r : outcome A) : bool :=
  match r with
  | Ok _ => true
  | Raise _ => false
  end.

Definition exn_eqb (a b : exn) : bool :=
  match a, b with
  | TypeError, TypeError | ValueError, ValueError
  | UnicodeError, UnicodeError | LookupError, LookupError
  | AttributeError, AttributeError => true
  | _, _ => false
  end.

(** [bytes] objects, and [str] objects in their two uses: names, URLs and
    header values are Coq strings (one character per code point below
    256); decoded document text is a list of code points. *)
Definition bytes : Type := list byte.
Definition utext : Type := list N.

(** [b'...'] literal. *)
Definition b (s : string) : bytes := list_byte_of_string s.

(** [u'...'] literal for text in the ASCII range. *)
Definition u (s : string) : utext :=
  map (fun c => N_of_ascii c) (list_ascii_of_string s).

(** A value that is either [str] or [bytes]. *)
Inductive strlike : Type :=
| Text (s : string)
| Bytes (l : bytes).

(** The [errors] argument of [bytes.decode]. *)
Inductive errors : Type := Strict | Replace.

(** Truth value of a [str]-or-[None] value: [None] and [''] are false. *)
Definition truthy (v : option string) : bool :=
  match v with
  | Some s => negb (s =? "")
  | None => false
  end.

(** [a or b] once both operands are evaluated. *)
Definition py_or (a c : option string) : option string :=
  if truthy a then a else c.

(** ['%s' % v] for a [str]-or-[None] value. *)
Definition str_of (v : option string) : string :=
  match v with
  | Some s => s
  | None => "None"
  end.

(** State-and-exception monad over an object of type [S].  The object is
    returned in both cases: attribute stores made before an exception
    propagates stay visible on the object. *)
Definition M (S A : Type) : Type := S -> outcome A * S.

Definition ret {S A} (a : A) : M S A := fun s => (Ok a, s).

Definition bind {S A B} (m : M S A) (k : A -> M S B) : M S B :=
  fun s =>
    match m s with
    | (Ok a, s') => k a s'
    | (Raise e, s') => (Raise e, s')
    end.

Definition raise {S A} (e : exn) : M S A := fun s => (Raise e, s).

(** Attribute read and attribute store. *)
Definition getattr {S A} (f : S -> A) : M S A := fun s => (Ok (f s), s).
Definition setattr {S} (f : S -> S) : M S unit := fun s => (Ok tt, f s).

(** A call of a function that does not touch the object. *)
Definition call {S A} (r : outcome A) : M S A := fun s => (r, s).

(** Sequencing of calls that touch no object. *)
Definition obind {A B} (r : outcome A) (k : A -> outcome B) : outcome B :=
  match r with
  | Ok a => k a
  | Raise e => Raise e
  end.

(** [a or b()] where the right operand is only evaluated on demand. *)
Definition or_else {S} (a : M S (option string)) (c : M S (option string))
  : M S (option string) :=
  bind a (fun v => if truthy v then ret v else c).

End Py.
Import Py.

Declare Scope py_scope.
Delimit Scope py_scope with py.
Notation "x <- m ;; k" := (Py.bind m (fun x => k))
  (at level 61, m at next level, right associativity) : py_scope.
Notation "m ;;; k" := (Py.bind m (fun _ => k))
  (at level 61, right associativity) : py_scope.
Notation "'let!' x ':=' r 'in' k" := (Py.obind r (fun x => k))
  (at level 61, x pattern, r at next level, right associativity) : py_scope.
Notation "a 'orelse' c" := (Py.or_else a c)
  (at level 60, right associativity) : py_scope.

(** ** String helpers standing for the [str] methods the code uses *)

Module Str.

Definition is_empty (s : string) : bool := s =? "".

Fixpoint mem (x : string) (l : list string) : bool :=
  match l with
  | [] => false
  | y :: l' => (x =? y) || mem x l'
  end.

(** [c in s] *)
Fixpoint contains (c : ascii) (s : string) : bool :=
  match s with
  | EmptyString => false
  | String d s' => Ascii.eqb c d || contains c s'
  end.

(** [s[:n]] and [s[n:]] *)
Fixpoint take (n : nat) (s : string) : string :=
  match n, s with
  | S n', String c s' => String c (take n' s')
  | _, _ => EmptyString
  end.

Fixpoint drop (n : nat) (s : string) : string :=
  match n, s with
  | S n', String _ s' => drop n' s'
  | _, _ => s
  end.

(** [s.find(c)]: index of the first occurrence, [None] for -1. *)
Fixpoint find (c : ascii) (s : string) : option nat :=
  match s with
  | EmptyString => None
  | String d s' =>
      if Ascii.eqb c d then Some 0
      else match find c s' with
           | Some i => Some (S i)
           | None => None
           end
  end.

(** [s.rfind(c)] *)
Fixpoint rfind (c : ascii) (s : string) : option nat :=
  match s with
  | EmptyString => None
  | String d s' =>
      match rfind c s' with
      | Some i => Some (S i)
      | None => if Ascii.eqb c d then Some 0 else None
      end
  end.

(** [s.find(c, start)] *)
Definition find_from (c : ascii) (start : nat) (s : string) : option nat :=
  match find c (drop start s) with
  | Some i => Some (start + i)
  | None => None
  end.

(** [s.split(c)] for a one-character separator. *)
Fixpoint split (c : ascii) (s : string) : list string :=
  match s with
  | EmptyString => [EmptyString]
  | String d s' =>
      if Ascii.eqb c d then EmptyString :: split c s'
      else match split c s' with
           | hd :: tl => String d hd :: tl
           | [] => [String d EmptyString]
           end
  end.

(** [s.split(c, 1)] when [c in s]: the text before and after the first
    occurrence. *)
Definition split1 (c : ascii) (s : string) : string * string :=
  match find c s with
  | Some i => (take i s, drop (S i) s)
  | None => (s, EmptyString)
  end.

(** [c.join(l)] *)
Fixpoint join (c : string) (l : list string) : string :=
  match l with
  | [] => EmptyString
  | [x] => x
  | x :: l' => (x ++ c ++ join c l')%string
  end.

Definition all (p : ascii -> bool) (s : string) : bool :=
  forallb p (list_ascii_of_string s).

(** [s.replace(c, '')] *)
Fixpoint remove (c : ascii) (s : string) : string :=
  match s with
  | EmptyString => EmptyString
  | String d s' => if Ascii.eqb c d then remove c s' else String d (remove c s')
  end.

(** [s.lstrip(chars)] and [s.strip(chars)] for a predicate on characters. *)
Fixpoint lstrip (p : ascii -> bool) (s : string) : string :=
  match s with
  | EmptyString => EmptyString
  | String d s' => if p d then lstrip p s' else s
  end.

Definition rev (s : string) : string :=
  string_of_list_ascii (List.rev (list_ascii_of_string s)).

Definition strip (p : ascii -> bool) (s : string) : string :=
  rev (lstrip p (rev (lstrip p s))).

Definition is_upper (c : ascii) : bool :=
  let n := nat_of_ascii c in (65 <=? n)%nat && (n <=? 90)%nat.
Definition is_lower (c : ascii) : bool :=
  let n := nat_of_ascii c in (97 <=? n)%nat && (n <=? 122)%nat.
Definition is_digit (c : ascii) : bool :=
  let n := nat_of_ascii c in (48 <=? n)%nat && (n <=? 57)%nat.
Definition is_ascii_alpha (c : ascii) : bool := is_upper c || is_lower c.

Definition lower_char (c : ascii) : ascii :=
  if is_upper c then ascii_of_nat (nat_of_ascii c + 32) else c.

(** [s.lower()] on the ASCII letters. *)
Fixpoint lower (s : string) : string :=
  match s with
  | EmptyString => EmptyString
  | String c s' => String (lower_char c) (lower s')
  end.

End Str.

(** ** [urllib.parse]: the functions behind [urljoin]

    Transcribed from the Python 3 standard library.  The two netloc
    validations that need an IP-address parser and Unicode normalisation
    ([_check_bracketed_netloc], and [_checknetloc] on a non-ASCII netloc)
    are parameters. *)

Module Urllib.
Local Open Scope py_scope.

Definition uses_relative : list string :=
  [""; "ftp"; "http"; "gopher"; "nntp"; "imap";
   "wais"; "file"; "https"; "shttp"; "mms";
   "prospero"; "rtsp"; "rtspu"; "sftp";
   "svn"; "svn+ssh"; "ws"; "wss"].

Definition uses_netloc : list string :=
  [""; "ftp"; "http"; "gopher"; "nntp"; "telnet";
   "imap"; "wais"; "file"; "mms"; "https"; "shttp";
   "snews"; "prospero"; "rtsp"; "rtspu"; "rsync";
   "svn"; "svn+ssh"; "sftp"; "nfs"; "git"; "git+ssh";
   "ws"; "wss"].

Definition uses_params : list string :=
  [""; "ftp"; "hdl"; "prospero"; "http"; "imap";
   "https"; "shttp"; "rtsp"; "rtspu"; "sip"; "sips";
   "mms"; "sftp"; "tel"].

(** [c in scheme_chars] *)
Definition scheme_char (c : ascii) : bool :=
  Str.is_lower c || Str.is_upper c || Str.is_digit c
  || Ascii.eqb c "+" || Ascii.eqb c "-" || Ascii.eqb c ".".

(** [c in _WHATWG_C0_CONTROL_OR_SPACE] *)
Definition c0_control_or_space (c : ascii) : bool :=
  (nat_of_ascii c <=? 32)%nat.

Definition is_ascii_char (c : ascii) : bool := (nat_of_ascii c <? 128)%nat.

Record SplitResult : Type := mkSplit {
  s_scheme : string; s_netloc : string; s_path : string;
  s_query : string; s_fragment : string }.

Record ParseResult : Type := mkParse {
  scheme : string; netloc : string; path : string;
  params : string; query : string; fragment : string }.

(** What [urljoin] can be handed: a [str], a [bytes], or an object of a
    class that defines none of [__bool__], [__len__] and [decode] (such an
    object is true, and is neither [str] nor [bytes]). *)
Inductive arg (Obj : Type) : Type :=
| AStr (s : string)
| ABytes (l : bytes)
| AObj (o : Obj).
Arguments AStr {Obj} s.
Arguments ABytes {Obj} l.
Arguments AObj {Obj} o.

Definition is_str {Obj} (a : arg Obj) : bool :=
  match a with AStr _ => true | _ => false end.

Definition arg_truthy {Obj} (a : arg Obj) : bool :=
  match a with
  | AStr s => negb (s =? "")
  | ABytes l => match l with [] => false | _ => true end
  | AObj _ => true
  end.

(** [x.decode('ascii', 'strict')] and [s.encode('ascii', 'strict')] *)
Fixpoint ascii_decode (l : bytes) : outcome string :=
  match l with
  | [] => Ok EmptyString
  | x :: l' =>
      if (Byte.to_N x <? 128)%N
      then let! s := ascii_decode l' in Ok (String (ascii_of_byte x) s)
      else Raise UnicodeError
  end.

Fixpoint ascii_encode (s : string) : outcome bytes :=
  match s with
  | EmptyString => Ok []
  | String c s' =>
      if is_ascii_char c
      then let! l := ascii_encode s' in Ok (byte_of_ascii c :: l)
      else Raise UnicodeError
  end.

Definition _decode_arg {Obj} (a : arg Obj) : outcome string :=
  if arg_truthy a then
    match a with
    | ABytes l => ascii_decode l
    | AStr _ | AObj _ => Raise AttributeError
    end
  else Ok EmptyString.

(** [_coerce_args(a0, a1)]: the two arguments as [str], and whether the
    result has to be encoded back to [bytes].  With a [str] first argument
    the second one passes unchanged; a false non-[str] second argument
    (which [urljoin] never passes) fails in the callee with the same
    [TypeError]. *)
Definition _coerce_args {Obj} (a0 a1 : arg Obj)
  : outcome (string * string * bool) :=
  let str_input := is_str a0 in
  if arg_truthy a1 && negb (Bool.eqb (is_str a1) str_input)
  then Raise TypeError
  else if str_input then
    match a0, a1 with
    | AStr s0, AStr s1 => Ok (s0, s1, false)
    | _, _ => Raise TypeError
    end
  else
    let! s0 := _decode_arg a0 in
    let! s1 := _decode_arg a1 in
    Ok (s0, s1, true).

Definition _coerce_result {Obj} (encode : bool) (s : string)
  : outcome (arg Obj) :=
  if encode then let! l := ascii_encode s in Ok (ABytes l)
  else Ok (AStr s).

Section Parse.

(** [_check_bracketed_netloc(netloc)], and [_checknetloc(netloc)] for a
    netloc that is not pure ASCII. *)
Variable _check_bracketed_netloc : string -> outcome unit.
Variable _checknetloc_nfkc : string -> outcome unit.

Definition _checknetloc (netloc : string) : outcome unit :=
  if (netloc =? "") || Str.all is_ascii_char netloc then Ok tt
  else _checknetloc_nfkc netloc.

(** [_splitnetloc(url, 2)]: the netloc runs from index 2 to the first of
    ['/'], ['?'], ['#']. *)
Fixpoint span_netloc (s : string) : string * string :=
  match s with
  | EmptyString => (EmptyString, EmptyString)
  | String c s' =>
      if Ascii.eqb c "/" || Ascii.eqb c "?" || Ascii.eqb c "#"
      then (EmptyString, s)
      else let (n, r) := span_netloc s' in (String c n, r)
  end.

Definition _splitnetloc (url : string) : string * string :=
  span_netloc (Str.drop 2 url).

Definition urlsplit (url0 scheme0 : string) : outcome SplitResult :=
  let url := Str.lstrip c0_control_or_space url0 in
  let scheme := Str.strip c0_control_or_space scheme0 in
  let unsafe (s : string) :=
    Str.remove "010" (Str.remove "013" (Str.remove "009" s)) in
  let url := unsafe url in
  let scheme := unsafe scheme in
  let '(scheme, url) :=
    match Str.find ":" url, url with
    | Some (S i'), String c0 _ =>
        if is_ascii_char c0 && Str.is_ascii_alpha c0
           && Str.all scheme_char (Str.take (S i') url)
        then (Str.lower (Str.take (S i') url), Str.drop (S (S i')) url)
        else (scheme, url)
    | _, _ => (scheme, url)
    end in
  let! (netloc, url) :=
    if Str.take 2 url =? "//" then
      let (netloc, rest) := _splitnetloc url in
      let lb := Str.contains "[" netloc in
      let rb := Str.contains "]" netloc in
      if (lb && negb rb) || (rb && negb lb) then Raise ValueError
      else
        let! _ := (if lb && rb then _check_bracketed_netloc netloc
                   else Ok tt) in
        Ok (netloc, rest)
    else Ok (EmptyString, url) in
  let '(url, fragment) :=
    if Str.contains "#" url then Str.split1 "#" url
    else (url, EmptyString) in
  let '(url, query) :=
    if Str.contains "?" url then Str.split1 "?" url
    else (url, EmptyString) in
  let! _ := _checknetloc netloc in
  Ok (mkSplit scheme netloc url query fragment).

Definition _splitparams (url : string) : string * string :=
  if Str.contains "/" url then
    match Str.rfind "/" url with
    | Some r =>
        match Str.find_from ";" r url with
        | Some i => (Str.take i url, Str.drop (S i) url)
        | None => (url, EmptyString)
        end
    | None => (url, EmptyString)
    end
  else
    match Str.find ";" url with
    | Some i => (Str.take i url, Str.drop (S i) url)
    | None => (Str.take (String.length url - 1) url, url)
    end.

Definition urlparse (url scheme0 : string) : outcome ParseResult :=
  let! r := urlsplit url scheme0 in
  let '(url, params) :=
    if Str.mem (s_scheme r) uses_params && Str.contains ";" (s_path r)
    then _splitparams (s_path r)
    else (s_path r, EmptyString) in
  Ok (mkParse (s_scheme r) (s_netloc r) url params (s_query r) (s_fragment r)).

Definition urlunsplit (scheme netloc url query fragment : string) : string :=
  let url :=
    if negb (netloc =? "")
       || (negb (scheme =? "") && Str.mem scheme uses_netloc
           && negb (Str.take 2 url =? "//"))
    then
      let url := if negb (url =? "") && negb (Str.take 1 url =? "/")
                 then ("/" ++ url)%string else url in
      ("//" ++ netloc ++ url)%string
    else url in
  let url := if negb (scheme =? "") then (scheme ++ ":" ++ url)%string
             else url in
  let url := if negb (query =? "") then (url ++ "?" ++ query)%string
             else url in
  let url := if negb (fragment =? "") then (url ++ "#" ++ fragment)%string
             else url in
  url.

Definition urlunparse (p : ParseResult) : string :=
  let url := if negb (params p =? "")
             then (path p ++ ";" ++ params p)%string
             else path p in
  urlunsplit (scheme p) (netloc p) url (query p) (fragment p).

(** The loop over [segments] that builds [resolved_path]: [..] pops the
    last element if there is one, [.] is skipped. *)
Definition resolve_step (resolved_path : list string) (seg : string)
  : list string :=
  if seg =? ".." then removelast resolved_path
  else if seg =? "." then resolved_path
  else resolved_path ++ [seg].

(** [segments[1:-1] = filter(None, segments[1:-1])] *)
Definition filter_middle (segments : list string) : list string :=
  match segments with
  | [] => []
  | first :: rest =>
      match rest with
      | [] => [first]
      | _ :: _ =>
          first :: filter (fun x => negb (x =? "")) (removelast rest)
                ++ [last rest EmptyString]
      end
  end.

Definition urljoin {Obj} (base url : arg Obj) : outcome (arg Obj) :=
  if negb (arg_truthy base) then Ok url
  else if negb (arg_truthy url) then Ok base
  else
    let! (sbase, surl, enc) := _coerce_args base url in
    let! bp := urlparse sbase EmptyString in
    let! p := urlparse surl (scheme bp) in
    if negb (scheme p =? scheme bp) || negb (Str.mem (scheme p) uses_relative)
    then _coerce_result enc surl
    else if Str.mem (scheme p) uses_netloc && negb (netloc p =? "")
    then _coerce_result enc (urlunparse p)
    else
      let netloc' := if Str.mem (scheme p) uses_netloc then netloc bp
                     else netloc p in
      if (path p =? "") && (params p =? "") then
        let query' := if query p =? "" then query bp else query p in
        _coerce_result enc
          (urlunparse (mkParse (scheme p) netloc' (path bp) (params bp)
                               query' (fragment p)))
      else
        let base_parts := Str.split "/" (path bp) in
        let base_parts :=
          if negb (last base_parts EmptyString =? "")
          then removelast base_parts else base_parts in
        let segments :=
          if Str.take 1 (path p) =? "/" then Str.split "/" (path p)
          else filter_middle (base_parts ++ Str.split "/" (path p)) in
        let resolved_path := fold_left resolve_step segments [] in
        let resolved_path :=
          if (last segments EmptyString =? ".")
             || (last segments EmptyString =? "..")
          then resolved_path ++ [EmptyString] else resolved_path in
        let joined := Str.join "/" resolved_path in
        _coerce_result enc
          (urlunparse (mkParse (scheme p) netloc'
                               (if joined =? "" then "/" else joined)
                               (params p) (query p) (fragment p))).

End Parse.
End Urllib.


(** ** The collaborators of the response classes

    Everything [src/response.py] and [src/selector.py] import and this
    development does not transcribe: the [Headers] class and
    [to_native_str] of the package itself (modules [.headers] and
    [.utils], which are not part of the sources at hand), the codec
    registry of the interpreter, the name tables and regular expressions
    of [w3lib.encoding], and [parsel]'s selector.  The theorems hold for
    every such world; [Fragment] below is a concrete one. *)

Class World : Type := {
  (** [Headers(headers or {})] and [headers.get(name, default)] *)
  Headers : Type;
  Headers_get : Headers -> bytes -> bytes -> bytes;
  (** [to_native_str(text, encoding=None)] *)
  to_native_str : strlike -> option string -> outcome string;
  (** the request a response is tied to *)
  Request : Type;
  (** [data.decode(encoding, errors)] and [text.encode(encoding)] *)
  bytes_decode : bytes -> string -> errors -> outcome utext;
  str_encode : utext -> string -> outcome bytes;
  (** [w3lib.encoding] *)
  resolve_encoding : string -> option string;
  http_content_type_encoding : string -> option string;
  html_body_declared_encoding : bytes -> option string;
  (** [urllib.parse]: the netloc validations *)
  check_bracketed_netloc : string -> outcome unit;
  checknetloc_nfkc : string -> outcome unit;
  (** [parsel.Selector(text=..., base_url=...)] and its [xpath] method *)
  Selector : Type;
  SelectorList : Type;
  parsel_Selector : utext -> string -> outcome Selector;
  parsel_xpath : Selector -> string -> outcome SelectorList
}.

(** ** [w3lib.encoding]: [read_bom], [to_unicode] and [html_to_unicode] *)

Module W3lib.
Section W3lib.
Context {W : World}.
Local Open Scope py_scope.

Definition BOM_UTF32_BE : bytes := [x00; x00; xfe; xff].
Definition BOM_UTF32_LE : bytes := [xff; xfe; x00; x00].
Definition BOM_UTF16_BE : bytes := [xfe; xff].
Definition BOM_UTF16_LE : bytes := [xff; xfe].
Definition BOM_UTF8 : bytes := [xef; xbb; xbf].

Definition _BOM_TABLE : list (bytes * string) :=
  [(BOM_UTF32_BE, "utf-32-be");
   (BOM_UTF32_LE, "utf-32-le");
   (BOM_UTF16_BE, "utf-16-be");
   (BOM_UTF16_LE, "utf-16-le");
   (BOM_UTF8, "utf-8")].

(** [data.startswith(prefix)] *)
Fixpoint startswith (prefix data : bytes) : bool :=
  match prefix, data with
  | [], _ => true
  | p :: prefix', d :: data' => Byte.eqb p d && startswith prefix' data'
  | _ :: _, [] => false
  end.

(** [read_bom(data)]: the encoding and the BOM, or [None] for
    [(None, None)]. *)
Definition read_bom (data : bytes) : option (string * bytes) :=
  match find (fun e => startswith (fst e) data) _BOM_TABLE with
  | Some (bom, encoding) => Some (encoding, bom)
  | None => None
  end.

(** [to_unicode(data_str, encoding)]: decoding with the [replace] error
    handler. *)
Definition to_unicode (data_str : bytes) (encoding : string)
  : outcome utext :=
  bytes_decode data_str encoding Replace.

Definition html_to_unicode (content_type_header : string)
    (html_body_str : bytes) (default_encoding : string)
    (auto_detect_fun : option (bytes -> outcome (option string)))
  : outcome (string * utext) :=
  let enc := http_content_type_encoding content_type_header in
  let bom := read_bom html_body_str in
  match enc with
  | Some enc =>
      let '(enc, html_body_str) :=
        if match bom with
           | Some (bom_enc, _) => enc =? bom_enc
           | None => false
           end
        then (enc, skipn (length (match bom with
                                  | Some (_, m) => m
                                  | None => []
                                  end)) html_body_str)
        else if (enc =? "utf-16") || (enc =? "utf-32") then
          match bom with
          | Some (bom_enc, m) =>
              if String.prefix enc bom_enc
              then (bom_enc, skipn (length m) html_body_str)
              else ((enc ++ "-be")%string, html_body_str)
          | None => ((enc ++ "-be")%string, html_body_str)
          end
        else (enc, html_body_str) in
      let! t := to_unicode html_body_str enc in
      Ok (enc, t)
  | None =>
      match bom with
      | Some (bom_enc, m) =>
          let! t := to_unicode (skipn (length m) html_body_str) bom_enc in
          Ok (bom_enc, t)
      | None =>
          let enc := html_body_declared_encoding html_body_str in
          let! enc :=
            match enc, auto_detect_fun with
            | None, Some f => f html_body_str
            | _, _ => Ok enc
            end in
          let enc := match enc with
                     | None => default_encoding
                     | Some e => e
                     end in
          let! t := to_unicode html_body_str enc in
          Ok (enc, t)
      end
  end.

End W3lib.
End W3lib.

(** ** [src/response.py] *)

(** The [body] and [url] arguments of the constructors, by the Python
    type the code tests for: [None], [bytes], [str], anything else. *)
Inductive body_arg : Type :=
| BodyNone
| BodyBytes (l : bytes)
| BodyText (t : utext)
| BodyOther.

Inductive url_arg : Type :=
| UrlStr (s : string)
| UrlOther.

Section Classes.
Context {W : World}.
Local Open Scope py_scope.

(** *** class [Response] *)

Record Response : Type := mkResponse {
  headers : Headers;
  status : Z;
  _body : bytes;
  _url : string;
  request : option Request;
  flags : list string }.

Definition set_headers (v : Headers) (r : Response) : Response :=
  mkResponse v (status r) (_body r) (_url r) (request r) (flags r).
Definition set_status (v : Z) (r : Response) : Response :=
  mkResponse (headers r) v (_body r) (_url r) (request r) (flags r).
Definition set__body (v : bytes) (r : Response) : Response :=
  mkResponse (headers r) (status r) v (_url r) (request r) (flags r).
Definition set__url (v : string) (r : Response) : Response :=
  mkResponse (headers r) (status r) (_body r) v (request r) (flags r).
Definition set_request (v : option Request) (r : Response) : Response :=
  mkResponse (headers r) (status r) (_body r) (_url r) v (flags r).
Definition set_flags (v : list string) (r : Response) : Response :=
  mkResponse (headers r) (status r) (_body r) (_url r) (request r) v.

(** What the field [_body] holds while the attribute does not exist. *)
Definition unset_body : bytes := b "<unset>".

(** A new object before [__init__] has stored anything.  Python gives it
    no attribute yet, and no attribute of the base class is read before
    it is stored ([headers] is the first store).  The field [_body] does
    not start as the empty byte string, which is what [_set_body] stores
    for [None]: the body of a constructed object is what [_set_body]
    stored, not what the record started with. *)
Definition Response__new__ (h : Headers) : Response :=
  mkResponse h 0%Z unset_body EmptyString None [].

Definition Response_set_url (url : url_arg) : M Response unit :=
  match url with
  | UrlStr s => setattr (set__url s)
  | UrlOther => raise TypeError
  end.

Definition Response_set_body (body : body_arg) : M Response unit :=
  match body with
  | BodyNone => setattr (set__body [])
  | BodyBytes l => setattr (set__body l)
  | BodyText _ | BodyOther => raise TypeError
  end.

(** [Response.__init__].  [self._set_body] and [self._set_url] are looked
    up on the object, so a subclass runs its own: they are arguments, with
    [up] running a method of the base class on the object. *)
Definition Response__init__ {S : Type}
    (up : forall A, M Response A -> M S A)
    (_set_body : body_arg -> M S unit) (_set_url : url_arg -> M S unit)
    (url : url_arg) (status : Z) (hdrs : Headers) (body : body_arg)
    (flags : option (list string)) (request : option Request) : M S unit :=
  up _ (setattr (set_headers hdrs)) ;;;
  up _ (setattr (set_status status)) ;;;
  _set_body body ;;;
  _set_url url ;;;
  up _ (setattr (set_request request)) ;;;
  up _ (setattr (set_flags match flags with
                           | None => []
                           | Some l => l
                           end)).

(** [Response(url, status, headers, body, flags, request)] *)
Definition Response_new (url : url_arg) (status : Z) (hdrs : Headers)
    (body : body_arg) (flags : option (list string))
    (request : option Request) : outcome Response :=
  match Response__init__ (fun _ m => m) Response_set_body Response_set_url
          url status hdrs body flags request (Response__new__ hdrs) with
  | (Ok _, self) => Ok self
  | (Raise e, _) => Raise e
  end.

(** [Response.urljoin] *)
Definition Response_urljoin (url : Urllib.arg Response)
  : M Response (Urllib.arg Response) :=
  base <- getattr _url ;;
  call (Urllib.urljoin check_bracketed_netloc checknetloc_nfkc
          (Urllib.AStr base) url).

(** *** class [TextResponse]

    Modelled from the spec: [memoizemethod_noargs] of [.utils] is not part
    of the sources; the spec has a cell per memoized method
    ([cachedHeaderEncoding], [cachedBodyDeclaredEncoding]), each computed
    at most once.  The cells are [memo_headers_encoding] and
    [memo_body_declared_encoding]: [None] before the first call, the
    result of the method after it. *)

Record TextResponse : Type := mkTextResponse {
  super : Response;
  _encoding : option string;
  _cached_benc : option string;
  _cached_ubody : option utext;
  _cached_selector : option Selector;
  memo_headers_encoding : option (option string);
  memo_body_declared_encoding : option (option string) }.

Definition set_super (v : Response) (t : TextResponse) : TextResponse :=
  mkTextResponse v (_encoding t) (_cached_benc t) (_cached_ubody t)
    (_cached_selector t) (memo_headers_encoding t)
    (memo_body_declared_encoding t).
Definition set__cached_benc (v : option string) (t : TextResponse)
  : TextResponse :=
  mkTextResponse (super t) (_encoding t) v (_cached_ubody t)
    (_cached_selector t) (memo_headers_encoding t)
    (memo_body_declared_encoding t).
Definition set__cached_ubody (v : option utext) (t : TextResponse)
  : TextResponse :=
  mkTextResponse (super t) (_encoding t) (_cached_benc t) v
    (_cached_selector t) (memo_headers_encoding t)
    (memo_body_declared_encoding t).
Definition set__cached_selector (v : option Selector) (t : TextResponse)
  : TextResponse :=
  mkTextResponse (super t) (_encoding t) (_cached_benc t) (_cached_ubody t)
    v (memo_headers_encoding t) (memo_body_declared_encoding t).
Definition set_memo_headers_encoding (v : option (option string))
    (t : TextResponse) : TextResponse :=
  mkTextResponse (super t) (_encoding t) (_cached_benc t) (_cached_ubody t)
    (_cached_selector t) v (memo_body_declared_encoding t).
Definition set_memo_body_declared_encoding (v : option (option string))
    (t : TextResponse) : TextResponse :=
  mkTextResponse (super t) (_encoding t) (_cached_benc t) (_cached_ubody t)
    (_cached_selector t) (memo_headers_encoding t) v.

(** A method of the base class run on a [TextResponse]. *)
Definition on_super {A} (m : M Response A) : M TextResponse A :=
  fun self => let (r, s') := m (super self) in (r, set_super s' self).

(** The [body] property read on a [TextResponse]. *)
Definition body (self : TextResponse) : bytes := _body (super self).
Definition url (self : TextResponse) : string := _url (super self).

Definition memoizemethod_noargs {A}
    (cell : TextResponse -> option A)
    (store : option A -> TextResponse -> TextResponse)
    (method : M TextResponse A) : M TextResponse A :=
  c <- getattr cell ;;
  match c with
  | Some v => ret v
  | None => v <- method ;; setattr (store (Some v)) ;;; ret v
  end.

Definition _DEFAULT_ENCODING : string := "ascii".

(** [six.PY2] *)
Definition PY2 : bool := false.

Definition _headers_encoding : M TextResponse (option string) :=
  memoizemethod_noargs memo_headers_encoding set_memo_headers_encoding
    (h <- getattr (fun self => headers (super self)) ;;
     content_type <- ret (Headers_get h (b "Content-Type") (b "")) ;;
     s <- call (to_native_str (Bytes content_type) None) ;;
     ret (http_content_type_encoding s)).

Definition _body_declared_encoding : M TextResponse (option string) :=
  memoizemethod_noargs memo_body_declared_encoding
    set_memo_body_declared_encoding
    (l <- getattr body ;;
     ret (html_body_declared_encoding l)).

(** The loop of [_auto_detect_fun]: [except UnicodeError: continue], any
    other exception propagates, and falling off the end returns [None]. *)
Fixpoint _auto_detect_loop (encs : list string) (text : bytes)
  : outcome (option string) :=
  match encs with
  | [] => Ok None
  | enc :: encs' =>
      match bytes_decode text enc Strict with
      | Ok _ => Ok (resolve_encoding enc)
      | Raise UnicodeError => _auto_detect_loop encs' text
      | Raise e => Raise e
      end
  end.

Definition _auto_detect_fun (text : bytes) : outcome (option string) :=
  _auto_detect_loop [_DEFAULT_ENCODING; "utf-8"; "cp1252"] text.

Definition _body_inferred_encoding : M TextResponse (option string) :=
  c <- getattr _cached_benc ;;
  match c with
  | None =>
      h <- getattr (fun self => headers (super self)) ;;
      content_type <-
        call (to_native_str (Bytes (Headers_get h (b "Content-Type") (b "")))
                None) ;;
      l <- getattr body ;;
      r <- call (W3lib.html_to_unicode content_type l _DEFAULT_ENCODING
                   (Some _auto_detect_fun)) ;;
      setattr (set__cached_benc (Some (fst r))) ;;;
      setattr (set__cached_ubody (Some (snd r)))
  | Some _ => ret tt
  end ;;;
  getattr _cached_benc.

Definition _declared_encoding : M TextResponse (option string) :=
  getattr _encoding orelse _headers_encoding orelse _body_declared_encoding.

(** The [encoding] property. *)
Definition encoding : M TextResponse (option string) :=
  _declared_encoding orelse _body_inferred_encoding.

(** The [text] property. *)
Definition text : M TextResponse utext :=
  benc <- encoding ;;
  c <- getattr _cached_ubody ;;
  match c with
  | None =>
      let charset := ("charset=" ++ str_of benc)%string in
      l <- getattr body ;;
      r <- call (W3lib.html_to_unicode charset l "utf8" None) ;;
      setattr (set__cached_ubody (Some (snd r))) ;;;
      ret (snd r)
  | Some t => ret t
  end.

Definition body_as_unicode : M TextResponse utext := text.

Definition TextResponse_set_url (url : url_arg) : M TextResponse unit :=
  match url with
  | UrlStr s =>
      (if PY2
       then e <- encoding ;;
            match e with None => raise TypeError | Some _ => ret tt end
       else ret tt) ;;;
      e <- encoding ;;
      s' <- call (to_native_str (Text s) e) ;;
      on_super (setattr (set__url s'))
  | UrlOther => on_super (Response_set_url url)
  end.

Definition TextResponse_set_body (body : body_arg) : M TextResponse unit :=
  on_super (setattr (set__body [])) ;;;
  match body with
  | BodyText t =>
      e <- getattr _encoding ;;
      match e with
      | None => raise TypeError
      | Some e =>
          l <- call (str_encode t e) ;;
          on_super (setattr (set__body l))
      end
  | BodyNone | BodyBytes _ | BodyOther => on_super (Response_set_body body)
  end.

(** A new [TextResponse] object as [TextResponse.__init__] leaves it
    before it calls the base class: the four stores of its first lines,
    and the memo cells of a new object empty. *)
Definition TextResponse__new__ (encoding : option string) (h : Headers)
  : TextResponse :=
  mkTextResponse (Response__new__ h) encoding None None None None None.

Definition TextResponse__init__ (url : url_arg) (status : Z) (hdrs : Headers)
    (body : body_arg) (flags : option (list string))
    (request : option Request) : M TextResponse unit :=
  Response__init__ (@on_super) TextResponse_set_body TextResponse_set_url
    url status hdrs body flags request.

(** [TextResponse(url, status, headers, body, flags, request,
    encoding=...)] *)
Definition TextResponse_new (url : url_arg) (status : Z) (hdrs : Headers)
    (body : body_arg) (flags : option (list string))
    (request : option Request) (encoding : option string)
  : outcome TextResponse :=
  match TextResponse__init__ url status hdrs body flags request
          (TextResponse__new__ encoding hdrs) with
  | (Ok _, self) => Ok self
  | (Raise e, _) => Raise e
  end.

(** [TextResponse.urljoin]: the base handed to [urljoin] is the response
    object. *)
Definition TextResponse_urljoin (url : Urllib.arg TextResponse)
  : M TextResponse (Urllib.arg TextResponse) :=
  fun self =>
    (Urllib.urljoin check_bracketed_netloc checknetloc_nfkc
       (Urllib.AObj self) url, self).

(** [replace]: [self.encoding] is evaluated for [kwargs.setdefault], then
    [Response.replace] is looked up, which class [Response] does not
    define. *)
Definition replace : M TextResponse unit :=
  encoding ;;; raise AttributeError.

(** *** [src/selector.py]: [Selector(response)] *)
Definition Selector__init__ : M TextResponse Selector :=
  t <- text ;;
  base_url <- getattr url ;;
  call (parsel_Selector t base_url).

(** The [selector] property and [xpath]. *)
Definition selector : M TextResponse Selector :=
  c <- getattr _cached_selector ;;
  match c with
  | None =>
      s <- Selector__init__ ;;
      setattr (set__cached_selector (Some s)) ;;;
      ret s
  | Some s => ret s
  end.

Definition xpath (query : string) : M TextResponse SelectorList :=
  s <- selector ;;
  call (parsel_xpath s query).

(** *** The public operations of a [TextResponse] and the objects a
    program can hold *)

Inductive op : Type :=
| OpEncoding
| OpText
| OpBodyAsUnicode
| OpUrljoin (url : Urllib.arg TextResponse)
| OpSelector
| OpXpath (query : string)
| OpReplace.

Definition forget {A} (m : M TextResponse A) : M TextResponse unit :=
  m ;;; ret tt.

Definition run_op (o : op) : M TextResponse unit :=
  match o with
  | OpEncoding => forget encoding
  | OpText => forget text
  | OpBodyAsUnicode => forget body_as_unicode
  | OpUrljoin url => forget (TextResponse_urljoin url)
  | OpSelector => forget selector
  | OpXpath query => forget (xpath query)
  | OpReplace => replace
  end.

(** The object after an operation, whether it returned or raised. *)
Definition after (o : op) (self : TextResponse) : TextResponse :=
  snd (run_op o self).

(** The states of a response a program can observe: what the constructor
    returns, and what any sequence of public operations makes of it.
    Attributes are not assigned from outside: [url] and [body] have
    setters that refuse, and the record is immutable but for its caches. *)
Inductive reachable : TextResponse -> Prop :=
| reach_new url status hdrs body flags request encoding self :
    TextResponse_new url status hdrs body flags request encoding = Ok self ->
    reachable self
| reach_op o self :
    reachable self -> reachable (after o self).

End Classes.

(** ** The signals of the encoding cascade, as functions of the inputs

    What each step of the cascade computes from the attributes that are
    stored once and for all ([_encoding], [headers], the body), with no
    cache in between.  [resolveEncoding] is the operation of the spec:
    the first signal that is set wins, in the order override, transport,
    document, inference. *)

Section Cascade.
Context {W : World}.
Local Open Scope py_scope.

(** [to_native_str(self.headers.get(b'Content-Type', b''))] *)
Definition content_type (self : TextResponse) : outcome string :=
  to_native_str
    (Bytes (Headers_get (headers (super self)) (b "Content-Type") (b "")))
    None.

(** Transport-declared: the charset of the [Content-Type] header. *)
Definition transport_declared (self : TextResponse)
  : outcome (option string) :=
  let! s := content_type self in Ok (http_content_type_encoding s).

(** Document-declared: the encoding declared inside the body. *)
Definition document_declared (self : TextResponse) : option string :=
  html_body_declared_encoding (body self).

(** Body-inferred: the encoding and the text of the one sniffing pass. *)
Definition body_inferred (self : TextResponse) : outcome (string * utext) :=
  let! ct := content_type self in
  W3lib.html_to_unicode ct (body self) _DEFAULT_ENCODING
    (Some _auto_detect_fun).

(** First match wins: the first signal that is set, else the fallback;
    a signal that raises ends the resolution. *)
Fixpoint first_match (signals : list (outcome (option string)))
    (fallback : outcome (option string)) : outcome (option string) :=
  match signals with
  | [] => fallback
  | Ok v :: signals' =>
      if truthy v then Ok v else first_match signals' fallback
  | Raise e :: _ => Raise e
  end.

Definition declared (self : TextResponse) : outcome (option string) :=
  first_match [Ok (_encoding self); transport_declared self]
    (Ok (document_declared self)).

Definition resolveEncoding (self : TextResponse) : outcome (option string) :=
  first_match
    [Ok (_encoding self); transport_declared self;
     Ok (document_declared self)]
    (let! r := body_inferred self in Ok (Some (fst r))).

(** The text [text] computes when no cached text is there: the lossy
    conversion of the body under the header [charset=<encoding>]. *)
Definition materialize (benc : option string) (self : TextResponse)
  : outcome (string * utext) :=
  W3lib.html_to_unicode ("charset=" ++ str_of benc)%string (body self)
    "utf8" None.

(** *** What the caches hold

    Each cache, when set, holds the value of its signal; the decoded text
    is the text of the sniffing pass when that pass ran, else the text
    materialized under a declared encoding. *)
Record coherent (self : TextResponse) : Prop := mkCoherent {
  memo_headers_ok :
    forall v, memo_headers_encoding self = Some v ->
              transport_declared self = Ok v;
  memo_body_ok :
    forall v, memo_body_declared_encoding self = Some v ->
              v = document_declared self;
  benc_ok :
    forall e, _cached_benc self = Some e ->
              exists t, body_inferred self = Ok (e, t)
                        /\ _cached_ubody self = Some t;
  ubody_ok :
    forall t, _cached_ubody self = Some t -> _cached_benc self = None ->
              exists e enc, declared self = Ok e /\ truthy e = true
                            /\ materialize e self = Ok (enc, t) }.

(** A consistent object: its caches are coherent and the cascade returns
    on its inputs. *)
Definition consistent (self : TextResponse) : Prop :=
  coherent self /\ exists e, resolveEncoding self = Ok e.

(** Write-once: the attributes stored at construction are the same, and
    a cache that is set keeps its value. *)
Record extends (self self' : TextResponse) : Prop := mkExtends {
  same_super : super self' = super self;
  same_encoding : _encoding self' = _encoding self;
  keep_benc :
    forall v, _cached_benc self = Some v -> _cached_benc self' = Some v;
  keep_ubody :
    forall v, _cached_ubody self = Some v -> _cached_ubody self' = Some v;
  keep_selector :
    forall v, _cached_selector self = Some v ->
              _cached_selector self' = Some v;
  keep_memo_headers :
    forall v, memo_headers_encoding self = Some v ->
              memo_headers_encoding self' = Some v;
  keep_memo_body :
    forall v, memo_body_declared_encoding self = Some v ->
              memo_body_declared_encoding self' = Some v }.

(** The object [TextResponse.__init__] has built when it reaches
    [self._set_url(url)]. *)
Definition with_body (encoding : option string) (hdrs : Headers)
    (status : Z) (l : bytes) : TextResponse :=
  mkTextResponse (mkResponse hdrs status l EmptyString None [])
    encoding None None None None None.

(** The bytes the constructor stores for a body argument. *)
Definition stored_body (encoding : option string) (body : body_arg)
  : outcome bytes :=
  match body with
  | BodyNone => Ok []
  | BodyBytes l => Ok l
  | BodyText t =>
      match encoding with
      | None => Raise TypeError
      | Some e => str_encode t e
      end
  | BodyOther => Raise TypeError
  end.

(** The candidate the auto-detect fallback settles on, in the spec's
    words: the first of the list under which the bytes decode without
    error. *)
Fixpoint first_decodable (encs : list string) (text : bytes)
  : option string :=
  match encs with
  | [] => None
  | enc :: encs' =>
      match bytes_decode text enc Strict with
      | Ok _ => Some enc
      | Raise _ => first_decodable encs' text
      end
  end.

(** When a strict decode under a candidate fails, it fails with a
    [UnicodeError]. *)
Definition decode_errors_are_unicode (encs : list string) (text : bytes)
  : Prop :=
  forall enc x, In enc encs -> bytes_decode text enc Strict = Raise x ->
                x = UnicodeError.

(** The encoding the sniffing pass settles on when nothing is declared
    and the body has no BOM: the canonical name of the first candidate
    that decodes, and the default when none does (or when that candidate
    has no canonical name). *)
Definition auto_detected (text : bytes) : string :=
  match first_decodable [_DEFAULT_ENCODING; "utf-8"; "cp1252"] text with
  | Some enc =>
      match resolve_encoding enc with
      | Some c => c
      | None => _DEFAULT_ENCODING
      end
  | None => _DEFAULT_ENCODING
  end.

End Cascade.

Arguments transport_declared : simpl never.
Arguments document_declared : simpl never.
Arguments body_inferred : simpl never.
Arguments declared : simpl never.
Arguments resolveEncoding : simpl never.
Arguments materialize : simpl never.

(** ** The rest of class [Response]: [meta] and [__str__] *)

Section Accessors.
Context {W : World}.
Local Open Scope py_scope.

(** What reading the [meta] attribute of a request gives. *)
Variable Meta : Type.
Variable Request_meta : Request -> outcome Meta.

(** [self.request.meta]; [None] has no attribute [meta]. *)
Definition request_meta (rq : option Request) : outcome Meta :=
  match rq with
  | Some r => Request_meta r
  | None => Raise AttributeError
  end.

(** The [meta] property: an [AttributeError] out of the [try] body is
    raised anew, with the message of the property; any other exception
    passes. *)
Definition meta : M Response Meta :=
  rq <- getattr request ;;
  match request_meta rq with
  | Ok m => ret m
  | Raise AttributeError => raise AttributeError
  | Raise e => raise e
  end.

(** [meta] read on a [TextResponse]. *)
Definition TextResponse_meta : M TextResponse Meta := on_super meta.

(** ['%d' % n] *)
Definition decimal (n : Z) : string :=
  DecimalString.NilEmpty.string_of_int (Z.to_int n).

(** [__str__], which is [__repr__] too:
    ["<%d %s>" % (self.status, self.url)]. *)
Definition Response__str__ : M Response string :=
  st <- getattr status ;;
  url <- getattr _url ;;
  ret ("<" ++ decimal st ++ " " ++ url ++ ">")%string.

End Accessors.

(** ** The text and the selector, as functions of the inputs *)

Section Derived.
Context {W : World}.
Local Open Scope py_scope.

(** The text of a response: under a declared encoding the body converted
    under it, and with none declared the text of the sniffing pass. *)
Definition resolveText (self : TextResponse) : outcome utext :=
  let! d := declared self in
  let! r := (if truthy d then materialize d self else body_inferred self) in
  Ok (snd r).

(** The selector of a response: [Selector(response)] of
    [src/selector.py], which hands [response.text] and, as [base_url],
    [response.url] to parsel. *)
Definition resolveSelector (self : TextResponse) : outcome Selector :=
  let! t := resolveText self in
  parsel_Selector t (url self).

(** What the caches of the sniffing pass and of the selector tell: the
    pass has run only if no encoding is declared, and a cached selector is
    the one of the response. *)
Record settled (self : TextResponse) : Prop := mkSettled {
  sniffed_undeclared :
    forall e, _cached_benc self = Some e ->
              exists d, declared self = Ok d /\ truthy d = false;
  selector_ok :
    forall s, _cached_selector self = Some s ->
              resolveSelector self = Ok s }.

End Derived.

Arguments resolveText : simpl never.
Arguments resolveSelector : simpl never.

(** ** [Fragment]: a concrete world

    The part of a Python 3 interpreter with w3lib installed that the
    examples below run in.  Its codec registry holds five codecs of the
    standard library, [ascii], [utf_8], [cp1252], [latin_1] and
    [undefined]; every other name is unknown to it.  Header values and
    names are ASCII, and bodies carry no markup (see
    [html_body_declared_encoding] below). *)

Module Fragment.
Local Open Scope py_scope.
Local Open Scope N_scope.

Inductive codec : Type := c_ascii | c_utf_8 | c_cp1252 | c_latin_1 | c_undefined.

(** [CodecInfo.name] *)
Definition codec_name (c : codec) : string :=
  match c with
  | c_ascii => "ascii"
  | c_utf_8 => "utf-8"
  | c_cp1252 => "cp1252"
  | c_latin_1 => "iso8859-1"
  | c_undefined => "undefined"
  end.

Definition is_alnum (c : ascii) : bool :=
  Str.is_lower c || Str.is_upper c || Str.is_digit c.

(** [encodings.normalize_encoding]: runs of characters that are neither
    alphanumeric nor a dot become one underscore; leading and trailing
    runs are dropped. *)
Fixpoint normalize_loop (s : string) (punct started : bool) : string :=
  match s with
  | EmptyString => EmptyString
  | String c s' =>
      if is_alnum c || Ascii.eqb c "."
      then (if punct && started then String "_" (String c (normalize_loop s' false true))
            else String c (normalize_loop s' false true))
      else normalize_loop s' true started
  end.

Definition normalize_encoding (encoding : string) : string :=
  normalize_loop encoding false false.

(** [encodings.aliases.aliases.get(name)] for the five codecs. *)
Definition aliases (name : string) : option string :=
  if Str.mem name ["646"; "ansi_x3.4_1968"; "ansi_x3.4_1986"; "ansi_x3_4_1968";
                   "cp367"; "csascii"; "ibm367"; "iso646_us";
                   "iso_646.irv_1991"; "iso_ir_6"; "us"; "us_ascii"]
  then Some "ascii"
  else if Str.mem name ["cp65001"; "u8"; "utf"; "utf8"; "utf8_ucs2"; "utf8_ucs4"]
  then Some "utf_8"
  else if Str.mem name ["1252"; "windows_1252"]
  then Some "cp1252"
  else if Str.mem name ["8859"; "cp819"; "csisolatin1"; "ibm819"; "iso8859";
                        "iso8859_1"; "iso_8859_1"; "iso_8859_1_1987";
                        "iso_ir_100"; "l1"; "latin"; "latin1"]
  then Some "latin_1"
  else None.

(** The codec modules of the registry, by module name. *)
Definition codec_module (modname : string) : option codec :=
  if String.eqb modname "ascii" then Some c_ascii
  else if String.eqb modname "utf_8" then Some c_utf_8
  else if String.eqb modname "cp1252" then Some c_cp1252
  else if String.eqb modname "latin_1" then Some c_latin_1
  else if String.eqb modname "undefined" then Some c_undefined
  else None.

(** [codecs.lookup(name)]; [None] is [LookupError]. *)
Definition codecs_lookup (name : string) : option codec :=
  let norm := normalize_encoding (Str.lower name) in
  match aliases norm with
  | Some modname => codec_module modname
  | None => codec_module norm
  end.

(** *** The decoders

    A decoder first scans the bytes into code points, with [None] where
    the input is ill-formed; the [strict] handler raises on the first
    [None] and the [replace] handler writes U+FFFD for it. *)

Definition scan_ascii (l : list N) : list (option N) :=
  map (fun n => if n <? 128 then Some n else None) l.

Definition scan_latin_1 (l : list N) : list (option N) := map (@Some N) l.

(** [encodings.cp1252.decoding_table] *)
Definition cp1252_high : list (option N) :=
  [Some 0x20AC; None; Some 0x201A; Some 0x0192; Some 0x201E; Some 0x2026;
   Some 0x2020; Some 0x2021; Some 0x02C6; Some 0x2030; Some 0x0160;
   Some 0x2039; Some 0x0152; None; Some 0x017D; None;
   None; Some 0x2018; Some 0x2019; Some 0x201C; Some 0x201D; Some 0x2022;
   Some 0x2013; Some 0x2014; Some 0x02DC; Some 0x2122; Some 0x0161;
   Some 0x203A; Some 0x0153; None; Some 0x017E; Some 0x0178].

Definition cp1252_char (n : N) : option N :=
  if (0x80 <=? n) && (n <=? 0x9F)
  then nth (N.to_nat (n - 0x80)) cp1252_high None
  else Some n.

Definition scan_cp1252 (l : list N) : list (option N) := map cp1252_char l.

Definition is_cont (n : N) : bool := (0x80 <=? n) && (n <=? 0xBF).

(** The UTF-8 decoder: well-formed sequences as in table 3-7 of the
    Unicode standard; an ill-formed sequence gives one [None] for its
    maximal well-formed prefix (one byte when there is none), and decoding
    resumes right after it. *)
Fixpoint scan_utf_8 (l : list N) : list (option N) :=
  match l with
  | [] => []
  | b0 :: tl =>
      if b0 <? 0x80 then Some b0 :: scan_utf_8 tl
      else if (0xC2 <=? b0) && (b0 <=? 0xDF) then
        match tl with
        | [] => [None]
        | b1 :: tl1 =>
            if is_cont b1
            then Some ((b0 - 0xC0) * 64 + (b1 - 0x80)) :: scan_utf_8 tl1
            else None :: scan_utf_8 tl
        end
      else if (0xE0 <=? b0) && (b0 <=? 0xEF) then
        match tl with
        | [] => [None]
        | b1 :: tl1 =>
            if ((if b0 =? 0xE0 then 0xA0 else 0x80) <=? b1)
               && (b1 <=? (if b0 =? 0xED then 0x9F else 0xBF))
            then
              match tl1 with
              | [] => [None]
              | b2 :: tl2 =>
                  if is_cont b2
                  then Some ((b0 - 0xE0) * 4096 + (b1 - 0x80) * 64
                             + (b2 - 0x80)) :: scan_utf_8 tl2
                  else None :: scan_utf_8 tl1
              end
            else None :: scan_utf_8 tl
        end
      else if (0xF0 <=? b0) && (b0 <=? 0xF4) then
        match tl with
        | [] => [None]
        | b1 :: tl1 =>
            if ((if b0 =? 0xF0 then 0x90 else 0x80) <=? b1)
               && (b1 <=? (if b0 =? 0xF4 then 0x8F else 0xBF))
            then
              match tl1 with
              | [] => [None]
              | b2 :: tl2 =>
                  if is_cont b2 then
                    match tl2 with
                    | [] => [None]
                    | b3 :: tl3 =>
                        if is_cont b3
                        then Some ((b0 - 0xF0) * 262144 + (b1 - 0x80) * 4096
                                   + (b2 - 0x80) * 64 + (b3 - 0x80))
                             :: scan_utf_8 tl3
                        else None :: scan_utf_8 tl2
                    end
                  else None :: scan_utf_8 tl1
              end
            else None :: scan_utf_8 tl
        end
      else None :: scan_utf_8 tl
  end.

Definition scan (c : codec) (l : list N) : list (option N) :=
  match c with
  | c_ascii => scan_ascii l
  | c_utf_8 => scan_utf_8 l
  | c_cp1252 => scan_cp1252 l
  | c_latin_1 => scan_latin_1 l
  | c_undefined => []
  end.

Fixpoint handle_errors (e : errors) (l : list (option N)) : outcome utext :=
  match l with
  | [] => Ok []
  | Some n :: l' => let! t := handle_errors e l' in Ok (n :: t)
  | None :: l' =>
      match e with
      | Strict => Raise UnicodeError
      | Replace => let! t := handle_errors e l' in Ok (0xFFFD :: t)
      end
  end.

(** [codec.decode(data, errors)].  The [undefined] codec raises for every
    conversion and ignores the error handler. *)
Definition codec_decode (c : codec) (data : bytes) (e : errors)
  : outcome utext :=
  match c with
  | c_undefined => Raise UnicodeError
  | _ => handle_errors e (scan c (map Byte.to_N data))
  end.

(** [data.isascii()] *)
Definition is_ascii_bytes (l : bytes) : bool :=
  forallb (fun x => Byte.to_N x <? 128) l.

(** [data.decode(encoding, errors)] *)
Definition bytes_decode (data : bytes) (encoding : string) (e : errors)
  : outcome utext :=
  match codecs_lookup encoding with
  | Some c => codec_decode c data e
  | None => Raise LookupError
  end.

(** *** The encoders *)

Definition encode_utf_8 (cp : N) : option (list N) :=
  if cp <? 0x80 then Some [cp]
  else if cp <? 0x800 then Some [0xC0 + cp / 64; 0x80 + cp mod 64]
  else if cp <? 0x10000 then
    if (0xD800 <=? cp) && (cp <=? 0xDFFF) then None
    else Some [0xE0 + cp / 4096; 0x80 + (cp / 64) mod 64; 0x80 + cp mod 64]
  else if cp <? 0x110000 then
    Some [0xF0 + cp / 262144; 0x80 + (cp / 4096) mod 64;
          0x80 + (cp / 64) mod 64; 0x80 + cp mod 64]
  else None.

(** Position of a code point in [cp1252_high]. *)
Fixpoint index_of (cp : N) (l : list (option N)) (i : N) : option N :=
  match l with
  | [] => None
  | Some n :: l' => if n =? cp then Some i else index_of cp l' (i + 1)
  | None :: l' => index_of cp l' (i + 1)
  end.

Definition encode_cp1252 (cp : N) : option (list N) :=
  if (cp <? 0x80) || ((0xA0 <=? cp) && (cp <=? 0xFF)) then Some [cp]
  else match index_of cp cp1252_high 0x80 with
       | Some n => Some [n]
       | None => None
       end.

Definition encode_char (c : codec) (cp : N) : option (list N) :=
  match c with
  | c_ascii => if cp <? 128 then Some [cp] else None
  | c_latin_1 => if cp <? 256 then Some [cp] else None
  | c_cp1252 => encode_cp1252 cp
  | c_utf_8 => encode_utf_8 cp
  | c_undefined => None
  end.

Definition byte_of_N (n : N) : byte :=
  match Byte.of_N n with
  | Some x => x
  | None => x00
  end.

Fixpoint codec_encode (c : codec) (t : utext) : outcome bytes :=
  match t with
  | [] => Ok []
  | cp :: t' =>
      match encode_char c cp with
      | Some l => let! r := codec_encode c t' in Ok (map byte_of_N l ++ r)%list
      | None => Raise UnicodeError
      end
  end.

(** [text.encode(encoding)] *)
Definition str_encode (t : utext) (encoding : string) : outcome bytes :=
  match codecs_lookup encoding with
  | Some c_undefined => Raise UnicodeError
  | Some c => codec_encode c t
  | None => Raise LookupError
  end.

(** *** [w3lib.encoding]: the name tables *)

Definition _c18n_encoding (encoding : string) : string :=
  let normed := Str.lower (normalize_encoding encoding) in
  match aliases normed with
  | Some a => a
  | None => normed
  end.

(** [DEFAULT_ENCODING_TRANSLATION.get(name)]: the entries whose key is a
    codec of the registry. *)
Definition DEFAULT_ENCODING_TRANSLATION (name : string) : option string :=
  if String.eqb name "ascii" then Some "cp1252"
  else if String.eqb name "latin_1" then Some "cp1252"
  else None.

Definition resolve_encoding (encoding_alias : string) : option string :=
  let c18n_encoding := _c18n_encoding encoding_alias in
  let translated :=
    match DEFAULT_ENCODING_TRANSLATION c18n_encoding with
    | Some t => t
    | None => c18n_encoding
    end in
  match codecs_lookup translated with
  | Some c => Some (codec_name c)
  | None => None
  end.

(** A word character or [-], on ASCII. *)
Definition word_or_dash (c : ascii) : bool :=
  is_alnum c || Ascii.eqb c "_" || Ascii.eqb c "-".

Fixpoint take_while (p : ascii -> bool) (s : string) : string :=
  match s with
  | EmptyString => EmptyString
  | String c s' => if p c then String c (take_while p s') else EmptyString
  end.

(** [_HEADER_ENCODING_RE.search(s)], the pattern being [charset=] and a
    group of one or more word characters or [-], compiled with [re.I]:
    the group of the leftmost match. *)
Fixpoint search_charset (s : string) : option string :=
  match s with
  | EmptyString => None
  | String _ s' =>
      let tok := take_while word_or_dash (Str.drop 8 s) in
      if String.eqb (Str.lower (Str.take 8 s)) "charset="
         && negb (String.eqb tok "")
      then Some tok
      else search_charset s'
  end.

Definition http_content_type_encoding (content_type : string)
  : option string :=
  if String.eqb content_type "" then None
  else match search_charset content_type with
       | Some tok => resolve_encoding tok
       | None => None
       end.

(** [html_body_declared_encoding]: the pattern it searches for starts at
    a [<]; on a body without one it finds nothing.  The Fragment has no
    others. *)
Definition html_body_declared_encoding (_ : bytes) : option string := None.

(** *** The package's own collaborators

    Modelled from the spec: the [Headers] class of [.headers] is not part
    of the sources; the spec has a case-insensitive byte-string mapping
    that the core reads with [get(name, default)].  Here a list of
    name-value pairs, the first pair with the name counting. *)
Definition Headers : Type := list (bytes * bytes).

Definition lower_byte (x : byte) : N :=
  let n := Byte.to_N x in
  if (65 <=? n) && (n <=? 90) then n + 32 else n.

Fixpoint same_name (a c : bytes) : bool :=
  match a, c with
  | [], [] => true
  | x :: a', y :: c' => (lower_byte x =? lower_byte y) && same_name a' c'
  | _, _ => false
  end.

Fixpoint Headers_get (h : Headers) (name default : bytes) : bytes :=
  match h with
  | [] => default
  | (k, v) :: h' => if same_name k name then v else Headers_get h' name default
  end.

(** Modelled from the spec: [to_native_str] of [.utils] is not part of
    the sources; the spec has the URL as a native text string and the
    header value handed to the parser as text.  A [str] passes unchanged
    and ASCII [bytes] decode to the same characters. *)
Definition to_native_str (text : strlike) (_ : option string)
  : outcome string :=
  match text with
  | Text s => Ok s
  | Bytes l => Urllib.ascii_decode l
  end.

(** The selector keeps what it was built from; the query engine is not
    modelled. *)
Record Selector : Type := mkSelector {
  sel_text : utext;
  sel_base_url : string }.

Definition world : World :=
  Build_World
    Headers_get
    to_native_str
    unit
    bytes_decode
    str_encode
    resolve_encoding
    http_content_type_encoding
    html_body_declared_encoding
    (fun _ => Ok tt)
    (fun _ => Ok tt)
    (fun t base_url => Ok (mkSelector t base_url))
    (fun (_ : Selector) (_ : string) => Ok tt).

End Fragment.

(** ** Example responses in the Fragment *)

Module Examples.

Definition W : World := Fragment.world.

(** [TextResponse("http://example.com/a/b", headers=..., body=...,
    encoding=...)] *)
Definition response (hdrs : Fragment.Headers) (body : body_arg)
    (encoding : option string) : outcome (TextResponse (W := W)) :=
  TextResponse_new (W := W) (UrlStr "http://example.com/a/b") 200 hdrs body
    None None encoding.

(** The object a constructor call returned. *)
Definition built (r : outcome (TextResponse (W := W)))
  : TextResponse (W := W) :=
  match r with
  | Ok self => self
  | Raise _ => TextResponse__new__ (W := W) None []
  end.

(** [Response("http://example.com/a/b")] *)
Definition plain : outcome (Response (W := W)) :=
  Response_new (W := W) (UrlStr "http://example.com/a/b") 200 [] BodyNone
    None None.

Definition built_plain (r : outcome (Response (W := W)))
  : Response (W := W) :=
  match r with
  | Ok self => self
  | Raise _ => Response__new__ (W := W) []
  end.

Definition content_type_utf8 : Fragment.Headers :=
  [(b "Content-Type", b "text/html; charset=UTF-8")].

(** The responses the examples run on. *)
Definition hello : TextResponse (W := W) :=
  built (response [] (BodyBytes (b "hello")) None).
Definition forced_utf8 (body : body_arg) : TextResponse (W := W) :=
  built (response [] body (Some "utf-8")).
Definition with_header : TextResponse (W := W) :=
  built (response content_type_utf8 (BodyBytes [xa3]) None).

(** An object with its body stored and every cache empty. *)
Definition fresh_hello : TextResponse (W := W) :=
  with_body (W := W) None [] 200 (b "hello").

End Examples.

(** ** URL components without reserved characters *)

(** A component made of ASCII letters and digits. *)
Definition alnum (s : string) : bool := Str.all Fragment.is_alnum s.

(** A path with no character other than letters, digits and [/]. *)
Definition clean (s : string) : Prop :=
  forall c, Fragment.is_alnum c = false -> c <> "/"%char ->
            Str.contains c s = false.

(** ** More example responses in the Fragment *)

Module MoreExamples.
Import Examples.

(** A body that starts with the UTF-8 byte-order mark. *)
Definition with_bom : TextResponse (W := W) :=
  built (response [] (BodyBytes (W3lib.BOM_UTF8 ++ b "hi")) None).

(** The UTF-8 bytes of [h], U+00E9, U+20AC. *)
Definition utf_8_bytes : bytes := [x68; xc3; xa9; xe2; x82; xac].

(** [Response("http://example.com/a/b")] *)
Definition page : Response (W := W) := built_plain plain.

(** The same with a request, which in the Fragment is the unit value. *)
Definition requested : outcome (Response (W := W)) :=
  Response_new (W := W) (UrlStr "http://example.com/a/b") 200 [] BodyNone
    None (Some tt).

(** [Response("")] and [Response("http://localhost/docs/index")] *)
Definition nowhere : outcome (Response (W := W)) :=
  Response_new (W := W) (UrlStr "") 200 [] BodyNone None None.
Definition local : outcome (Response (W := W)) :=
  Response_new (W := W) (UrlStr "http://localhost/docs/index") 200 []
    BodyNone None None.

(** The [meta] of a request of the Fragment: a dictionary with one
    key. *)
Definition depth_meta (_ : @Request W) : outcome (list (string * Z)) :=
  Ok [("depth", 1%Z)].

End MoreExamples.

(** * Theorems *)

Ltac conjs := repeat match goal with |- _ /\ _ => split end.

Section Methods.
Context {W : World}.

(** ** The methods, cache by cache *)

Lemma headers_encoding_eq self :
  _headers_encoding self =
  match memo_headers_encoding self with
  | Some v => (Ok v, self)
  | None =>
      match transport_declared self with
      | Ok v => (Ok v, set_memo_headers_encoding (Some v) self)
      | Raise e => (Raise e, self)
      end
  end.
Proof.
  unfold _headers_encoding, memoizemethod_noargs, transport_declared,
    content_type, bind, getattr, setattr, call, ret, obind.
  destruct (memo_headers_encoding self); [reflexivity|].
  destruct (to_native_str _ _); reflexivity.
Qed.

Lemma body_declared_encoding_eq self :
  _body_declared_encoding self =
  match memo_body_declared_encoding self with
  | Some v => (Ok v, self)
  | None => (Ok (document_declared self),
             set_memo_body_declared_encoding
               (Some (document_declared self)) self)
  end.
Proof.
  unfold _body_declared_encoding, memoizemethod_noargs, document_declared,
    bind, getattr, setattr, call, ret.
  destruct (memo_body_declared_encoding self); reflexivity.
Qed.

Lemma body_inferred_encoding_eq self :
  _body_inferred_encoding self =
  match _cached_benc self with
  | Some e => (Ok (Some e), self)
  | None =>
      match body_inferred self with
      | Ok r => (Ok (Some (fst r)),
                 set__cached_ubody (Some (snd r))
                   (set__cached_benc (Some (fst r)) self))
      | Raise e => (Raise e, self)
      end
  end.
Proof.
  unfold _body_inferred_encoding, body_inferred, content_type,
    bind, getattr, setattr, call, ret, obind.
  destruct (_cached_benc self) eqn:E; cbn; [rewrite E; reflexivity|].
  destruct (to_native_str _ _); [|reflexivity].
  unfold body.
  destruct (W3lib.html_to_unicode _ _ _ _); reflexivity.
Qed.

Lemma encoding_eq self :
  encoding self =
  if truthy (_encoding self) then (Ok (_encoding self), self)
  else
    match _headers_encoding self with
    | (Raise e, s1) => (Raise e, s1)
    | (Ok v, s1) =>
        if truthy v then (Ok v, s1)
        else
          match _body_declared_encoding s1 with
          | (Raise e, s2) => (Raise e, s2)
          | (Ok d, s2) =>
              if truthy d then (Ok d, s2) else _body_inferred_encoding s2
          end
    end.
Proof.
  unfold encoding, _declared_encoding, or_else, bind, getattr, ret.
  destruct (truthy (_encoding self)) eqn:E.
  - cbn. rewrite E. reflexivity.
  - destruct (_headers_encoding self) as [[v|e] s1]; [|reflexivity].
    destruct (truthy v) eqn:Ev.
    + cbn. rewrite Ev. reflexivity.
    + destruct (_body_declared_encoding s1) as [[d|e] s2]; [|reflexivity].
      destruct (truthy d) eqn:Ed; cbn; rewrite ?Ed; reflexivity.
Qed.

Lemma text_eq self :
  text self =
  match encoding self with
  | (Raise e, s1) => (Raise e, s1)
  | (Ok benc, s1) =>
      match _cached_ubody s1 with
      | Some t => (Ok t, s1)
      | None =>
          match materialize benc s1 with
          | Ok r => (Ok (snd r), set__cached_ubody (Some (snd r)) s1)
          | Raise e => (Raise e, s1)
          end
      end
  end.
Proof.
  unfold text, materialize, bind, getattr, setattr, call, ret.
  destruct (encoding self) as [[benc|e] s1]; [|reflexivity].
  destruct (_cached_ubody s1); [reflexivity|].
  destruct (W3lib.html_to_unicode _ _ _ _); reflexivity.
Qed.

End Methods.

Section Invariants.
Context {W : World}.

(** ** The signals read only what construction stored *)

Lemma signals_same_inputs s s' :
  headers (super s') = headers (super s) ->
  _body (super s') = _body (super s) ->
  _encoding s' = _encoding s ->
  transport_declared s' = transport_declared s
  /\ document_declared s' = document_declared s
  /\ body_inferred s' = body_inferred s
  /\ declared s' = declared s
  /\ resolveEncoding s' = resolveEncoding s
  /\ (forall e, materialize e s' = materialize e s).
Proof.
  intros Hh Hb He.
  unfold resolveEncoding, declared, materialize, body_inferred,
    transport_declared, document_declared, content_type, body.
  rewrite Hh, Hb, He. conjs; reflexivity.
Qed.

Lemma signals_same s s' :
  super s' = super s -> _encoding s' = _encoding s ->
  transport_declared s' = transport_declared s
  /\ document_declared s' = document_declared s
  /\ body_inferred s' = body_inferred s
  /\ declared s' = declared s
  /\ resolveEncoding s' = resolveEncoding s
  /\ (forall e, materialize e s' = materialize e s).
Proof.
  intros Hs He. apply signals_same_inputs; congruence.
Qed.

Lemma extends_refl s : extends s s.
Proof. constructor; auto. Qed.

Lemma extends_trans s1 s2 s3 : extends s1 s2 -> extends s2 s3 -> extends s1 s3.
Proof.
  intros [A1 A2 A3 A4 A5 A6 A7] [B1 B2 B3 B4 B5 B6 B7].
  constructor; try congruence; auto.
Qed.

(** Coherence is a matter of the inputs and of the four caches. *)
Lemma coherent_same_caches s s' :
  coherent s ->
  headers (super s') = headers (super s) ->
  _body (super s') = _body (super s) ->
  _encoding s' = _encoding s ->
  _cached_benc s' = _cached_benc s ->
  _cached_ubody s' = _cached_ubody s ->
  memo_headers_encoding s' = memo_headers_encoding s ->
  memo_body_declared_encoding s' = memo_body_declared_encoding s ->
  coherent s'.
Proof.
  intros [H1 H2 H3 H4] Hh Hb He Eb Eu Eh Ed.
  destruct (signals_same_inputs s s' Hh Hb He) as (T & D & I & DD & R & MM).
  constructor.
  - intros v. rewrite Eh, T. apply H1.
  - intros v. rewrite Ed, D. apply H2.
  - intros e. rewrite Eb, I, Eu. apply H3.
  - intros t. rewrite Eu, Eb, DD. intros A B.
    destruct (H4 t A B) as (e & enc & X & Y & Z).
    exists e, enc. rewrite MM. auto.
Qed.

Lemma headers_encoding_step self :
  coherent self ->
  fst (_headers_encoding self) = transport_declared self
  /\ coherent (snd (_headers_encoding self))
  /\ extends self (snd (_headers_encoding self)).
Proof.
  intros C. rewrite headers_encoding_eq.
  destruct (memo_headers_encoding self) as [v|] eqn:Em.
  - cbn. rewrite (memo_headers_ok C Em).
    conjs; auto using extends_refl.
  - destruct (transport_declared self) as [v|e] eqn:Et; cbn.
    + conjs; auto.
      * destruct C as [H1 H2 H3 H4]. constructor; auto.
        cbn. intros v' Hv. injection Hv as <-. exact Et.
      * constructor; cbn; auto. intros v' Hv. congruence.
    + conjs; auto using extends_refl.
Qed.

Lemma body_declared_encoding_step self :
  coherent self ->
  fst (_body_declared_encoding self) = Ok (document_declared self)
  /\ coherent (snd (_body_declared_encoding self))
  /\ extends self (snd (_body_declared_encoding self)).
Proof.
  intros C. rewrite body_declared_encoding_eq.
  destruct (memo_body_declared_encoding self) as [v|] eqn:Em; cbn.
  - rewrite (memo_body_ok C Em). conjs; auto using extends_refl.
  - conjs; auto.
    + destruct C as [H1 H2 H3 H4]. constructor; auto.
      cbn. intros v' Hv. injection Hv as <-. reflexivity.
    + constructor; cbn; auto. intros v' Hv. congruence.
Qed.

(** The sniffing pass runs only when no encoding is declared, and then
    no text has been materialized yet. *)
Lemma body_inferred_encoding_step self d :
  coherent self ->
  declared self = Ok d -> truthy d = false ->
  fst (_body_inferred_encoding self)
  = (match body_inferred self with
     | Ok r => Ok (Some (fst r))
     | Raise e => Raise e
     end)
  /\ coherent (snd (_body_inferred_encoding self))
  /\ extends self (snd (_body_inferred_encoding self))
  /\ (forall e, fst (_body_inferred_encoding self) = Ok e ->
                _cached_benc (snd (_body_inferred_encoding self)) <> None).
Proof.
  intros C Hd Hf. rewrite body_inferred_encoding_eq.
  destruct (_cached_benc self) as [e|] eqn:Eb.
  - destruct (benc_ok C Eb) as (t & Hi & Hu). rewrite Hi. cbn.
    conjs; auto using extends_refl. congruence.
  - destruct (body_inferred self) as [[e t]|x] eqn:Ei; cbn.
    + assert (Hu : _cached_ubody self = None).
      { destruct (_cached_ubody self) as [t'|] eqn:Eu; [|reflexivity].
        destruct (ubody_ok C Eu Eb) as (e' & enc & X & Y & _).
        congruence. }
      conjs; auto.
      * destruct C as [H1 H2 H3 H4]. constructor; auto; cbn.
        -- intros e' He'. injection He' as <-. exists t. auto.
        -- intros t' _ Hn. discriminate.
      * constructor; cbn; auto; intros v Hv; congruence.
      * discriminate.
    + conjs; auto using extends_refl. discriminate.
Qed.

End Invariants.

Section Resolution.
Context {W : World}.

(** ** [encoding] computes the cascade on its inputs and only extends
    the caches *)

Lemma encoding_step self :
  coherent self ->
  fst (encoding self) = resolveEncoding self
  /\ coherent (snd (encoding self))
  /\ extends self (snd (encoding self))
  /\ (forall e, fst (encoding self) = Ok e ->
                (declared self = Ok e /\ truthy e = true)
                \/ _cached_benc (snd (encoding self)) <> None).
Proof.
  intros C. rewrite encoding_eq.
  unfold resolveEncoding, declared. cbn [first_match].
  destruct (truthy (_encoding self)) eqn:E0.
  { cbn. conjs; auto using extends_refl. intros e [= <-]. auto. }
  destruct (headers_encoding_step C) as (F1 & C1 & X1).
  destruct (_headers_encoding self) as [r1 s1]. cbn in F1, C1, X1.
  rewrite <- F1.
  destruct r1 as [v|e]; [|cbn; conjs; auto; discriminate].
  destruct (truthy v) eqn:Ev.
  { cbn. conjs; auto. intros e [= <-]. auto. }
  destruct (signals_same self s1 (same_super X1) (same_encoding X1))
    as (T1 & D1 & I1 & DD1 & R1 & M1).
  destruct (body_declared_encoding_step C1) as (F2 & C2 & X2).
  destruct (_body_declared_encoding s1) as [r2 s2]. cbn in F2, C2, X2.
  rewrite F2, D1.
  destruct (truthy (document_declared self)) eqn:Ed.
  { cbn. conjs; eauto using extends_trans. intros e [= <-]. auto. }
  destruct (signals_same s1 s2 (same_super X2) (same_encoding X2))
    as (T2 & D2 & I2 & DD2 & R2 & M2).
  assert (Hd : declared s2 = Ok (document_declared self)).
  { rewrite DD2, DD1. unfold declared. cbn [first_match].
    rewrite E0, <- F1, Ev. reflexivity. }
  destruct (body_inferred_encoding_step C2 Hd Ed) as (F3 & C3 & X3 & N3).
  unfold obind. rewrite <- I1, <- I2, <- F3.
  conjs; eauto using extends_trans.
Qed.

(** [encoding] returns on every consistent state. *)
Lemma encoding_returns self :
  consistent self ->
  exists e, encoding self = (Ok e, snd (encoding self))
            /\ resolveEncoding self = Ok e.
Proof.
  intros [C (e & He)]. destruct (encoding_step C) as (F & _ & _).
  exists e.
  split; [|exact He].
  rewrite He in F. destruct (encoding self) as [r s]. cbn in *.
  congruence.
Qed.

(** [text] keeps the state consistent, only extends the caches, and
    returns whenever the lossy conversion it may need returns. *)
Lemma text_step self :
  coherent self ->
  coherent (snd (text self)) /\ extends self (snd (text self))
  /\ (forall e, resolveEncoding self = Ok e ->
                (exists r, materialize e self = Ok r) ->
                exists t, fst (text self) = Ok t).
Proof.
  intros C. rewrite text_eq.
  destruct (encoding_step C) as (F & C1 & X1 & N1).
  destruct (encoding self) as [r1 s1]. cbn in F, C1, X1, N1.
  destruct (signals_same self s1 (same_super X1) (same_encoding X1))
    as (T1 & D1 & I1 & DD1 & R1 & M1).
  destruct r1 as [benc|e].
  2:{ cbn. conjs; auto. intros e' He'. congruence. }
  destruct (_cached_ubody s1) as [t|] eqn:Eu.
  { cbn. conjs; auto. intros. exists t. reflexivity. }
  assert (Eb : _cached_benc s1 = None).
  { destruct (_cached_benc s1) as [e|] eqn:Eb; [|reflexivity].
    destruct (benc_ok C1 Eb) as (t' & _ & Hu). congruence. }
  destruct (N1 _ eq_refl) as [[Hd Ht]|Hn]; [|congruence].
  rewrite M1.
  destruct (materialize benc self) as [[enc t]|x] eqn:Em; cbn.
  - conjs.
    + destruct C1 as [H1 H2 H3 H4]. constructor; auto; cbn.
      * intros e He. congruence.
      * intros t' [= <-] _. exists benc, enc.
        destruct (signals_same s1 (set__cached_ubody (Some t) s1)
                    eq_refl eq_refl) as (_ & _ & _ & DD2 & _ & M2).
        rewrite DD2, M2, DD1, M1. auto.
    + eapply extends_trans; [exact X1|].
      constructor; cbn; auto. intros v Hv. congruence.
    + intros. exists t. reflexivity.
  - conjs; auto. intros e He [r Hr]. congruence.
Qed.

End Resolution.

Section Operations.
Context {W : World}.

(** ** Every public operation keeps the caches coherent and write-once *)

Lemma forget_snd A (m : M TextResponse A) self :
  snd (forget m self) = snd (m self).
Proof.
  unfold forget, bind, ret. destruct (m self) as [[a|e] s]; reflexivity.
Qed.

Lemma encoding_selector self :
  _cached_selector (snd (encoding self)) = _cached_selector self.
Proof.
  rewrite encoding_eq.
  destruct (truthy (_encoding self)); [reflexivity|].
  rewrite headers_encoding_eq.
  assert (H : forall s1 : TextResponse,
             _cached_selector s1 = _cached_selector self ->
             _cached_selector
               (snd (match _body_declared_encoding s1 with
                     | (Raise e, s2) => (Raise e, s2)
                     | (Ok d, s2) =>
                         if truthy d then (Ok d, s2)
                         else _body_inferred_encoding s2
                     end)) = _cached_selector self).
  { intros s1 H1. rewrite body_declared_encoding_eq.
    assert (H : forall s2 : TextResponse,
               _cached_selector s2 = _cached_selector self ->
               _cached_selector (snd (_body_inferred_encoding s2))
               = _cached_selector self).
    { intros s2 H2. rewrite body_inferred_encoding_eq.
      destruct (_cached_benc s2); [exact H2|].
      destruct (body_inferred s2); exact H2. }
    destruct (memo_body_declared_encoding s1) as [d|].
    - destruct (truthy d); [exact H1 | apply H, H1].
    - destruct (truthy (document_declared s1)); [exact H1 | apply H, H1]. }
  destruct (memo_headers_encoding self) as [v|].
  - destruct (truthy v); [reflexivity | apply H; reflexivity].
  - destruct (transport_declared self) as [v|]; [|reflexivity].
    destruct (truthy v); [reflexivity | apply H; reflexivity].
Qed.

Lemma text_selector self :
  _cached_selector (snd (text self)) = _cached_selector self.
Proof.
  rewrite text_eq. pose proof (encoding_selector self) as H.
  destruct (encoding self) as [[e|x] s1]; cbn in H; [|exact H].
  destruct (_cached_ubody s1); [exact H|].
  destruct (materialize e s1); exact H.
Qed.

Lemma selector_step self :
  coherent self ->
  coherent (snd (selector self)) /\ extends self (snd (selector self)).
Proof.
  intros C. unfold selector, Selector__init__, bind, getattr, setattr,
    call, ret.
  destruct (_cached_selector self) as [s|] eqn:Es.
  { cbn. auto using extends_refl. }
  destruct (text_step C) as (C1 & X1 & _).
  pose proof (text_selector self) as S1. rewrite Es in S1.
  destruct (text self) as [[t|e] s1]; cbn in *; [|auto].
  destruct (parsel_Selector t (url s1)) as [s|e]; cbn; [|auto].
  split.
  - eapply coherent_same_caches; [exact C1|..]; reflexivity.
  - eapply extends_trans; [exact X1|].
    constructor; cbn; auto.
    intros v Hv. congruence.
Qed.

Lemma op_step o self :
  coherent self ->
  coherent (after o self) /\ extends self (after o self).
Proof.
  intros C. unfold after. destruct o; cbn [run_op].
  - rewrite forget_snd. destruct (encoding_step C) as (_ & C1 & X1 & _). auto.
  - rewrite forget_snd. destruct (text_step C) as (C1 & X1 & _). auto.
  - rewrite forget_snd. destruct (text_step C) as (C1 & X1 & _). auto.
  - rewrite forget_snd. cbn. auto using extends_refl.
  - rewrite forget_snd. apply selector_step, C.
  - rewrite forget_snd. unfold xpath, bind, call.
    destruct (selector_step C) as (C1 & X1).
    destruct (selector self) as [[s|e] s1]; cbn in *; auto;
      destruct (parsel_xpath s query); auto.
  - unfold replace, bind, raise.
    destruct (encoding_step C) as (_ & C1 & X1 & _).
    destruct (encoding self) as [[e|e] s1]; cbn in *; auto.
Qed.

Lemma extends_resolveEncoding s s' :
  extends s s' -> resolveEncoding s' = resolveEncoding s.
Proof.
  intros X. apply (signals_same s s' (same_super X) (same_encoding X)).
Qed.

Lemma op_consistent o self :
  consistent self -> consistent (after o self).
Proof.
  intros [C (e & He)]. destruct (op_step o C) as (C1 & X1).
  split; [exact C1|]. exists e.
  rewrite (extends_resolveEncoding X1). exact He.
Qed.

(** ** What the constructor returns *)

Lemma with_body_coherent encoding hdrs status l :
  coherent (with_body encoding hdrs status l).
Proof. constructor; cbn; intros; discriminate. Qed.

Lemma TextResponse_new_eq url status hdrs body flags request encoding0 :
  TextResponse_new url status hdrs body flags request encoding0 =
  match stored_body encoding0 body with
  | Raise e => Raise e
  | Ok l =>
      match url with
      | UrlOther => Raise TypeError
      | UrlStr s =>
          match encoding (with_body encoding0 hdrs status l) with
          | (Raise e, _) => Raise e
          | (Ok e, s1) =>
              match to_native_str (Text s) e with
              | Raise x => Raise x
              | Ok s' =>
                  Ok (set_super
                        (set_flags match flags with
                                   | None => []
                                   | Some f => f
                                   end
                           (set_request request
                              (set__url s' (super s1)))) s1)
              end
          end
      end
  end.
Proof.
  unfold TextResponse_new, TextResponse__init__, Response__init__,
    TextResponse__new__, Response__new__, with_body.
  unfold TextResponse_set_body, TextResponse_set_url, Response_set_body,
    Response_set_url, PY2, stored_body.
  unfold bind, on_super, setattr, getattr, call, ret, raise.
  cbn.
  destruct body as [|l|t|]; cbn.
  - destruct url as [s|]; cbn; [|reflexivity].
    destruct (encoding _) as [[e|x] s1]; cbn; [|reflexivity].
    destruct (to_native_str _ _); reflexivity.
  - destruct url as [s|]; cbn; [|reflexivity].
    destruct (encoding _) as [[e|x] s1]; cbn; [|reflexivity].
    destruct (to_native_str _ _); reflexivity.
  - destruct encoding0 as [e0|]; cbn; [|reflexivity].
    destruct (str_encode t e0) as [l|x]; cbn; [|reflexivity].
    destruct url as [s|]; cbn; [|reflexivity].
    destruct (encoding _) as [[e|x] s1]; cbn; [|reflexivity].
    destruct (to_native_str _ _); reflexivity.
  - reflexivity.
Qed.

End Operations.

Section Reachable.
Context {W : World}.

(** The constructor stores its arguments, and the object it returns is
    consistent: storing the URL has run the cascade once. *)
Lemma TextResponse_new_spec url status0 hdrs body0 flags0 request0 encoding0
    self :
  TextResponse_new url status0 hdrs body0 flags0 request0 encoding0 = Ok self ->
  consistent self
  /\ _encoding self = encoding0
  /\ headers (super self) = hdrs
  /\ status (super self) = status0
  /\ request (super self) = request0
  /\ flags (super self) = match flags0 with None => [] | Some f => f end
  /\ stored_body encoding0 body0 = Ok (body self)
  /\ exists s e,
       url = UrlStr s
       /\ resolveEncoding self = Ok e
       /\ to_native_str (Text s) e = Ok (_url (super self))
       /\ self = set_super (super self)
                   (snd (encoding (with_body encoding0 hdrs status0
                                     (body self)))).
Proof.
  rewrite TextResponse_new_eq.
  destruct (stored_body encoding0 body0) as [l|x]; [|discriminate].
  destruct url as [s|]; [|discriminate].
  pose proof (with_body_coherent encoding0 hdrs status0 l) as C0.
  destruct (encoding_step C0) as (F & C1 & X1 & _).
  destruct (encoding (with_body encoding0 hdrs status0 l)) as [[e|x] s1] eqn:E;
    [|discriminate].
  cbn in F, C1, X1.
  destruct (to_native_str (Text s) e) as [s'|x] eqn:En; [|discriminate].
  intros [= <-].
  pose proof (same_super X1) as S1. pose proof (same_encoding X1) as E1.
  assert (Hh : headers (super s1) = hdrs) by (rewrite S1; reflexivity).
  assert (Hb : _body (super s1) = l) by (rewrite S1; reflexivity).
  match goal with |- consistent ?s /\ _ =>
    destruct (signals_same_inputs s1 s eq_refl eq_refl eq_refl)
      as (_ & _ & _ & _ & R & _);
    destruct (signals_same_inputs (with_body encoding0 hdrs status0 l) s1)
      as (_ & _ & _ & _ & R1 & _); [rewrite S1; reflexivity ..| exact E1 |]
  end.
  conjs; cbn. all: try (rewrite S1; reflexivity).
  - split.
    + eapply coherent_same_caches; [exact C1|..]; reflexivity.
    + exists e. rewrite R, R1. auto.
  - exact E1.
  - reflexivity.
  - reflexivity.
  - exists s, e. conjs; auto.
    + rewrite R, R1. auto.
    + rewrite Hb, E. reflexivity.
Qed.

Lemma reachable_consistent self : reachable self -> consistent self.
Proof.
  induction 1 as [url st hd bd fl rq enc self H | o self _ IH].
  - apply (TextResponse_new_spec _ _ _ _ _ _ _ H).
  - apply op_consistent, IH.
Qed.

End Reachable.

Section Idempotence.
Context {W : World}.










End Idempotence.

(** * The claims *)

Section Claims.
Context {W : World}.

Lemma reachable_encoding (self : TextResponse) :
  reachable self ->
  fst (encoding self) = resolveEncoding self.
Proof.
  intros R. destruct (reachable_consistent R) as [C _].
  apply (encoding_step C).
Qed.

(** C2.  On every response a program can hold, the [encoding] accessor
    returns what the first-match-wins cascade gives on the stored inputs:
    the override if it is set, else the charset of the [Content-Type]
    header, else the encoding declared in the body, else the body-inferred
    encoding.  A signal that is set hides every later one. *)
Theorem encoding_first_match_wins (self : TextResponse) :
  reachable self ->
  fst (encoding self) = resolveEncoding self.
Proof. exact (@reachable_encoding self). Qed.

(** With no override and a header that names a charset, the encoding is
    that charset whatever the body holds. *)
Lemma header_charset_wins (self : TextResponse) (e : string) :
  reachable self ->
  truthy (_encoding self) = false ->
  transport_declared self = Ok (Some e) -> e <> EmptyString ->
  fst (encoding self) = Ok (Some e).
Proof.
  intros R H0 Ht He. rewrite (reachable_encoding R).
  unfold resolveEncoding. cbn [first_match]. rewrite H0, Ht.
  cbn. destruct (String.eqb_spec e ""); [contradiction|reflexivity].
Qed.

(** C3 (amended).  The inferred encoding is never cached without the
    text of the same sniffing pass: when [_cached_benc] is set, so is
    [_cached_ubody], and the pair is what [html_to_unicode] returned for
    the body.  The text can be cached alone: then an encoding is declared
    and the text is the one materialized under it. *)
Theorem cached_benc_with_ubody (self : TextResponse) :
  reachable self ->
  (forall e, _cached_benc self = Some e ->
             exists t, _cached_ubody self = Some t
                       /\ body_inferred self = Ok (e, t))
  /\ (forall t, _cached_ubody self = Some t -> _cached_benc self = None ->
                exists e enc, declared self = Ok e /\ truthy e = true
                              /\ materialize e self = Ok (enc, t)).
Proof.
  intros R. destruct (reachable_consistent R) as [C _]. split.
  - intros e H. destruct (benc_ok C H) as (t & Hi & Hu). exists t. auto.
  - intros t Hu Hb. exact (ubody_ok C Hu Hb).
Qed.



(** C9.  Body typing at construction.  A plain [Response] given a body
    that is neither [bytes] nor [None] raises [TypeError]; a
    [TextResponse] given a text body and no encoding raises [TypeError]
    from the constructor; and a [None] body is stored as the empty byte
    string by both: the object a constructor returns has the body [b''],
    and [_set_body(None)] stores [b''] over whatever the object held. *)
Theorem body_typing_at_construction :
  (forall url status hdrs flags request body,
      match body with BodyText _ | BodyOther => True | _ => False end ->
      Response_new url status hdrs body flags request = Raise TypeError)
  /\ (forall url status hdrs flags request t,
         TextResponse_new url status hdrs (BodyText t) flags request None
         = Raise TypeError)
  /\ (forall url status hdrs flags request self,
         Response_new url status hdrs BodyNone flags request = Ok self ->
         _body self = [])
  /\ (forall url status hdrs flags request encoding0 self,
         TextResponse_new url status hdrs BodyNone flags request encoding0
         = Ok self ->
         body self = [])
  /\ (forall r : Response,
         Response_set_body BodyNone r = (Ok tt, set__body [] r))
  /\ (forall self : TextResponse,
         TextResponse_set_body BodyNone self
         = (Ok tt, set_super (set__body [] (super self)) self)).
Proof.
  conjs.
  - intros url st hd fl rq bd Hb.
    destruct bd; try contradiction; reflexivity.
  - intros. rewrite TextResponse_new_eq. reflexivity.
  - intros url st hd fl rq self.
    unfold Response_new, Response__init__, Response_set_body,
      Response_set_url, bind, setattr, raise.
    cbn. destruct url; cbn; [|discriminate].
    intros [= <-]. reflexivity.
  - intros url st hd fl rq enc self H.
    destruct (TextResponse_new_spec _ _ _ _ _ _ _ H)
      as (_ & _ & _ & _ & _ & _ & Hb & _).
    cbn in Hb. congruence.
  - intros r. reflexivity.
  - intros self. reflexivity.
Qed.

(** C10.  [body_as_unicode()] is [text]: same value, same effect on the
    object, on every state. *)
Theorem body_as_unicode_is_text (self : TextResponse) :
  body_as_unicode self = text self.
Proof. reflexivity. Qed.

End Claims.

Section MoreClaims.
Context {W : World}.

(** C1.  [urljoin] on the two classes.  A plain [Response] whose URL is
    [http://example.com/a/b] joins [/path] and [c] as URL resolution
    prescribes.  A [TextResponse] hands the response object itself to
    [urllib]'s [urljoin] as the base, and for every non-empty [str]
    argument the call raises [TypeError]: it returns no URL. *)
Theorem urljoin_on_the_two_classes :
  (forall r : Response,
      _url r = "http://example.com/a/b" ->
      fst (Response_urljoin (Urllib.AStr "/path") r)
      = Ok (Urllib.AStr "http://example.com/path")
      /\ fst (Response_urljoin (Urllib.AStr "c") r)
         = Ok (Urllib.AStr "http://example.com/a/c"))
  /\ (forall (self : TextResponse) (u : string),
         u <> EmptyString ->
         fst (TextResponse_urljoin (Urllib.AStr u) self) = Raise TypeError).
Proof.
  split.
  - intros r Hr.
    unfold Response_urljoin, bind, getattr, call. cbn. rewrite Hr.
    split; reflexivity.
  - intros self u Hu. unfold TextResponse_urljoin. cbn [fst].
    unfold Urllib.urljoin, Urllib._coerce_args.
    cbn [Urllib.arg_truthy Urllib.is_str].
    destruct (String.eqb_spec u ""); [contradiction|]. reflexivity.
Qed.

(** A response built with an override that is set has no cache set, and
    [encoding] returns the override on it without touching it. *)
Lemma override_encoding url status0 hdrs body0 flags0 request0 E self :
  E <> EmptyString ->
  TextResponse_new url status0 hdrs body0 flags0 request0 (Some E) = Ok self ->
  encoding self = (Ok (Some E), self) /\ _cached_ubody self = None.
Proof.
  intros HE H.
  assert (Ht : truthy (Some E) = true).
  { cbn. destruct (String.eqb_spec E ""); [contradiction|reflexivity]. }
  destruct (TextResponse_new_spec _ _ _ _ _ _ _ H)
    as (_ & He & _ & _ & _ & _ & _ & s & e & _ & _ & _ & Hs).
  split.
  - rewrite encoding_eq, He, Ht, <- He. reflexivity.
  - rewrite Hs. rewrite encoding_eq. cbn [with_body _encoding].
    rewrite Ht. reflexivity.
Qed.

(** What [html_to_unicode] does with a header that names a codec other
    than the two BOM-dependent ones, on a body that does not start with
    the BOM of that codec: a lossy decode of the whole body. *)
Lemma html_to_unicode_declared ct l c default_encoding auto :
  http_content_type_encoding ct = Some c ->
  c <> "utf-16" -> c <> "utf-32" ->
  (forall m, W3lib.read_bom l <> Some (c, m)) ->
  W3lib.html_to_unicode ct l default_encoding auto
  = match bytes_decode l c Replace with
    | Ok t => Ok (c, t)
    | Raise e => Raise e
    end.
Proof.
  intros Hc H16 H32 Hb. unfold W3lib.html_to_unicode, W3lib.to_unicode, obind.
  rewrite Hc.
  assert (Hne : match W3lib.read_bom l with
                | Some (bom_enc, _) => c =? bom_enc
                | None => false
                end = false).
  { destruct (W3lib.read_bom l) as [[be m]|] eqn:Eb; [|reflexivity].
    destruct (String.eqb_spec c be); [|reflexivity].
    subst. exfalso. apply (Hb m). reflexivity. }
  rewrite Hne.
  destruct (String.eqb_spec c "utf-16"); [contradiction|].
  destruct (String.eqb_spec c "utf-32"); [contradiction|].
  reflexivity.
Qed.

Lemma override_text
    url status0 hdrs body0 flags0 request0 (E : string) self :
  E <> EmptyString ->
  TextResponse_new url status0 hdrs body0 flags0 request0 (Some E) = Ok self ->
  fst (encoding self) = Ok (Some E)
  /\ fst (text self)
     = match materialize (Some E) self with
       | Ok r => Ok (snd r)
       | Raise e => Raise e
       end
  /\ (forall c,
         http_content_type_encoding ("charset=" ++ E) = Some c ->
         c <> "utf-16" -> c <> "utf-32" ->
         (forall m, W3lib.read_bom (body self) <> Some (c, m)) ->
         fst (text self) = bytes_decode (body self) c Replace
         /\ forall T,
             body0 = BodyText T ->
             str_encode T E = Ok (body self)
             /\ (bytes_decode (body self) c Replace = Ok T ->
                 fst (text self) = Ok T)).
Proof.
  intros HE H.
  destruct (override_encoding _ _ _ _ _ _ HE H) as (He & Hu).
  assert (Ht : fst (text self)
               = match materialize (Some E) self with
                 | Ok r => Ok (snd r)
                 | Raise e => Raise e
                 end).
  { rewrite text_eq, He, Hu. destruct (materialize (Some E) self); reflexivity. }
  conjs.
  - rewrite He. reflexivity.
  - exact Ht.
  - intros c Hc H16 H32 Hb.
    assert (Hd : fst (text self) = bytes_decode (body self) c Replace).
    { rewrite Ht. unfold materialize. cbn [str_of].
      rewrite (@html_to_unicode_declared _ (body self) c "utf8" None
                 Hc H16 H32 Hb).
      destruct (bytes_decode (body self) c Replace); reflexivity. }
    split; [exact Hd|].
    intros T HT.
    destruct (TextResponse_new_spec _ _ _ _ _ _ _ H)
      as (_ & _ & _ & _ & _ & _ & Hs & _).
    subst body0. cbn in Hs. split; [exact Hs|]. congruence.
Qed.

(** C5 (amended).  With an override [E] that is set, [encoding] returns
    [E] itself, and [text] is the second component of
    [html_to_unicode('charset=E', body)]: when w3lib resolves [E] to the
    codec [c] (not one of the BOM-dependent [utf-16], [utf-32]) and the
    body does not start with the BOM of [c], the body decoded under [c]
    with replacement.  So text [T] given as the body comes back from
    [text] when [c] decodes [T.encode(E)] to [T] and those bytes do not
    start with the BOM of [c]. *)
Theorem override_encoding_and_text
    url status0 hdrs body0 flags0 request0 (E : string) self :
  E <> EmptyString ->
  TextResponse_new url status0 hdrs body0 flags0 request0 (Some E) = Ok self ->
  fst (encoding self) = Ok (Some E)
  /\ fst (text self)
     = match materialize (Some E) self with
       | Ok r => Ok (snd r)
       | Raise e => Raise e
       end
  /\ (forall c,
         http_content_type_encoding ("charset=" ++ E) = Some c ->
         c <> "utf-16" -> c <> "utf-32" ->
         (forall m, W3lib.read_bom (body self) <> Some (c, m)) ->
         fst (text self) = bytes_decode (body self) c Replace
         /\ forall T,
             body0 = BodyText T ->
             str_encode T E = Ok (body self)
             /\ (bytes_decode (body self) c Replace = Ok T ->
                 fst (text self) = Ok T)).
Proof.
  exact (@override_text url status0 hdrs body0 flags0 request0 E self).
Qed.

(** With a header that names a codec other than the two BOM-dependent
    ones, [html_to_unicode] returns whenever lossy decoding under that
    codec does. *)
Lemma html_to_unicode_lossy ct l c default_encoding auto :
  http_content_type_encoding ct = Some c ->
  c <> "utf-16" -> c <> "utf-32" ->
  (forall data, exists t, bytes_decode data c Replace = Ok t) ->
  exists r, W3lib.html_to_unicode ct l default_encoding auto = Ok r.
Proof.
  intros Hc H16 H32 Hl. unfold W3lib.html_to_unicode, W3lib.to_unicode, obind.
  rewrite Hc.
  destruct (String.eqb_spec c "utf-16"); [contradiction|].
  destruct (String.eqb_spec c "utf-32"); [contradiction|].
  cbn [orb].
  destruct (match W3lib.read_bom l with
            | Some (bom_enc, _) => c =? bom_enc
            | None => false
            end).
  - destruct (Hl (skipn (length match W3lib.read_bom l with
                                | Some (_, m) => m
                                | None => []
                                end) l)) as [t Ht].
    rewrite Ht. eexists; reflexivity.
  - destruct (Hl l) as [t Ht]. rewrite Ht. eexists; reflexivity.
Qed.

Lemma text_returns_when_lossy (self : TextResponse) :
  reachable self ->
  exists e,
    fst (encoding self) = Ok e
    /\ ((exists r, materialize e self = Ok r) ->
        exists t, fst (text self) = Ok t)
    /\ (forall c,
           http_content_type_encoding ("charset=" ++ str_of e) = Some c ->
           c <> "utf-16" -> c <> "utf-32" ->
           (forall data, exists t, bytes_decode data c Replace = Ok t) ->
           exists t, fst (text self) = Ok t).
Proof.
  intros R. destruct (reachable_consistent R) as [C (e & He)].
  destruct (text_step C) as (_ & _ & T).
  exists e. conjs.
  - destruct (encoding_step C) as (F & _). rewrite F. exact He.
  - intros Hm. apply (T e He Hm).
  - intros c Hc H16 H32 Hl. apply (T e He).
    unfold materialize.
    exact (@html_to_unicode_lossy _ (body self) c "utf8" None Hc H16 H32 Hl).
Qed.


(** ** The auto-detect fallback *)

Lemma auto_detect_loop_first_decodable encs text :
  decode_errors_are_unicode encs text ->
  _auto_detect_loop encs text
  = Ok match first_decodable encs text with
       | Some enc => resolve_encoding enc
       | None => None
       end.
Proof.
  induction encs as [|enc encs IH]; intros H; cbn; [reflexivity|].
  destruct (bytes_decode text enc Strict) as [t|x] eqn:E; [reflexivity|].
  rewrite (H enc x (or_introl eq_refl) E).
  apply IH. intros enc' x' Hin. apply H. right. exact Hin.
Qed.

Lemma body_inferred_auto_detect self ct :
  content_type self = Ok ct ->
  http_content_type_encoding ct = None ->
  W3lib.read_bom (body self) = None ->
  document_declared self = None ->
  decode_errors_are_unicode [_DEFAULT_ENCODING; "utf-8"; "cp1252"] (body self) ->
  body_inferred self
  = match bytes_decode (body self) (auto_detected (body self)) Replace with
    | Ok t => Ok (auto_detected (body self), t)
    | Raise e => Raise e
    end.
Proof.
  intros Hct Hh Hb Hd He.
  unfold body_inferred, obind. rewrite Hct.
  unfold W3lib.html_to_unicode, obind. rewrite Hh, Hb.
  unfold document_declared in Hd. rewrite Hd.
  unfold _auto_detect_fun. rewrite (auto_detect_loop_first_decodable He).
  unfold W3lib.to_unicode, auto_detected.
  destruct (first_decodable _ _) as [enc|]; [|reflexivity].
  destruct (resolve_encoding enc); reflexivity.
Qed.

(** C8 (amended).  With no override, no charset in the header, no
    declaration in the body and no BOM, the encoding is the one the
    auto-detect fallback settles on: the canonical name
    ([resolve_encoding]) of the first of [ascii], [utf-8], [cp1252] under
    which the body decodes without error, and the default [ascii] when
    none does; [text] is the body decoded under it with replacement; and
    neither accessor raises. *)
Theorem auto_detect_fallback (self : TextResponse) (ct : string) :
  reachable self ->
  truthy (_encoding self) = false ->
  content_type self = Ok ct ->
  http_content_type_encoding ct = None ->
  document_declared self = None ->
  W3lib.read_bom (body self) = None ->
  decode_errors_are_unicode [_DEFAULT_ENCODING; "utf-8"; "cp1252"] (body self) ->
  _auto_detect_fun (body self)
  = Ok match first_decodable [_DEFAULT_ENCODING; "utf-8"; "cp1252"]
               (body self) with
       | Some enc => resolve_encoding enc
       | None => None
       end
  /\ exists t,
      fst (encoding self) = Ok (Some (auto_detected (body self)))
      /\ bytes_decode (body self) (auto_detected (body self)) Replace = Ok t
      /\ fst (text self) = Ok t.
Proof.
  intros R H0 Hct Hh Hd Hb He.
  split; [apply (auto_detect_loop_first_decodable He)|].
  destruct (reachable_consistent R) as [C (e & Hr)].
  pose proof (body_inferred_auto_detect _ Hct Hh Hb Hd He) as Hi.
  assert (Hdecl : declared self = Ok None).
  { unfold declared, transport_declared, obind. cbn [first_match].
    rewrite H0, Hct, Hh, Hd. reflexivity. }
  assert (Hres : resolveEncoding self
                 = match body_inferred self with
                   | Ok r => Ok (Some (fst r))
                   | Raise x => Raise x
                   end).
  { unfold resolveEncoding, transport_declared, obind. cbn [first_match].
    rewrite H0, Hct, Hh, Hd. reflexivity. }
  rewrite Hres, Hi in Hr.
  destruct (bytes_decode (body self) (auto_detected (body self)) Replace)
    as [t|x] eqn:Edec; [|discriminate].
  injection Hr as <-. exists t.
  destruct (encoding_step C) as (F & C1 & X1 & N1).
  rewrite Hres, Hi in F. cbn in F.
  conjs; [exact F | reflexivity |].
  rewrite text_eq. destruct (encoding self) as [r1 s1]. cbn in F, C1, X1, N1.
  subst r1.
  destruct (N1 _ eq_refl) as [[Hx _]|Hn]; [congruence|].
  destruct (_cached_benc s1) as [c|] eqn:Ec; [|contradiction].
  destruct (benc_ok C1 Ec) as (t' & Hi' & Hu').
  destruct (signals_same self s1 (same_super X1) (same_encoding X1))
    as (_ & _ & I1 & _).
  rewrite I1, Hi in Hi'. rewrite Hu'. cbn. congruence.
Qed.

End MoreClaims.

(** * The Fragment: its codecs, and the claims on concrete responses *)

Section FragmentCodecs.
Import Fragment.
Local Open Scope N_scope.

Ltac settle :=
  repeat (match goal with
          | |- (if ?t then _ else _) = _ =>
              match t with
              | context [N.eqb ?a ?c] => destruct (N.eqb_spec a c); try lia
              | context [N.ltb ?a ?c] => destruct (N.ltb_spec a c); try lia
              | context [N.leb ?a ?c] => destruct (N.leb_spec a c); try lia
              end
          end; cbn [andb orb]; cbv beta iota).

Lemma Some_eq A (x y : A) : Some x = Some y -> x = y.
Proof. congruence. Qed.

Lemma Ok_eq A (x y : A) : Ok x = Ok y -> x = y.
Proof. congruence. Qed.

(** Base-64 digits of a code point. *)
Lemma digits_2 cp :
  cp < 0x800 ->
  exists q r, cp / 64 = q /\ cp mod 64 = r
              /\ cp = 64 * q + r /\ r < 64 /\ q < 32.
Proof.
  intros H. exists (cp / 64), (cp mod 64).
  zify. Z.to_euclidean_division_equations. lia.
Qed.

Lemma digits_3 cp :
  cp < 0x10000 ->
  exists a q r, cp / 4096 = a /\ (cp / 64) mod 64 = q /\ cp mod 64 = r
                /\ cp = 4096 * a + 64 * q + r /\ r < 64 /\ q < 64 /\ a < 16.
Proof.
  intros H. exists (cp / 4096), ((cp / 64) mod 64), (cp mod 64).
  zify. Z.to_euclidean_division_equations. lia.
Qed.

Lemma digits_4 cp :
  cp < 0x110000 ->
  exists x a q r,
    cp / 262144 = x /\ (cp / 4096) mod 64 = a /\ (cp / 64) mod 64 = q
    /\ cp mod 64 = r
    /\ cp = 262144 * x + 4096 * a + 64 * q + r
    /\ r < 64 /\ q < 64 /\ a < 64 /\ x < 5.
Proof.
  intros H.
  exists (cp / 262144), ((cp / 4096) mod 64), ((cp / 64) mod 64), (cp mod 64).
  zify. Z.to_euclidean_division_equations. lia.
Qed.

Lemma scan_utf_8_encoded cp bs rest :
  encode_utf_8 cp = Some bs ->
  scan_utf_8 (bs ++ rest) = Some cp :: scan_utf_8 rest.
Proof.
  unfold encode_utf_8.
  destruct (N.ltb_spec cp 0x80).
  { intros E. apply Some_eq in E. subst bs. cbn [app scan_utf_8].
    settle. reflexivity. }
  destruct (N.ltb_spec cp 0x800).
  { destruct (digits_2 H0) as (q & r & -> & -> & Hcp & Hr & Hq).
    intros E. apply Some_eq in E. subst bs. cbn [app scan_utf_8]. unfold is_cont.
    settle. f_equal. f_equal. lia. }
  destruct (N.ltb_spec cp 0x10000).
  { destruct (digits_3 H1) as (a & q & r & -> & -> & -> & Hcp & Hr & Hq & Ha).
    destruct (N.leb_spec 0xD800 cp); destruct (N.leb_spec cp 0xDFFF);
      cbn [andb]; try discriminate.
    all: intros E; apply Some_eq in E; subst bs; cbn [app scan_utf_8]; unfold is_cont.
    all: settle.
    all: f_equal; f_equal; lia. }
  destruct (N.ltb_spec cp 0x110000); [|discriminate].
  destruct (digits_4 H2) as (x & a & q & r & -> & -> & -> & -> & Hcp & Hr & Hq & Ha & Hx).
  intros E; apply Some_eq in E; subst bs. cbn [app scan_utf_8]. unfold is_cont.
  settle.
  all: f_equal; f_equal; lia.
Qed.

Lemma to_N_byte_of_N n : n < 256 -> Byte.to_N (byte_of_N n) = n.
Proof.
  intros H. unfold byte_of_N.
  destruct (Byte.of_N n) as [x|] eqn:E.
  - apply Byte.to_of_N, E.
  - apply Byte.of_N_None_iff in E. lia.
Qed.

Lemma encode_utf_8_bytes cp bs :
  encode_utf_8 cp = Some bs -> map Byte.to_N (map byte_of_N bs) = bs.
Proof.
  unfold encode_utf_8.
  destruct (N.ltb_spec cp 0x80).
  { intros E. apply Some_eq in E. subst bs. cbn [map].
    rewrite to_N_byte_of_N by lia. reflexivity. }
  destruct (N.ltb_spec cp 0x800).
  { destruct (digits_2 H0) as (q & r & -> & -> & Hcp & Hr & Hq).
    intros E. apply Some_eq in E. subst bs. cbn [map].
    rewrite !to_N_byte_of_N by lia. reflexivity. }
  destruct (N.ltb_spec cp 0x10000).
  { destruct (digits_3 H1) as (a & q & r & -> & -> & -> & Hcp & Hr & Hq & Ha).
    destruct ((0xD800 <=? cp) && (cp <=? 0xDFFF)); [discriminate|].
    intros E. apply Some_eq in E. subst bs. cbn [map].
    rewrite !to_N_byte_of_N by lia. reflexivity. }
  destruct (N.ltb_spec cp 0x110000); [|discriminate].
  destruct (digits_4 H2)
    as (x & a & q & r & -> & -> & -> & -> & Hcp & Hr & Hq & Ha & Hx).
  intros E. apply Some_eq in E. subst bs. cbn [map].
  rewrite !to_N_byte_of_N by lia. reflexivity.
Qed.

Lemma scan_utf_8_codec_encode T l :
  codec_encode c_utf_8 T = Ok l ->
  scan_utf_8 (map Byte.to_N l) = map (@Some N) T.
Proof.
  revert l. induction T as [|cp T IH]; intros l; cbn [codec_encode encode_char].
  - intros E. apply Ok_eq in E. subst l. reflexivity.
  - destruct (encode_utf_8 cp) as [bs|] eqn:E; [|discriminate].
    unfold obind.
    destruct (codec_encode c_utf_8 T) as [r|x]; [|discriminate].
    intros E'. apply Ok_eq in E'. subst l.
    rewrite map_app, (encode_utf_8_bytes _ E), (scan_utf_8_encoded _ _ E).
    cbn [map]. f_equal. apply IH. reflexivity.
Qed.

Lemma handle_errors_Some e T : handle_errors e (map (@Some N) T) = Ok T.
Proof.
  induction T as [|cp T IH]; cbn [map handle_errors obind]; [reflexivity|].
  rewrite IH. reflexivity.
Qed.

(** UTF-8 round trip: text that encodes decodes back to itself, under
    either error handler. *)
Lemma utf_8_round_trip T l e :
  str_encode T "utf-8" = Ok l -> bytes_decode l "utf-8" e = Ok T.
Proof.
  change (str_encode T "utf-8") with (codec_encode c_utf_8 T).
  change (bytes_decode l "utf-8" e)
    with (handle_errors e (scan_utf_8 (map Byte.to_N l))).
  intros H. rewrite (scan_utf_8_codec_encode _ H). apply handle_errors_Some.
Qed.

(** The [replace] handler never raises. *)
Lemma handle_errors_Replace l : exists t, handle_errors Replace l = Ok t.
Proof.
  induction l as [|[n|] l [t IH]]; cbn [handle_errors obind].
  - eexists; reflexivity.
  - rewrite IH. eexists; reflexivity.
  - rewrite IH. eexists; reflexivity.
Qed.

(** Lossy decoding is total under every codec of the registry but
    [undefined]. *)
Lemma lossy_decode_total c data :
  c <> c_undefined -> exists t, codec_decode c data Replace = Ok t.
Proof.
  intros H. destruct c; try contradiction; apply handle_errors_Replace.
Qed.

End FragmentCodecs.

(** ** The claims on concrete responses *)

Section FragmentClaims.
Import Fragment Examples.
Local Open Scope N_scope.

(** Closed goals of a data type are settled by evaluation. *)
Ltac run := vm_compute; reflexivity.

Lemma built_ok r : is_ok r = true -> r = Ok (built r).
Proof. destruct r; [reflexivity | discriminate]. Qed.

Lemma built_plain_ok r : is_ok r = true -> r = Ok (built_plain r).
Proof. destruct r; [reflexivity | discriminate]. Qed.

Lemma returned A (m : M (TextResponse (W := W)) A) self a :
  fst (m self) = Ok a -> m self = (Ok a, snd (m self)).
Proof. destruct (m self) as [r s]. cbn. intros ->. reflexivity. Qed.

Lemma reachable_response hdrs body0 encoding0 :
  is_ok (response hdrs body0 encoding0) = true ->
  reachable (built (response hdrs body0 encoding0)).
Proof.
  intros H. exact (reach_new _ _ _ _ _ _ _ (built_ok _ H)).
Qed.

Lemma hello_reachable : reachable hello.
Proof. apply reachable_response. run. Qed.

Lemma with_header_reachable : reachable with_header.
Proof. apply reachable_response. run. Qed.

Lemma forced_utf8_x_reachable : reachable (forced_utf8 (BodyBytes (b "x"))).
Proof. apply reachable_response. run. Qed.

(** C1, on the example URL: the plain response joins, the text response
    raises. *)
Lemma urljoin_on_the_two_classes_witness :
  (_url (built_plain plain) = "http://example.com/a/b"
   /\ fst (Response_urljoin (Urllib.AStr "/path") (built_plain plain))
      = Ok (Urllib.AStr "http://example.com/path")
   /\ fst (Response_urljoin (Urllib.AStr "c") (built_plain plain))
      = Ok (Urllib.AStr "http://example.com/a/c"))
  /\ ("/path" <> EmptyString
      /\ fst (TextResponse_urljoin (Urllib.AStr "/path") hello)
         = Raise TypeError)
  /\ ("c" <> EmptyString
      /\ fst (TextResponse_urljoin (Urllib.AStr "c") hello) = Raise TypeError).
Proof.
  destruct (urljoin_on_the_two_classes (W := W)) as [A B].
  assert (Hu : _url (built_plain plain) = "http://example.com/a/b") by run.
  split; [split; [exact Hu | exact (A _ Hu)]|].
  split; (split; [discriminate | apply B; discriminate]).
Defined.

(** C2, on a response with the header
    [Content-Type: text/html; charset=UTF-8] and no override. *)
Lemma encoding_first_match_wins_witness :
  reachable with_header
  /\ fst (encoding with_header) = resolveEncoding with_header
  /\ resolveEncoding with_header = Ok (Some "utf-8").
Proof.
  split; [exact with_header_reachable|].
  split; [exact (encoding_first_match_wins with_header_reachable) | run].
Defined.

(** With that header and no override the encoding is [utf-8] whatever
    the body holds. *)
Lemma content_type_utf8_wins (l : bytes) (self : TextResponse (W := W)) :
  response content_type_utf8 (BodyBytes l) None = Ok self ->
  fst (encoding self) = Ok (Some "utf-8").
Proof.
  intros E.
  destruct (TextResponse_new_spec _ _ _ _ _ _ _ E)
    as (_ & He & Hh & _ & _ & _ & Hb & _).
  apply header_charset_wins.
  - exact (reach_new _ _ _ _ _ _ _ E).
  - rewrite He. reflexivity.
  - unfold transport_declared, content_type. rewrite Hh. run.
  - discriminate.
Qed.

(** C3, as stated, fails: after [text] on a response with an override,
    the decoded text is cached and the inferred encoding is not. *)
Lemma ubody_set_without_benc :
  reachable (after OpText (forced_utf8 (BodyBytes (b "x"))))
  /\ _cached_ubody (after OpText (forced_utf8 (BodyBytes (b "x"))))
     = Some [120]
  /\ _cached_benc (after OpText (forced_utf8 (BodyBytes (b "x")))) = None.
Proof.
  split; [apply reach_op, forced_utf8_x_reachable|].
  split; run.
Qed.

(** C3 (amended), on a response whose encoding was inferred. *)
Lemma cached_benc_with_ubody_witness :
  reachable hello
  /\ _cached_benc hello = Some "cp1252"
  /\ exists t, _cached_ubody hello = Some t
               /\ body_inferred hello = Ok ("cp1252", t).
Proof.
  assert (H : _cached_benc hello = Some "cp1252") by run.
  split; [exact hello_reachable|]. split; [exact H|].
  exact (proj1 (cached_benc_with_ubody hello_reachable) _ H).
Defined.



(** C5, as stated, fails: text that starts with U+FEFF does not come
    back; the BOM its encoding starts with is removed. *)
Lemma round_trip_loses_bom :
  response [] (BodyText [0xFEFF; 0x61]) (Some "utf-8")
  = Ok (forced_utf8 (BodyText [0xFEFF; 0x61]))
  /\ str_encode [0xFEFF; 0x61] "utf-8"
     = Ok (body (forced_utf8 (BodyText [0xFEFF; 0x61])))
  /\ fst (encoding (forced_utf8 (BodyText [0xFEFF; 0x61])))
     = Ok (Some "utf-8")
  /\ fst (text (forced_utf8 (BodyText [0xFEFF; 0x61]))) = Ok [0x61]
  /\ fst (text (forced_utf8 (BodyText [0xFEFF; 0x61])))
     <> Ok [0xFEFF; 0x61].
Proof.
  split; [apply built_ok; run|].
  split; [run|]. split; [run|].
  assert (H : fst (text (forced_utf8 (BodyText [0xFEFF; 0x61]))) = Ok [0x61])
    by run.
  split; [exact H|]. rewrite H. discriminate.
Qed.

(** Nor is an empty override returned: it is false, and the cascade
    goes on. *)
Lemma empty_override_ignored :
  is_ok (response [] (BodyBytes (b "hello")) (Some "")) = true
  /\ fst (encoding (built (response [] (BodyBytes (b "hello")) (Some ""))))
     = Ok (Some "cp1252").
Proof. split; run. Qed.

(** And under an override such as [latin-1] the body is decoded under
    the codec w3lib translates it to, [cp1252]. *)
Lemma latin_1_decoded_as_cp1252 :
  fst (text (built (response [] (BodyText [0x80]) (Some "latin-1"))))
  = Ok [0x20AC].
Proof. run. Qed.

(** C5 (amended), on the text [h], U+00E9, U+20AC under [utf-8]. *)
Lemma override_encoding_and_text_witness :
  "utf-8" <> EmptyString
  /\ response [] (BodyText [0x68; 0xE9; 0x20AC]) (Some "utf-8")
     = Ok (forced_utf8 (BodyText [0x68; 0xE9; 0x20AC]))
  /\ fst (encoding (forced_utf8 (BodyText [0x68; 0xE9; 0x20AC])))
     = Ok (Some "utf-8")
  /\ fst (text (forced_utf8 (BodyText [0x68; 0xE9; 0x20AC])))
     = Ok [0x68; 0xE9; 0x20AC].
Proof.
  assert (HE : "utf-8" <> EmptyString) by discriminate.
  assert (H : response [] (BodyText [0x68; 0xE9; 0x20AC]) (Some "utf-8")
              = Ok (forced_utf8 (BodyText [0x68; 0xE9; 0x20AC])))
    by (apply built_ok; run).
  destruct (override_encoding_and_text _ _ _ _ _ _ HE H) as (A & _ & C).
  split; [exact HE|]. split; [exact H|]. split; [exact A|].
  assert (Hn : W3lib.read_bom
                 (body (forced_utf8 (BodyText [0x68; 0xE9; 0x20AC])))
               = None) by run.
  destruct (C "utf-8") as (_ & D).
  - run.
  - discriminate.
  - discriminate.
  - intros m. rewrite Hn. discriminate.
  - destruct (D _ eq_refl) as (_ & F). apply F. run.
Defined.

End FragmentClaims.

Section FragmentClaims2.
Import Fragment Examples.
Local Open Scope N_scope.

Ltac run := vm_compute; reflexivity.



(** C8, as stated, fails: a pure-ASCII body decodes under the first
    candidate, [ascii], and the encoding returned is [cp1252], not the
    default. *)
Lemma ascii_body_resolves_to_cp1252 :
  response [] (BodyBytes (b "hello")) None = Ok hello
  /\ first_decodable (W := W) [_DEFAULT_ENCODING; "utf-8"; "cp1252"]
       (b "hello") = Some "ascii"
  /\ _auto_detect_fun (W := W) (b "hello") = Ok (Some "cp1252")
  /\ fst (encoding hello) = Ok (Some "cp1252")
  /\ fst (encoding hello) <> Ok (Some _DEFAULT_ENCODING).
Proof.
  split; [apply built_ok; run|].
  split; [run|]. split; [run|].
  assert (H : fst (encoding hello) = Ok (Some "cp1252")) by run.
  split; [exact H|]. rewrite H. discriminate.
Qed.

(** In the Fragment a strict decode raises nothing but [UnicodeError]
    under a name the registry knows. *)
Lemma strict_decode_errors enc c data x :
  codecs_lookup enc = Some c ->
  Fragment.bytes_decode data enc Strict = Raise x -> x = UnicodeError.
Proof.
  unfold Fragment.bytes_decode. intros ->.
  assert (H : forall l, handle_errors Strict l = Raise x -> x = UnicodeError).
  { induction l as [|[n|] l IH]; cbn [handle_errors obind].
    - discriminate.
    - destruct (handle_errors Strict l); [discriminate|].
      intros [= <-]. apply IH. reflexivity.
    - intros [= <-]. reflexivity. }
  destruct c; cbn [codec_decode]; try apply H.
  intros [= <-]. reflexivity.
Qed.

Lemma candidates_decode_errors data :
  decode_errors_are_unicode (W := W) [_DEFAULT_ENCODING; "utf-8"; "cp1252"]
    data.
Proof.
  intros enc x [<- | [<- | [<- | []]]];
    eapply strict_decode_errors; run.
Qed.

(** C8 (amended), on the pure-ASCII body [hello]. *)
Lemma auto_detect_fallback_witness :
  reachable hello
  /\ truthy (_encoding hello) = false
  /\ content_type hello = Ok EmptyString
  /\ document_declared hello = None
  /\ W3lib.read_bom (body hello) = None
  /\ decode_errors_are_unicode (W := W) [_DEFAULT_ENCODING; "utf-8"; "cp1252"]
       (body hello)
  /\ auto_detected (W := W) (body hello) = "cp1252"
  /\ exists t,
      fst (encoding hello) = Ok (Some (auto_detected (W := W) (body hello)))
      /\ Fragment.bytes_decode (body hello)
           (auto_detected (W := W) (body hello)) Replace = Ok t
      /\ fst (text hello) = Ok t.
Proof.
  assert (H0 : truthy (_encoding hello) = false) by run.
  assert (H1 : content_type hello = Ok EmptyString) by run.
  assert (H2 : document_declared hello = None) by run.
  assert (H3 : W3lib.read_bom (body hello) = None) by run.
  pose proof (candidates_decode_errors (body hello)) as H4.
  split; [exact hello_reachable|].
  split; [exact H0|]. split; [exact H1|]. split; [exact H2|].
  split; [exact H3|]. split; [exact H4|]. split; [run|].
  refine (proj2 (auto_detect_fallback hello_reachable H0 H1 _ H2 H3 H4)).
  run.
Defined.

(** When none of the candidates decodes, the default is used with
    replacement. *)
Lemma no_candidate_decodes :
  first_decodable (W := W) [_DEFAULT_ENCODING; "utf-8"; "cp1252"] [x81]
  = None
  /\ fst (encoding (built (response [] (BodyBytes [x81]) None)))
     = Ok (Some "ascii")
  /\ fst (text (built (response [] (BodyBytes [x81]) None)))
     = Ok [0xFFFD].
Proof. repeat split; run. Qed.

(** C9, on the two constructors, and on [_set_body(None)] run on
    objects that hold a body. *)
Lemma body_typing_at_construction_witness :
  Response_new (W := W) (UrlStr "http://example.com/a/b") 200 []
    (BodyText (u "text")) None None = Raise TypeError
  /\ TextResponse_new (W := W) (UrlStr "http://example.com/a/b") 200 []
       (BodyText (u "text")) None None None = Raise TypeError
  /\ (plain = Ok (built_plain plain) /\ _body (built_plain plain) = [])
  /\ (response [] BodyNone None = Ok (built (response [] BodyNone None))
      /\ body (built (response [] BodyNone None)) = [])
  /\ (_body (set__body (b "old") (built_plain plain)) = b "old"
      /\ _body (snd (Response_set_body BodyNone
                       (set__body (b "old") (built_plain plain)))) = [])
  /\ (body hello = b "hello"
      /\ body (snd (TextResponse_set_body BodyNone hello)) = []).
Proof.
  destruct (body_typing_at_construction (W := W)) as (A & B & C & D & E & F).
  assert (Hp : plain = Ok (built_plain plain)) by (apply built_plain_ok; run).
  assert (Hr : response [] BodyNone None
               = Ok (built (response [] BodyNone None)))
    by (apply built_ok; run).
  split; [exact (A _ _ _ _ _ (BodyText (u "text")) I)|].
  split; [apply B|].
  split; [split; [exact Hp | exact (C _ _ _ _ _ _ Hp)]|].
  split; [split; [exact Hr | exact (D _ _ _ _ _ _ _ Hr)]|].
  split; [split; [reflexivity | rewrite E; reflexivity]|].
  split; [run | rewrite F; reflexivity].
Defined.

End FragmentClaims2.

Section FragmentClaims3.
Import Fragment Examples.
Local Open Scope N_scope.

Ltac run := vm_compute; reflexivity.

(** In the Fragment lossy decoding returns under every name of the
    registry but [undefined]. *)
Lemma fragment_lossy enc c :
  codecs_lookup enc = Some c -> c <> c_undefined ->
  forall data, exists t, Fragment.bytes_decode data enc Replace = Ok t.
Proof.
  intros Hc Hu data. unfold Fragment.bytes_decode. rewrite Hc.
  apply lossy_decode_total, Hu.
Qed.


(** Under the override [utf-8], [text] returns whatever the body. *)
Lemma text_total_utf_8_override hdrs body0 (self : TextResponse (W := W)) :
  response hdrs body0 (Some "utf-8") = Ok self ->
  exists t, fst (text self) = Ok t.
Proof.
  intros H.
  assert (HE : "utf-8" <> EmptyString) by discriminate.
  destruct (override_text _ _ _ _ _ _ HE H) as (A & _ & _).
  destruct (text_returns_when_lossy (reach_new _ _ _ _ _ _ _ H))
    as (e & He & _ & T).
  rewrite A in He. injection He as <-.
  apply (T "utf-8").
  - run.
  - discriminate.
  - discriminate.
  - apply (@fragment_lossy "utf-8" c_utf_8); [run | discriminate].
Qed.

(** UTF-8 bytes start with the UTF-8 BOM only when the text starts with
    U+FEFF. *)
Lemma utf_8_bom T l m :
  codec_encode c_utf_8 T = Ok l ->
  W3lib.read_bom l = Some ("utf-8", m) ->
  hd_error T = Some 0xFEFF.
Proof.
  intros He Hb. unfold W3lib.read_bom in Hb.
  destruct (find (fun e => W3lib.startswith (fst e) l) W3lib._BOM_TABLE)
    as [[bom enc]|] eqn:F; [|discriminate].
  apply find_some in F. destruct F as [Hin Hs]. cbn [fst] in Hs.
  assert (enc = "utf-8") by congruence. subst enc.
  assert (Hbom : bom = W3lib.BOM_UTF8).
  { cbn in Hin.
    destruct Hin as [E|[E|[E|[E|[E|[]]]]]]; try discriminate E.
    congruence. }
  subst bom.
  destruct l as [|x0 [|x1 [|x2 rest]]];
    cbn [W3lib.startswith W3lib.BOM_UTF8] in Hs;
    rewrite ?andb_false_r in Hs; try discriminate Hs.
  apply andb_prop in Hs. destruct Hs as [H0 Hs].
  apply andb_prop in Hs. destruct Hs as [H1 Hs].
  apply andb_prop in Hs. destruct Hs as [H2 _].
  apply Byte.byte_dec_bl in H0, H1, H2. subst x0 x1 x2.
  pose proof (scan_utf_8_codec_encode _ He) as Hscan.
  destruct T as [|cp T]; [discriminate Hscan|].
  cbn [map] in Hscan.
  change (scan_utf_8 (Byte.to_N xef :: Byte.to_N xbb :: Byte.to_N xbf
                        :: map Byte.to_N rest))
    with (Some 0xFEFF :: scan_utf_8 (map Byte.to_N rest)) in Hscan.
  cbn [hd_error]. congruence.
Qed.

(** C5 (amended), for every text under [utf-8]: text that encodes and
    does not start with U+FEFF comes back from [text]. *)
Lemma utf_8_override_round_trip hdrs T (self : TextResponse (W := W)) :
  response hdrs (BodyText T) (Some "utf-8") = Ok self ->
  hd_error T <> Some 0xFEFF ->
  fst (text self) = Ok T.
Proof.
  intros H Hhd.
  assert (HE : "utf-8" <> EmptyString) by discriminate.
  destruct (override_text _ _ _ _ _ _ HE H) as (_ & _ & C).
  destruct (TextResponse_new_spec _ _ _ _ _ _ _ H)
    as (_ & _ & _ & _ & _ & _ & Hs & _).
  cbn [stored_body] in Hs.
  destruct (C "utf-8") as (_ & D).
  - run.
  - discriminate.
  - discriminate.
  - intros m Hb. apply Hhd. exact (utf_8_bom _ Hs Hb).
  - destruct (D T eq_refl) as (_ & F). apply F.
    exact (utf_8_round_trip _ Replace Hs).
Qed.

End FragmentClaims3.

Section AutoDetect.
Context {W : World}.

(** With nothing declared and no BOM, the encoding and the text are
    those of the candidate the fallback settles on. *)
Lemma auto_detect_settles (self : TextResponse) (ct : string) :
  reachable self ->
  truthy (_encoding self) = false ->
  content_type self = Ok ct ->
  http_content_type_encoding ct = None ->
  document_declared self = None ->
  W3lib.read_bom (body self) = None ->
  decode_errors_are_unicode [_DEFAULT_ENCODING; "utf-8"; "cp1252"] (body self) ->
  exists t,
    fst (encoding self) = Ok (Some (auto_detected (body self)))
    /\ bytes_decode (body self) (auto_detected (body self)) Replace = Ok t
    /\ fst (text self) = Ok t.
Proof.
  intros R H0 Hct Hh Hd Hb He.
  destruct (reachable_consistent R) as [C (e & Hr)].
  pose proof (body_inferred_auto_detect _ Hct Hh Hb Hd He) as Hi.
  assert (Hres : resolveEncoding self
                 = match body_inferred self with
                   | Ok r => Ok (Some (fst r))
                   | Raise x => Raise x
                   end).
  { unfold resolveEncoding, transport_declared, obind. cbn [first_match].
    rewrite H0, Hct, Hh, Hd. reflexivity. }
  rewrite Hres, Hi in Hr.
  destruct (bytes_decode (body self) (auto_detected (body self)) Replace)
    as [t|x] eqn:Edec; [|discriminate].
  exists t.
  destruct (encoding_step C) as (F & C1 & X1 & N1).
  rewrite Hres, Hi in F. cbn in F.
  conjs; [exact F | reflexivity |].
  rewrite text_eq. destruct (encoding self) as [r1 s1]. cbn in F, C1, X1, N1.
  subst r1.
  assert (Hdecl : declared self = Ok None).
  { unfold declared, transport_declared, obind. cbn [first_match].
    rewrite H0, Hct, Hh, Hd. reflexivity. }
  destruct (N1 _ eq_refl) as [[Hx _]|Hn]; [congruence|].
  destruct (_cached_benc s1) as [c|] eqn:Ec; [|contradiction].
  destruct (benc_ok C1 Ec) as (t' & Hi' & Hu').
  destruct (signals_same self s1 (same_super X1) (same_encoding X1))
    as (_ & _ & I1 & _).
  rewrite I1, Hi in Hi'. rewrite Hu'. cbn. congruence.
Qed.

End AutoDetect.

Section FragmentAscii.
Import Examples.
Local Open Scope N_scope.

Ltac run := vm_compute; reflexivity.

(** The canonical names w3lib gives the three candidates. *)
Lemma candidates_canonical_names :
  Fragment.resolve_encoding "ascii" = Some "cp1252"
  /\ Fragment.resolve_encoding "utf-8" = Some "utf-8"
  /\ Fragment.resolve_encoding "cp1252" = Some "cp1252".
Proof. repeat split; run. Qed.

Lemma startswith_ascii bom l :
  W3lib.startswith bom l = true -> Fragment.is_ascii_bytes l = true ->
  Fragment.is_ascii_bytes bom = true.
Proof.
  revert l. induction bom as [|x bom IH]; intros l; [reflexivity|].
  destruct l as [|y l]; cbn [W3lib.startswith]; [discriminate|].
  intros H Hl. apply andb_prop in H. destruct H as [Hx Hs].
  apply Byte.byte_dec_bl in Hx. subst y.
  cbn [Fragment.is_ascii_bytes forallb] in *.
  apply andb_prop in Hl. destruct Hl as [Hy Hl].
  rewrite Hy. exact (IH l Hs Hl).
Qed.

(** Every BOM has a byte outside ASCII, so an ASCII body has none. *)
Lemma ascii_no_bom l : Fragment.is_ascii_bytes l = true -> W3lib.read_bom l = None.
Proof.
  intros Hl. unfold W3lib.read_bom.
  destruct (find (fun e => W3lib.startswith (fst e) l) W3lib._BOM_TABLE)
    as [[bom enc]|] eqn:F; [|reflexivity].
  apply find_some in F. destruct F as [Hin Hs]. cbn [fst] in Hs.
  pose proof (startswith_ascii _ _ Hs Hl) as Hb.
  cbn in Hin.
  destruct Hin as [E|[E|[E|[E|[E|[]]]]]];
    injection E as <- _; vm_compute in Hb; discriminate Hb.
Qed.

Lemma ascii_decodes l :
  Fragment.is_ascii_bytes l = true ->
  exists t, Fragment.bytes_decode l "ascii" Strict = Ok t.
Proof.
  intros Hl.
  change (Fragment.bytes_decode l "ascii" Strict)
    with (Fragment.handle_errors Strict
            (Fragment.scan_ascii (map Byte.to_N l))).
  induction l as [|x l IH];
    cbn [map Fragment.scan_ascii Fragment.handle_errors].
  - eexists; reflexivity.
  - cbn [Fragment.is_ascii_bytes forallb] in Hl.
    apply andb_prop in Hl. destruct Hl as [Hx Hl].
    rewrite Hx. destruct (IH Hl) as [t Ht].
    unfold Fragment.scan_ascii in Ht.
    cbn [Fragment.handle_errors obind]. rewrite Ht.
    eexists; reflexivity.
Qed.

(** C8 (amended), for every pure-ASCII body without markup: with no
    header and no override the encoding is [cp1252]. *)
Lemma ascii_body_cp1252 (l : bytes) (self : TextResponse (W := W)) :
  Fragment.is_ascii_bytes l = true -> ~ In "<"%byte l ->
  response [] (BodyBytes l) None = Ok self ->
  fst (encoding self) = Ok (Some "cp1252").
Proof.
  intros Hl _ H.
  destruct (TextResponse_new_spec _ _ _ _ _ _ _ H)
    as (_ & He & Hh & _ & _ & _ & Hb & _).
  cbn [stored_body] in Hb. injection Hb as Hb.
  assert (H0 : truthy (_encoding self) = false) by (rewrite He; reflexivity).
  assert (H1 : content_type self = Ok EmptyString).
  { unfold content_type. rewrite Hh. run. }
  assert (H2 : document_declared self = None) by reflexivity.
  assert (H3 : W3lib.read_bom (body self) = None).
  { rewrite <- Hb. exact (ascii_no_bom _ Hl). }
  destruct (auto_detect_settles (reach_new _ _ _ _ _ _ _ H) H0 H1
              eq_refl H2 H3 (candidates_decode_errors (body self)))
    as (t & Henc & _).
  rewrite Henc. rewrite <- Hb.
  unfold auto_detected. cbn [first_decodable].
  destruct (ascii_decodes _ Hl) as [t' Ht'].
  change (bytes_decode (World := W) l _DEFAULT_ENCODING Strict)
    with (Fragment.bytes_decode l "ascii" Strict).
  rewrite Ht'. reflexivity.
Qed.

End FragmentAscii.
(** * The text and the selector do not depend on what was read before *)

Section History.
Context {W : World}.

Lemma resolveEncoding_declared self :
  resolveEncoding self =
  match declared self with
  | Raise e => Raise e
  | Ok d =>
      if truthy d then Ok d
      else match body_inferred self with
           | Ok r => Ok (Some (fst r))
           | Raise e => Raise e
           end
  end.
Proof.
  unfold resolveEncoding, declared, obind. cbn [first_match].
  destruct (truthy (_encoding self)) eqn:E0; [rewrite E0; reflexivity|].
  destruct (transport_declared self) as [v|e]; [|reflexivity].
  destruct (truthy v) eqn:Ev; [rewrite Ev; reflexivity|].
  reflexivity.
Qed.

Lemma headers_encoding_benc self :
  _cached_benc (snd (_headers_encoding self)) = _cached_benc self.
Proof.
  rewrite headers_encoding_eq.
  destruct (memo_headers_encoding self); [reflexivity|].
  destruct (transport_declared self); reflexivity.
Qed.

Lemma body_declared_encoding_benc self :
  _cached_benc (snd (_body_declared_encoding self)) = _cached_benc self.
Proof.
  rewrite body_declared_encoding_eq.
  destruct (memo_body_declared_encoding self); reflexivity.
Qed.

(** [encoding] runs the sniffing pass only when no encoding is
    declared. *)
Lemma encoding_benc self :
  coherent self ->
  _cached_benc (snd (encoding self)) = _cached_benc self
  \/ exists d, declared self = Ok d /\ truthy d = false.
Proof.
  intros C. rewrite encoding_eq.
  destruct (truthy (_encoding self)) eqn:E0; [left; reflexivity|].
  destruct (headers_encoding_step C) as (F1 & C1 & X1).
  pose proof (headers_encoding_benc self) as B1.
  destruct (_headers_encoding self) as [r1 s1]. cbn [fst snd] in F1, C1, X1, B1.
  destruct r1 as [v|e]; [|left; exact B1].
  destruct (truthy v) eqn:Ev; [left; exact B1|].
  destruct (signals_same self s1 (same_super X1) (same_encoding X1))
    as (T1 & D1 & I1 & DD1 & R1 & M1).
  destruct (body_declared_encoding_step C1) as (F2 & C2 & X2).
  pose proof (body_declared_encoding_benc s1) as B2.
  destruct (_body_declared_encoding s1) as [r2 s2].
  cbn [fst snd] in F2, C2, X2, B2.
  rewrite F2, D1.
  destruct (truthy (document_declared self)) eqn:Ed.
  { left. cbn [snd]. congruence. }
  right. exists (document_declared self). split; [|exact Ed].
  unfold declared. cbn [first_match]. rewrite E0, <- F1, Ev. reflexivity.
Qed.

Lemma resolveText_same s s' :
  super s' = super s -> _encoding s' = _encoding s ->
  resolveText s' = resolveText s /\ resolveSelector s' = resolveSelector s.
Proof.
  intros Hs He.
  destruct (signals_same s s' Hs He) as (_ & _ & I & D & _ & Mt).
  assert (T : resolveText s' = resolveText s).
  { unfold resolveText. rewrite D, I.
    destruct (declared s) as [d|x]; [|reflexivity]. cbn [obind].
    rewrite Mt. reflexivity. }
  split; [exact T|].
  unfold resolveSelector, url. rewrite T, Hs. reflexivity.
Qed.

(** The invariant goes along every step that leaves the inputs and the
    two caches alone. *)
Lemma settled_same s s' :
  settled s -> extends s s' ->
  (_cached_benc s' = _cached_benc s
   \/ exists d, declared s = Ok d /\ truthy d = false) ->
  _cached_selector s' = _cached_selector s ->
  settled s'.
Proof.
  intros [A B] X Hb Hs.
  destruct (signals_same s s' (same_super X) (same_encoding X))
    as (_ & _ & _ & D & _ & _).
  destruct (resolveText_same s s' (same_super X) (same_encoding X))
    as (_ & S).
  constructor.
  - intros e He. rewrite D.
    destruct Hb as [Hb|Hb]; [|exact Hb].
    rewrite Hb in He. exact (A e He).
  - intros v Hv. rewrite S. rewrite Hs in Hv. exact (B v Hv).
Qed.

Lemma encoding_settled self :
  coherent self -> settled self -> settled (snd (encoding self)).
Proof.
  intros C St. destruct (encoding_step C) as (_ & _ & X & _).
  exact (settled_same St X (encoding_benc C) (encoding_selector self)).
Qed.

Lemma text_benc self :
  _cached_benc (snd (text self)) = _cached_benc (snd (encoding self)).
Proof.
  rewrite text_eq. destruct (encoding self) as [[e|x] s1]; [|reflexivity].
  cbn [snd]. destruct (_cached_ubody s1); [reflexivity|].
  destruct (materialize e s1); reflexivity.
Qed.

Lemma text_settled self :
  coherent self -> settled self -> settled (snd (text self)).
Proof.
  intros C St. destruct (text_step C) as (_ & X & _).
  refine (settled_same St X _ (text_selector self)).
  rewrite text_benc. exact (encoding_benc C).
Qed.

(** [text] returns the text of the response, whatever the caches hold. *)
Lemma text_resolveText self :
  coherent self -> settled self -> fst (text self) = resolveText self.
Proof.
  intros C St. rewrite text_eq.
  destruct (encoding_step C) as (F & C1 & X1 & N1).
  pose proof (encoding_settled C St) as St1.
  destruct (encoding self) as [r1 s1]. cbn [fst snd] in F, C1, X1, N1, St1.
  destruct (signals_same self s1 (same_super X1) (same_encoding X1))
    as (T1 & D1 & I1 & DD1 & R1 & M1).
  rewrite resolveEncoding_declared in F. unfold resolveText, obind.
  destruct (declared self) as [d|x] eqn:Ed; [|subst r1; reflexivity].
  destruct (truthy d) eqn:Etd.
  - subst r1.
    destruct (_cached_ubody s1) as [t|] eqn:Eu.
    + cbn [fst].
      destruct (_cached_benc s1) as [c|] eqn:Eb.
      * destruct (sniffed_undeclared St1 Eb) as (d' & Hd' & Hf).
        rewrite DD1 in Hd'. congruence.
      * destruct (ubody_ok C1 Eu Eb) as (e & enc & Hd' & _ & Hm).
        rewrite DD1 in Hd'. injection Hd' as <-.
        rewrite M1 in Hm. rewrite Hm. reflexivity.
    + rewrite M1. destruct (materialize d self); reflexivity.
  - destruct (body_inferred self) as [r|x] eqn:Ei; [|subst r1; reflexivity].
    subst r1.
    destruct (N1 _ eq_refl) as [[Hd Ht]|Hn].
    { congruence. }
    destruct (_cached_benc s1) as [c|] eqn:Eb; [|contradiction].
    destruct (benc_ok C1 Eb) as (t & Hi & Hu).
    rewrite I1 in Hi. injection Hi as ->. rewrite Hu. reflexivity.
Qed.

Lemma selector_eq self :
  selector self =
  match _cached_selector self with
  | Some s => (Ok s, self)
  | None =>
      match text self with
      | (Raise e, s1) => (Raise e, s1)
      | (Ok t, s1) =>
          match parsel_Selector t (url s1) with
          | Ok s => (Ok s, set__cached_selector (Some s) s1)
          | Raise e => (Raise e, s1)
          end
      end
  end.
Proof.
  unfold selector, Selector__init__, bind, getattr, setattr, call, ret.
  destruct (_cached_selector self); [reflexivity|].
  destruct (text self) as [[t|e] s1]; [|reflexivity].
  destruct (parsel_Selector t (url s1)); reflexivity.
Qed.

(** [selector] returns the selector of the response, and keeps the
    invariant. *)
Lemma selector_resolveSelector self :
  coherent self -> settled self ->
  fst (selector self) = resolveSelector self
  /\ settled (snd (selector self)).
Proof.
  intros C St. rewrite selector_eq.
  destruct (_cached_selector self) as [s|] eqn:Es.
  { cbn [fst snd]. split; [|exact St].
    symmetry. exact (selector_ok St Es). }
  pose proof (text_resolveText C St) as T.
  pose proof (text_settled C St) as St1.
  destruct (text_step C) as (C1 & X1 & _).
  pose proof (text_selector self) as S1. rewrite Es in S1.
  destruct (text self) as [r1 s1]. cbn [fst snd] in T, St1, C1, X1, S1.
  destruct (resolveText_same self s1 (same_super X1) (same_encoding X1))
    as (RT & RS).
  assert (U : url s1 = url self) by (unfold url; rewrite (same_super X1); reflexivity).
  unfold resolveSelector, obind. rewrite <- T.
  destruct r1 as [t|e]; [|cbn [fst snd]; auto].
  rewrite U.
  destruct (parsel_Selector t (url self)) as [s|e] eqn:Ep;
    cbn [fst snd]; [|auto].
  split; [reflexivity|].
  destruct St1 as [A B]. constructor.
  - intros e He. cbn in He.
    destruct (signals_same s1 (set__cached_selector (Some s) s1)
                eq_refl eq_refl) as (_ & _ & _ & D & _ & _).
    rewrite D. exact (A e He).
  - intros v Hv. cbn in Hv. injection Hv as <-.
    destruct (resolveText_same s1 (set__cached_selector (Some s) s1)
                eq_refl eq_refl) as (_ & S).
    rewrite S, RS. unfold resolveSelector, obind. rewrite <- T. exact Ep.
Qed.

Lemma op_settled o self :
  coherent self -> settled self -> settled (after o self).
Proof.
  intros C St. unfold after. destruct o; cbn [run_op].
  - rewrite forget_snd. exact (encoding_settled C St).
  - rewrite forget_snd. exact (text_settled C St).
  - rewrite forget_snd. exact (text_settled C St).
  - rewrite forget_snd. exact St.
  - rewrite forget_snd. exact (proj2 (selector_resolveSelector C St)).
  - rewrite forget_snd. unfold xpath, bind, call.
    pose proof (proj2 (selector_resolveSelector C St)) as St1.
    destruct (selector self) as [[s|e] s1]; cbn [snd] in *; [|exact St1].
    destruct (parsel_xpath s query); exact St1.
  - unfold replace, bind, raise.
    pose proof (encoding_settled C St) as St1.
    destruct (encoding self) as [[e|e] s1]; exact St1.
Qed.

Lemma new_settled url status0 hdrs body0 flags0 request0 encoding0 self :
  TextResponse_new url status0 hdrs body0 flags0 request0 encoding0 = Ok self ->
  settled self.
Proof.
  intros H.
  destruct (TextResponse_new_spec _ _ _ _ _ _ _ H)
    as (_ & He & Hh & _ & _ & _ & _ & s & e & _ & _ & _ & Hs).
  pose proof (with_body_coherent encoding0 hdrs status0 (body self)) as C0.
  assert (St0 : settled (with_body encoding0 hdrs status0 (body self))).
  { constructor; cbn; intros; discriminate. }
  pose proof (encoding_settled C0 St0) as St1.
  destruct (encoding_step C0) as (_ & _ & X1 & _).
  pose proof (encoding_selector (with_body encoding0 hdrs status0 (body self)))
    as S1.
  set (s1 := snd (encoding (with_body encoding0 hdrs status0 (body self)))) in *.
  cbn [with_body _cached_selector] in S1.
  assert (Hh1 : headers (super s1) = hdrs) by (rewrite (same_super X1); reflexivity).
  assert (Hb1 : _body (super s1) = body self) by (rewrite (same_super X1); reflexivity).
  assert (Hsel : _cached_selector self = None) by (rewrite Hs; exact S1).
  assert (Hbenc : _cached_benc self = _cached_benc s1) by (rewrite Hs; reflexivity).
  assert (He1 : _encoding self = _encoding s1) by (rewrite Hs; reflexivity).
  destruct (signals_same_inputs s1 self) as (_ & _ & _ & D & _ & _);
    [rewrite Hh1; exact Hh | rewrite Hb1; reflexivity | exact He1 |].
  constructor.
  - intros c Hc. rewrite D. apply (sniffed_undeclared St1 (e := c)). congruence.
  - intros v Hv. congruence.
Qed.

Lemma reachable_settled self : reachable self -> settled self.
Proof.
  induction 1 as [url st hd bd fl rq enc self H | o self R IH].
  - exact (new_settled _ _ _ _ _ _ _ H).
  - destruct (reachable_consistent R) as [C _]. exact (op_settled o C IH).
Qed.

Lemma reachable_text self :
  reachable self -> fst (text self) = resolveText self.
Proof.
  intros R. destruct (reachable_consistent R) as [C _].
  exact (text_resolveText C (reachable_settled R)).
Qed.

Lemma reachable_selector self :
  reachable self -> fst (selector self) = resolveSelector self.
Proof.
  intros R. destruct (reachable_consistent R) as [C _].
  exact (proj1 (selector_resolveSelector C (reachable_settled R))).
Qed.

End History.

Section HistoryProperties.
Context {W : World}.

Lemma xpath_eq query self :
  xpath query self =
  match selector self with
  | (Ok s, s1) => (parsel_xpath s query, s1)
  | (Raise e, s1) => (Raise e, s1)
  end.
Proof.
  unfold xpath, bind, call. destruct (selector self) as [[s|e] s1]; reflexivity.
Qed.

(** X1.  The text of a response a program can hold is a function of
    what construction stored, whatever was read before: under a declared
    encoding (override, header charset or declaration in the body) it is
    the body converted under that encoding, and with none declared it is
    the text of the sniffing pass that inferred the encoding. *)
Theorem text_is_function_of_inputs (self : TextResponse) :
  reachable self ->
  fst (text self) = resolveText self.
Proof. exact (@reachable_text W self). Qed.

(** X2.  The selector of a response a program can hold is parsel's
    selector over the text of the response with the URL of the response
    as base, whether it is built by this access or was cached by an
    earlier one; [xpath] is parsel's [xpath] on that selector. *)
Theorem selector_is_function_of_inputs (self : TextResponse) :
  reachable self ->
  fst (selector self) = resolveSelector self
  /\ forall query,
      fst (xpath query self)
      = match resolveSelector self with
        | Ok s => parsel_xpath s query
        | Raise e => Raise e
        end.
Proof.
  intros R. pose proof (reachable_selector R) as S.
  split; [exact S|].
  intros query. rewrite xpath_eq, <- S.
  destruct (selector self) as [[s|e] s1]; reflexivity.
Qed.

(** X3.  The selector is built at most once.  Once [selector] has
    returned, the selector is cached: a second access returns the same
    selector and changes nothing, and [xpath] queries that selector
    without touching the response.  A build that raises caches no
    selector. *)
Theorem selector_built_once (self : TextResponse) :
  (forall s s1,
      selector self = (Ok s, s1) ->
      _cached_selector s1 = Some s
      /\ selector s1 = (Ok s, s1)
      /\ forall query, xpath query s1 = (parsel_xpath s query, s1))
  /\ (forall e s1,
         selector self = (Raise e, s1) -> _cached_selector s1 = None).
Proof.
  assert (A : forall s s1, selector self = (Ok s, s1) ->
                           _cached_selector s1 = Some s).
  { intros s s1. rewrite selector_eq.
    destruct (_cached_selector self) as [s0|] eqn:Es.
    - intros [= <- <-]. exact Es.
    - destruct (text self) as [[t|e] s'] ; [|discriminate].
      destruct (parsel_Selector t (url s')); [|discriminate].
      intros [= <- <-]. reflexivity. }
  split.
  - intros s s1 H. pose proof (A _ _ H) as Hc.
    assert (S : selector s1 = (Ok s, s1)) by (rewrite selector_eq, Hc; reflexivity).
    conjs; [exact Hc | exact S |].
    intros query. rewrite xpath_eq, S. reflexivity.
  - intros e s1. rewrite selector_eq.
    pose proof (text_selector self) as T.
    destruct (_cached_selector self) as [s0|] eqn:Es; [discriminate|].
    destruct (text self) as [[t|x] s']; cbn [snd] in T.
    + destruct (parsel_Selector t (url s')); [discriminate|].
      intros [= <- <-]. exact T.
    + intros [= <- <-]. exact T.
Qed.

Lemma declared_encoding_step self :
  coherent self -> fst (_declared_encoding self) = declared self.
Proof.
  intros C. unfold _declared_encoding, or_else, bind, getattr, ret, declared.
  cbn [first_match].
  destruct (truthy (_encoding self)) eqn:E0; [reflexivity|].
  destruct (headers_encoding_step C) as (F1 & C1 & X1).
  destruct (_headers_encoding self) as [r1 s1]. cbn [fst snd] in F1, C1, X1.
  rewrite <- F1. destruct r1 as [v|e]; [|reflexivity].
  destruct (truthy v) eqn:Ev; [reflexivity|].
  destruct (body_declared_encoding_step C1) as (F2 & _).
  destruct (signals_same self s1 (same_super X1) (same_encoding X1))
    as (_ & D1 & _).
  rewrite <- D1, <- F2.
  destruct (_body_declared_encoding s1) as [[d|x] s2]; reflexivity.
Qed.

(** X4.  The helpers of the cascade return the signals of the stored
    inputs, whatever is memoized: [_headers_encoding] the charset of the
    [Content-Type] header, [_body_declared_encoding] the declaration in
    the body, and [_declared_encoding] the first of override, header
    charset and body declaration that is set (the body declaration when
    none is). *)
Theorem declared_signals_of_inputs (self : TextResponse) :
  reachable self ->
  fst (_headers_encoding self) = transport_declared self
  /\ fst (_body_declared_encoding self) = Ok (document_declared self)
  /\ fst (_declared_encoding self) = declared self.
Proof.
  intros R. destruct (reachable_consistent R) as [C _].
  conjs.
  - exact (proj1 (headers_encoding_step C)).
  - exact (proj1 (body_declared_encoding_step C)).
  - exact (declared_encoding_step C).
Qed.

Lemma reachable_encoding_Some self :
  reachable self -> exists e, fst (encoding self) = Ok (Some e).
Proof.
  intros R. destruct (reachable_consistent R) as [C (e & He)].
  rewrite (proj1 (encoding_step C)), He.
  rewrite resolveEncoding_declared in He.
  destruct (declared self) as [d|x]; [|discriminate].
  destruct (truthy d) eqn:Ed.
  - injection He as <-. destruct d as [s|]; [|discriminate]. eauto.
  - destruct (body_inferred self) as [r|x]; [|discriminate].
    injection He as <-. eauto.
Qed.

(** X5.  A response a program can hold always has an encoding: the
    [encoding] accessor returns, and what it returns is a name, never
    [None]. *)
Theorem encoding_is_never_None (self : TextResponse) :
  reachable self ->
  exists e, fst (encoding self) = Ok (Some e).
Proof. exact (@reachable_encoding_Some self). Qed.

(** With nothing declared and a body that starts with a BOM, the
    sniffing pass decodes what follows the BOM under the encoding of the
    BOM. *)
Lemma body_inferred_bom self ct enc m :
  content_type self = Ok ct ->
  http_content_type_encoding ct = None ->
  W3lib.read_bom (body self) = Some (enc, m) ->
  body_inferred self
  = match bytes_decode (skipn (length m) (body self)) enc Replace with
    | Ok t => Ok (enc, t)
    | Raise e => Raise e
    end.
Proof.
  intros Hct Hh Hb. unfold body_inferred, obind. rewrite Hct.
  unfold W3lib.html_to_unicode, W3lib.to_unicode, obind. rewrite Hh, Hb.
  reflexivity.
Qed.

(** X6.  The byte-order mark decides when nothing is declared.  With no
    override, no charset in the header and no declaration in the body, a
    body that starts with a BOM has the encoding of that BOM, and its text
    is what follows the BOM, decoded under that encoding with
    replacement; the auto-detect fallback is not consulted. *)
Theorem bom_decides_when_undeclared (self : TextResponse) ct enc m :
  reachable self ->
  truthy (_encoding self) = false ->
  content_type self = Ok ct ->
  http_content_type_encoding ct = None ->
  truthy (document_declared self) = false ->
  W3lib.read_bom (body self) = Some (enc, m) ->
  exists t,
    fst (encoding self) = Ok (Some enc)
    /\ bytes_decode (skipn (length m) (body self)) enc Replace = Ok t
    /\ fst (text self) = Ok t.
Proof.
  intros R H0 Hct Hh Hd Hb.
  destruct (reachable_consistent R) as [C (e & Hr)].
  pose proof (body_inferred_bom _ Hct Hh Hb) as Hi.
  assert (Hdecl : declared self = Ok (document_declared self)).
  { unfold declared, transport_declared, obind. cbn [first_match].
    rewrite H0, Hct, Hh. reflexivity. }
  pose proof (reachable_text R) as T.
  unfold resolveText, obind in T. rewrite Hdecl, Hd, Hi in T.
  rewrite resolveEncoding_declared, Hdecl, Hd, Hi in Hr.
  rewrite (proj1 (encoding_step C)), resolveEncoding_declared, Hdecl, Hd, Hi.
  destruct (bytes_decode (skipn (length m) (body self)) enc Replace)
    as [t|x]; [|discriminate].
  exists t. conjs; [reflexivity | reflexivity | exact T].
Qed.

End HistoryProperties.

Section Lifetime.
Context {W : World}.

Lemma reachable_declared_text (self : TextResponse) (e c : string) :
  reachable self ->
  declared self = Ok (Some e) -> e <> EmptyString ->
  http_content_type_encoding ("charset=" ++ e) = Some c ->
  c <> "utf-16" -> c <> "utf-32" ->
  (forall m, W3lib.read_bom (body self) <> Some (c, m)) ->
  fst (encoding self) = Ok (Some e)
  /\ fst (text self) = bytes_decode (body self) c Replace.
Proof.
  intros R Hd He Hc H16 H32 Hb.
  assert (Ht : truthy (Some e) = true).
  { cbn. destruct (String.eqb_spec e ""); [contradiction|reflexivity]. }
  split.
  - rewrite (reachable_encoding R), resolveEncoding_declared, Hd, Ht.
    reflexivity.
  - rewrite (reachable_text R). unfold resolveText, obind.
    rewrite Hd, Ht. unfold materialize. cbn [str_of].
    rewrite (@html_to_unicode_declared _ _ (body self) c "utf8" None
               Hc H16 H32 Hb).
    destruct (bytes_decode (body self) c Replace); reflexivity.
Qed.

(** X14.  Under a declared encoding the text is a lossy decode of the
    body.  When the first of override, header charset and body
    declaration that is set is [e], and w3lib resolves [e] to the codec
    [c] (not one of the BOM-dependent [utf-16], [utf-32]), then on a body
    that does not start with the BOM of [c] the encoding is [e] and the
    text is the whole body decoded under [c] with replacement: a BOM of
    another encoding is decoded like any other bytes. *)
Theorem declared_text_is_lossy_decode (self : TextResponse) (e c : string) :
  reachable self ->
  declared self = Ok (Some e) -> e <> EmptyString ->
  http_content_type_encoding ("charset=" ++ e) = Some c ->
  c <> "utf-16" -> c <> "utf-32" ->
  (forall m, W3lib.read_bom (body self) <> Some (c, m)) ->
  fst (encoding self) = Ok (Some e)
  /\ fst (text self) = bytes_decode (body self) c Replace.
Proof. exact (@reachable_declared_text self e c). Qed.

(** X15.  The answers of a response never change.  Whatever public
    operation runs on a response a program can hold, and whether it
    returns or raises, [encoding], [text] and [selector] give afterwards
    what they would have given before. *)
Theorem answers_never_change (self : TextResponse) (o : op) :
  reachable self ->
  fst (encoding (after o self)) = fst (encoding self)
  /\ fst (text (after o self)) = fst (text self)
  /\ fst (selector (after o self)) = fst (selector self).
Proof.
  intros R. pose proof (reach_op o R) as R'.
  destruct (reachable_consistent R) as [C _].
  destruct (op_step o C) as (_ & X).
  destruct (resolveText_same self (after o self) (same_super X)
              (same_encoding X)) as (T & S).
  conjs.
  - rewrite (reachable_encoding R'), (reachable_encoding R).
    exact (extends_resolveEncoding X).
  - rewrite (reachable_text R'), (reachable_text R). exact T.
  - rewrite (reachable_selector R'), (reachable_selector R). exact S.
Qed.

End Lifetime.

Section Inputs.
Context {W : World}.

(** The cascade reads the override, the [Content-Type] header and the
    body, and nothing else. *)
Lemma signals_same_content_type s s' :
  content_type s' = content_type s ->
  body s' = body s ->
  _encoding s' = _encoding s ->
  resolveEncoding s' = resolveEncoding s /\ resolveText s' = resolveText s.
Proof.
  intros Hc Hb He.
  unfold resolveEncoding, resolveText, declared, materialize, body_inferred,
    transport_declared, document_declared.
  rewrite Hc, Hb, He. split; reflexivity.
Qed.

(** X18.  The encoding and the text of a response depend on the
    override, on the value of the [Content-Type] header and on the body,
    and on nothing else: two responses built with the same override and
    body argument, and headers with the same [Content-Type], have the same
    encoding and the same text, whatever their URLs, statuses, flags,
    requests and other headers. *)
Theorem encoding_reads_three_inputs
    url1 url2 status1 status2 hdrs1 hdrs2 body0 flags1 flags2
    request1 request2 encoding0 (s1 s2 : TextResponse) :
  Headers_get hdrs1 (b "Content-Type") (b "")
  = Headers_get hdrs2 (b "Content-Type") (b "") ->
  TextResponse_new url1 status1 hdrs1 body0 flags1 request1 encoding0 = Ok s1 ->
  TextResponse_new url2 status2 hdrs2 body0 flags2 request2 encoding0 = Ok s2 ->
  fst (encoding s1) = fst (encoding s2)
  /\ fst (text s1) = fst (text s2).
Proof.
  intros Hh H1 H2.
  destruct (TextResponse_new_spec _ _ _ _ _ _ _ H1)
    as (_ & E1 & A1 & _ & _ & _ & B1 & _).
  destruct (TextResponse_new_spec _ _ _ _ _ _ _ H2)
    as (_ & E2 & A2 & _ & _ & _ & B2 & _).
  pose proof (reach_new _ _ _ _ _ _ _ H1) as R1.
  pose proof (reach_new _ _ _ _ _ _ _ H2) as R2.
  destruct (signals_same_content_type s2 s1) as [Re Rt].
  - unfold content_type. rewrite A1, A2, Hh. reflexivity.
  - congruence.
  - congruence.
  - rewrite (reachable_encoding R1), (reachable_encoding R2),
      (reachable_text R1), (reachable_text R2).
    split; assumption.
Qed.

End Inputs.

(** * The plain response: construction, [meta], [__str__], [urljoin] *)

Section PlainResponse.
Context {W : World}.

Lemma Response_new_eq url status0 hdrs body0 flags0 request0 :
  Response_new url status0 hdrs body0 flags0 request0 =
  match body0, url with
  | BodyText _, _ | BodyOther, _ => Raise TypeError
  | _, UrlOther => Raise TypeError
  | BodyNone, UrlStr s =>
      Ok (mkResponse hdrs status0 [] s request0
            match flags0 with None => [] | Some f => f end)
  | BodyBytes l, UrlStr s =>
      Ok (mkResponse hdrs status0 l s request0
            match flags0 with None => [] | Some f => f end)
  end.
Proof.
  unfold Response_new, Response__init__, Response_set_body, Response_set_url,
    Response__new__, bind, setattr, raise.
  destruct body0, url; reflexivity.
Qed.


(** X8.  [meta] is the [meta] of the request the response was built
    with, and a response built without one raises [AttributeError]; the
    response is left as it is.  The same holds on a [TextResponse]. *)
Theorem meta_of_the_request (Meta : Type)
    (Request_meta : Request -> outcome Meta) :
  (forall url status0 hdrs body0 flags0 self,
      Response_new url status0 hdrs body0 flags0 None = Ok self ->
      meta Request_meta self = (Raise AttributeError, self))
  /\ (forall url status0 hdrs body0 flags0 rq self,
         Response_new url status0 hdrs body0 flags0 (Some rq) = Ok self ->
         meta Request_meta self = (Request_meta rq, self))
  /\ (forall url status0 hdrs body0 flags0 encoding0 self,
         TextResponse_new url status0 hdrs body0 flags0 None encoding0
         = Ok self ->
         TextResponse_meta Request_meta self = (Raise AttributeError, self))
  /\ (forall url status0 hdrs body0 flags0 rq encoding0 self,
         TextResponse_new url status0 hdrs body0 flags0 (Some rq) encoding0
         = Ok self ->
         TextResponse_meta Request_meta self = (Request_meta rq, self)).
Proof.
  assert (M0 : forall r : Response,
             request r = None -> meta Request_meta r = (Raise AttributeError, r)).
  { intros r Hr. unfold meta, bind, getattr, raise, ret. rewrite Hr.
    reflexivity. }
  assert (M1 : forall (r : Response) rq,
             request r = Some rq -> meta Request_meta r = (Request_meta rq, r)).
  { intros r rq Hr. unfold meta, bind, getattr, raise, ret. rewrite Hr.
    cbn [request_meta]. destruct (Request_meta rq) as [m|[]]; reflexivity. }
  assert (R : forall url st hd bd fl rq self,
             Response_new url st hd bd fl rq = Ok self -> request self = rq).
  { intros url st hd bd fl rq self. rewrite Response_new_eq.
    destruct bd, url; try discriminate; intros [= <-]; reflexivity. }
  assert (S : forall self : TextResponse, set_super (super self) self = self).
  { intros []. reflexivity. }
  conjs.
  - intros. apply M0. eapply R; eassumption.
  - intros. apply M1. eapply R; eassumption.
  - intros url st hd bd fl enc self H.
    destruct (TextResponse_new_spec _ _ _ _ _ _ _ H)
      as (_ & _ & _ & _ & Hr & _).
    unfold TextResponse_meta, on_super. rewrite (M0 _ Hr), S. reflexivity.
  - intros url st hd bd fl rq enc self H.
    destruct (TextResponse_new_spec _ _ _ _ _ _ _ H)
      as (_ & _ & _ & _ & Hr & _).
    unfold TextResponse_meta, on_super. rewrite (M1 _ _ Hr), S. reflexivity.
Qed.

(** X17.  A text body is encoded at construction under the override
    as it was given, before the URL is looked at, and the constructor
    raises what that encoding raises: the error of an unknown codec name,
    or of a character the codec cannot encode.  When it returns, the body
    holds the encoded bytes. *)
Theorem text_body_encode_errors :
  (forall url status0 hdrs t flags0 request0 E x,
      str_encode t E = Raise x ->
      TextResponse_new url status0 hdrs (BodyText t) flags0 request0 (Some E)
      = Raise x)
  /\ (forall url status0 hdrs t flags0 request0 E self,
         TextResponse_new url status0 hdrs (BodyText t) flags0 request0
           (Some E) = Ok self ->
         str_encode t E = Ok (body self)).
Proof.
  split.
  - intros url st hd t fl rq E x H. rewrite TextResponse_new_eq.
    cbn [stored_body]. rewrite H. reflexivity.
  - intros url st hd t fl rq E self H.
    destruct (TextResponse_new_spec _ _ _ _ _ _ _ H)
      as (_ & _ & _ & _ & _ & _ & Hs & _).
    exact Hs.
Qed.

End PlainResponse.

Section Printing.
Context {W : World}.

Lemma digits_no_space d :
  Str.contains " " (DecimalString.NilEmpty.string_of_uint d) = false.
Proof. induction d; cbn; auto. Qed.

Lemma decimal_no_space n : Str.contains " " (decimal n) = false.
Proof.
  unfold decimal. destruct (Z.to_int n) as [d|d]; cbn; apply digits_no_space.
Qed.

Lemma decimal_inj n n' : decimal n = decimal n' -> n = n'.
Proof.
  unfold decimal. intros H.
  pose proof (DecimalString.NilEmpty.isi (Z.to_int n)) as A.
  rewrite H, DecimalString.NilEmpty.isi in A. injection A as A.
  rewrite <- (DecimalZ.of_to n), <- (DecimalZ.of_to n'), A. reflexivity.
Qed.

(** Two texts without a space, each followed by a space, start the same
    string only if they are the same. *)
Lemma before_space_inj a a' x x' :
  Str.contains " " a = false -> Str.contains " " a' = false ->
  (a ++ " " ++ x)%string = (a' ++ " " ++ x')%string ->
  a = a' /\ x = x'.
Proof.
  revert a'. induction a as [|c a IH]; intros [|c' a']; cbn; intros Ha Ha' E.
  - injection E as E. auto.
  - injection E as <- _. discriminate Ha'.
  - injection E as -> _. discriminate Ha.
  - injection E as <- E.
    apply orb_false_elim in Ha, Ha'.
    destruct (IH a' (proj2 Ha) (proj2 Ha') E) as [-> ->]. auto.
Qed.

Lemma append_last_inj (x x' : string) c :
  (x ++ String c "")%string = (x' ++ String c "")%string -> x = x'.
Proof.
  revert x'. induction x as [|d x IH]; intros [|d' x']; cbn; intros E.
  - reflexivity.
  - injection E as _ E. destruct x'; discriminate E.
  - injection E as _ E. destruct x; discriminate E.
  - injection E as <- E. rewrite (IH _ E). reflexivity.
Qed.

(** X9.  What [str()] and [repr()] print tells the status and the URL
    apart: the text is [<], the status in decimal, a space, the URL and
    [>], and two responses print the same text only if they have the same
    status and the same URL.  Printing leaves the response as it is. *)
Theorem str_tells_status_and_url (r r' : Response) :
  snd (Response__str__ r) = r
  /\ (fst (Response__str__ r) = fst (Response__str__ r') ->
      status r = status r' /\ _url r = _url r').
Proof.
  split; [reflexivity|].
  unfold Response__str__, bind, getattr, ret. cbn [fst].
  intros E. injection E as E.
  destruct (@before_space_inj _ _ _ _ (decimal_no_space _)
              (decimal_no_space _) E)
    as [Hd Hu].
  split; [exact (@decimal_inj _ _ Hd) | exact (@append_last_inj _ _ _ Hu)].
Qed.

(** X10.  The edges of [Response.urljoin].  On a response whose URL is
    empty the argument comes back as it is, whatever it is.  On any other
    response an empty argument ([''] or [b'']) gives the URL of the
    response, and a non-empty [bytes] argument raises [TypeError]: [str]
    and [bytes] do not mix.  The response is left as it is. *)
Theorem urljoin_edge_cases (r : Response) :
  (_url r = EmptyString ->
   forall a, Response_urljoin a r = (Ok a, r))
  /\ (_url r <> EmptyString ->
      Response_urljoin (Urllib.AStr EmptyString) r
      = (Ok (Urllib.AStr (_url r)), r)
      /\ Response_urljoin (Urllib.ABytes []) r
         = (Ok (Urllib.AStr (_url r)), r)
      /\ forall l, l <> [] ->
                   Response_urljoin (Urllib.ABytes l) r
                   = (Raise TypeError, r)).
Proof.
  unfold Response_urljoin, bind, getattr, call. split.
  - intros -> a. reflexivity.
  - intros H.
    assert (T : negb (_url r =? "") = true).
    { destruct (String.eqb_spec (_url r) ""); [contradiction|reflexivity]. }
    unfold Urllib.urljoin, Urllib._coerce_args.
    cbn [Urllib.arg_truthy Urllib.is_str]. rewrite T. cbn [negb].
    conjs; try reflexivity.
    intros [|x l] Hl; [contradiction|]. reflexivity.
Qed.

(** X11.  [TextResponse.urljoin] never returns a URL.  An empty
    argument gives back the response object itself; a non-empty [str]
    raises [TypeError], and any other non-empty argument raises
    [AttributeError], the response having no [decode].  The response is
    left as it is. *)
Theorem text_urljoin_never_joins (self : TextResponse)
    (a : Urllib.arg TextResponse) :
  TextResponse_urljoin a self
  = (if Urllib.arg_truthy a
     then Raise (if Urllib.is_str a then TypeError else AttributeError)
     else Ok (Urllib.AObj self), self).
Proof.
  unfold TextResponse_urljoin, Urllib.urljoin, Urllib._coerce_args.
  cbn [Urllib.arg_truthy Urllib.is_str negb].
  destruct (Urllib.arg_truthy a) eqn:T; [|reflexivity].
  cbn [negb andb]. destruct a as [s|l|o]; cbn [Urllib.is_str]; reflexivity.
Qed.

End Printing.

(** * Relative references made of plain segments *)

Section PlainSegments.
Context {W : World}.

Lemma all_cons p c s : Str.all p (String c s) = p c && Str.all p s.
Proof. reflexivity. Qed.

Lemma alnum_cons c s :
  alnum (String c s) = true -> Fragment.is_alnum c = true /\ alnum s = true.
Proof. unfold alnum. rewrite all_cons. apply andb_prop. Qed.

(** A character that is neither a letter nor a digit does not occur. *)
Lemma alnum_contains c s :
  Fragment.is_alnum c = false -> alnum s = true -> Str.contains c s = false.
Proof.
  intros Hc. induction s as [|d s IH]; [reflexivity|].
  intros H. apply alnum_cons in H. destruct H as [Hd Hs].
  cbn [Str.contains]. rewrite (IH Hs), orb_false_r.
  destruct (Ascii.eqb_spec c d); [congruence|reflexivity].
Qed.

Lemma contains_app c a x :
  Str.contains c (a ++ x) = Str.contains c a || Str.contains c x.
Proof.
  induction a as [|d a IH]; [reflexivity|].
  cbn [append Str.contains]. rewrite IH, orb_assoc. reflexivity.
Qed.

Lemma remove_absent c s : Str.contains c s = false -> Str.remove c s = s.
Proof.
  induction s as [|d s IH]; [reflexivity|].
  cbn [Str.contains Str.remove]. intros H. apply orb_false_elim in H.
  destruct H as [Hd Hs]. rewrite Hd, (IH Hs). reflexivity.
Qed.

Lemma find_absent c s : Str.contains c s = false -> Str.find c s = None.
Proof.
  induction s as [|d s IH]; [reflexivity|].
  cbn [Str.contains Str.find]. intros H. apply orb_false_elim in H.
  destruct H as [Hd Hs]. rewrite Hd, (IH Hs). reflexivity.
Qed.

Lemma alnum_all_ascii s : alnum s = true -> Str.all Urllib.is_ascii_char s = true.
Proof.
  induction s as [|d s IH]; [reflexivity|].
  intros H. apply alnum_cons in H. destruct H as [Hd Hs].
  rewrite all_cons, (IH Hs), andb_true_r.
  revert Hd. unfold Fragment.is_alnum, Str.is_lower, Str.is_upper,
    Str.is_digit, Urllib.is_ascii_char.
  generalize (nat_of_ascii d). intros n Hn.
  apply Nat.ltb_lt.
  repeat (apply orb_prop in Hn; destruct Hn as [Hn|Hn]);
    apply andb_prop in Hn; destruct Hn as [_ Hn];
    apply Nat.leb_le in Hn; lia.
Qed.

Lemma alnum_lstrip s :
  alnum s = true -> Str.lstrip Urllib.c0_control_or_space s = s.
Proof.
  destruct s as [|d s]; [reflexivity|].
  intros H. apply alnum_cons in H. destruct H as [Hd _].
  cbn [Str.lstrip].
  replace (Urllib.c0_control_or_space d) with false; [reflexivity|].
  symmetry. revert Hd. unfold Fragment.is_alnum, Str.is_lower, Str.is_upper,
    Str.is_digit, Urllib.c0_control_or_space.
  generalize (nat_of_ascii d). intros n Hn.
  apply Nat.leb_gt.
  repeat (apply orb_prop in Hn; destruct Hn as [Hn|Hn]);
    apply andb_prop in Hn; destruct Hn as [Hn _];
    apply Nat.leb_le in Hn; lia.
Qed.

Lemma span_netloc_alnum host rest :
  alnum host = true ->
  Urllib.span_netloc (host ++ String "/" rest) = (host, String "/" rest).
Proof.
  induction host as [|d host IH]; [reflexivity|].
  intros H. apply alnum_cons in H. destruct H as [Hd Hs].
  cbn [append Urllib.span_netloc]. rewrite (IH Hs).
  assert (E : forall c, Fragment.is_alnum c = false -> Ascii.eqb d c = false).
  { intros c Hc. destruct (Ascii.eqb_spec d c); [congruence|reflexivity]. }
  rewrite !E by reflexivity. reflexivity.
Qed.

Lemma split_alnum s : alnum s = true -> Str.split "/" s = [s].
Proof.
  induction s as [|d s IH]; [reflexivity|].
  intros H. apply alnum_cons in H. destruct H as [Hd Hs].
  cbn [Str.split]. rewrite (IH Hs).
  destruct (Ascii.eqb_spec "/" d) as [<-|]; [discriminate Hd|reflexivity].
Qed.

Lemma split_alnum_slash s rest :
  alnum s = true ->
  Str.split "/" (s ++ String "/" rest) = s :: Str.split "/" rest.
Proof.
  induction s as [|d s IH]; [reflexivity|].
  intros H. apply alnum_cons in H. destruct H as [Hd Hs].
  cbn [append Str.split]. rewrite (IH Hs).
  destruct (Ascii.eqb_spec "/" d) as [<-|]; [discriminate Hd|reflexivity].
Qed.

(** A plain segment is neither [.] nor [..], and does not start with
    [/]. *)
Lemma alnum_not_dots s :
  alnum s = true -> (s =? "..") = false /\ (s =? ".") = false.
Proof.
  destruct s as [|d s]; [auto|].
  intros H. apply alnum_cons in H. destruct H as [Hd _].
  assert (E : Ascii.eqb d "." = false).
  { destruct (Ascii.eqb_spec d "."); [subst; discriminate Hd|reflexivity]. }
  cbn [String.eqb]. rewrite E. auto.
Qed.

Lemma alnum_head s x :
  alnum s = true -> s <> EmptyString ->
  exists d s', s = String d s' /\ Ascii.eqb d "/" = false
               /\ (String d x =? "") = false.
Proof.
  destruct s as [|d s]; [contradiction|].
  intros H _. apply alnum_cons in H. destruct H as [Hd _].
  exists d, s. conjs; [reflexivity | | reflexivity].
  destruct (Ascii.eqb_spec d "/"); [subst; discriminate Hd|reflexivity].
Qed.

End PlainSegments.

Section Resolution.
Context {W : World}.

Lemma clean_path dir file :
  alnum dir = true -> alnum file = true ->
  clean (String "/" (dir ++ String "/" file)).
Proof.
  intros Hd Hf c Hc Hs. cbn [Str.contains].
  rewrite contains_app. cbn [Str.contains].
  rewrite (alnum_contains _ _ Hc Hd), (alnum_contains _ _ Hc Hf).
  destruct (Ascii.eqb_spec c "/"); [contradiction|reflexivity].
Qed.

(** An [http] URL with a plain host and a clean path has these as its
    parts, whatever the default scheme. *)
Lemma urlparse_http host p scheme0 :
  alnum host = true -> clean (String "/" p) ->
  Urllib.urlparse check_bracketed_netloc checknetloc_nfkc
    ("http://" ++ host ++ String "/" p) scheme0
  = Ok (Urllib.mkParse "http" host (String "/" p) "" "" "").
Proof.
  intros Hh Hp.
  assert (Hc : forall c, Fragment.is_alnum c = false -> c <> "/"%char ->
                         Str.contains c (host ++ String "/" p) = false).
  { intros c Hc Hs. rewrite contains_app, (alnum_contains _ _ Hc Hh).
    exact (Hp c Hc Hs). }
  set (U := ("http://" ++ host ++ String "/" p)%string).
  assert (F1 : Str.lstrip Urllib.c0_control_or_space U = U) by reflexivity.
  assert (F3 : Str.find ":" U = Some 4) by reflexivity.
  assert (Fc : forall c, Fragment.is_alnum c = false -> c <> "/"%char ->
                         c <> ":"%char -> Str.contains c U = false).
  { intros c H1 H2 H3. unfold U. cbn [append Str.contains].
    rewrite (Hc c H1 H2).
    repeat match goal with
           | |- context [Ascii.eqb c ?d] =>
               destruct (Ascii.eqb_spec c d);
               [subst; try discriminate H1; try contradiction|]
           end.
    reflexivity. }
  unfold Urllib.urlparse, Urllib.urlsplit.
  rewrite F1.
  rewrite !(remove_absent _ U) by (apply Fc; [reflexivity | discriminate ..]).
  rewrite F3.
  unfold U at 1. cbn [append].
  change (Urllib.is_ascii_char "h" && Str.is_ascii_alpha "h"
          && Str.all Urllib.scheme_char (Str.take 4 U)) with true.
  change (Str.lower (Str.take 4 U)) with "http".
  change (Str.drop 5 U) with ("//" ++ host ++ String "/" p)%string.
  cbv beta iota zeta.
  change (Str.take 2 ("//" ++ host ++ String "/" p) =? "//") with true.
  cbv beta iota.
  unfold Urllib._splitnetloc.
  change (Str.drop 2 ("//" ++ host ++ String "/" p))
    with (host ++ String "/" p)%string.
  rewrite (span_netloc_alnum host p Hh).
  rewrite !(alnum_contains _ _ (eq_refl : Fragment.is_alnum "[" = false) Hh).
  rewrite !(alnum_contains _ _ (eq_refl : Fragment.is_alnum "]" = false) Hh).
  cbn [andb orb negb obind].
  rewrite !(Hp "#"%char eq_refl) by discriminate.
  rewrite !(Hp "?"%char eq_refl) by discriminate.
  unfold Urllib._checknetloc. rewrite (alnum_all_ascii _ Hh), orb_true_r.
  cbn [obind Urllib.s_scheme Urllib.s_path Urllib.s_netloc Urllib.s_query
       Urllib.s_fragment].
  rewrite (Hp ";"%char eq_refl) by discriminate. rewrite andb_false_r.
  reflexivity.
Qed.

(** A reference without scheme, netloc, query or fragment is its own
    path. *)
Lemma urlparse_path u :
  Str.lstrip Urllib.c0_control_or_space u = u ->
  clean u ->
  (Str.take 2 u =? "//") = false ->
  Urllib.urlparse check_bracketed_netloc checknetloc_nfkc u "http"
  = Ok (Urllib.mkParse "http" "" u "" "" "").
Proof.
  intros F1 Hp F2.
  unfold Urllib.urlparse, Urllib.urlsplit.
  rewrite F1.
  rewrite !(remove_absent _ u) by (apply Hp; [reflexivity | discriminate]).
  rewrite (find_absent _ u) by (apply Hp; [reflexivity | discriminate]).
  change (Str.remove "010"
            (Str.remove "013"
               (Str.remove "009" (Str.strip Urllib.c0_control_or_space "http"))))
    with "http".
  cbv beta iota zeta. rewrite F2.
  cbn [obind].
  rewrite !(Hp "#"%char eq_refl) by discriminate.
  rewrite !(Hp "?"%char eq_refl) by discriminate.
  cbn [obind Urllib._checknetloc String.eqb orb Urllib.s_scheme Urllib.s_path
       Urllib.s_netloc Urllib.s_query Urllib.s_fragment].
  rewrite (Hp ";"%char eq_refl) by discriminate. rewrite andb_false_r.
  reflexivity.
Qed.

End Resolution.

Section Joining.
Context {W : World}.

Lemma alnum_clean s : alnum s = true -> clean s.
Proof. intros H c Hc _. exact (alnum_contains _ _ Hc H). Qed.

Lemma slash_alnum_clean s : alnum s = true -> clean (String "/" s).
Proof.
  intros H c Hc Hs. cbn [Str.contains]. rewrite (alnum_contains _ _ Hc H).
  destruct (Ascii.eqb_spec c "/"); [contradiction|reflexivity].
Qed.

Lemma resolve_plain l s :
  (s =? "..") = false -> (s =? ".") = false ->
  Urllib.resolve_step l s = l ++ [s].
Proof. unfold Urllib.resolve_step. intros -> ->. reflexivity. Qed.

Lemma urljoin_segment (r : Response) (host dir file seg : string) :
  alnum host = true -> alnum dir = true -> alnum file = true ->
  alnum seg = true ->
  host <> EmptyString -> dir <> EmptyString -> seg <> EmptyString ->
  _url r = ("http://" ++ host ++ "/" ++ dir ++ "/" ++ file)%string ->
  fst (Response_urljoin (Urllib.AStr seg) r)
  = Ok (Urllib.AStr ("http://" ++ host ++ "/" ++ dir ++ "/" ++ seg)).
Proof.
  intros Hh Hd Hf Hs Nh Nd Ns Hr.
  unfold Response_urljoin, bind, getattr, call. cbn [fst]. rewrite Hr.
  destruct (@alnum_head seg "" Hs Ns) as (c & seg' & -> & Hc & _).
  unfold Urllib.urljoin.
  cbn [Urllib.arg_truthy append String.eqb negb Urllib._coerce_args
       Urllib.is_str Bool.eqb andb obind].
  rewrite (@urlparse_http _ host (dir ++ String "/" file)%string ""
             Hh (@clean_path dir file Hd Hf)).
  cbn [obind Urllib.scheme].
  rewrite (@urlparse_path _ (String c seg') (@alnum_lstrip _ Hs)
             (@alnum_clean _ Hs)).
  2:{ cbn [Str.take String.eqb]. rewrite Hc. reflexivity. }
  cbn [obind Urllib.scheme Urllib.netloc Urllib.path Urllib.params
       Urllib.query Urllib.fragment].
  assert (Sb : Str.split "/" (String "/" (dir ++ String "/" file))
               = [EmptyString; dir; file]).
  { change (String "/" (dir ++ String "/" file))
      with ("" ++ String "/" (dir ++ String "/" file))%string.
    rewrite (@split_alnum_slash "" _ eq_refl), (@split_alnum_slash dir file Hd),
      (@split_alnum file Hf).
    reflexivity. }
  assert (Ss : Str.split "/" (String c seg') = [String c seg'])
    by exact (@split_alnum _ Hs).
  assert (T1 : (Str.take 1 (String c seg') =? "/") = false)
    by (cbn [Str.take String.eqb]; rewrite Hc; reflexivity).
  destruct (@alnum_not_dots _ Hs) as [D2 D1].
  destruct (@alnum_not_dots _ Hd) as [E2 E1].
  assert (Ed : (dir =? "") = false) by (apply String.eqb_neq; exact Nd).
  assert (Eh : (host =? "") = false) by (apply String.eqb_neq; exact Nh).
  rewrite Sb, Ss, T1.
  change (negb ("http" =? "http") || negb (Str.mem "http" Urllib.uses_relative))
    with false.
  change (Str.mem "http" Urllib.uses_netloc) with true.
  change (String c seg' =? "") with false.
  cbn [andb negb String.eqb last removelast app].
  assert (Fm : Urllib.filter_middle
                 ((if negb (file =? "") then [EmptyString; dir]
                   else [EmptyString; dir; file]) ++ [String c seg'])
               = [EmptyString; dir; String c seg']).
  { destruct (String.eqb_spec file "") as [->|Nf];
      cbn [negb app Urllib.filter_middle removelast last filter];
      rewrite Ed; reflexivity. }
  rewrite Fm. cbn [last]. rewrite D1, D2.
  cbn [orb fold_left].
  rewrite !resolve_plain by (assumption || reflexivity).
  cbn [app Str.join append String.eqb].
  unfold Urllib.urlunparse, Urllib.urlunsplit, Urllib._coerce_result.
  cbn [Urllib.scheme Urllib.netloc Urllib.path Urllib.params Urllib.query
       Urllib.fragment String.eqb negb].
  rewrite Eh. cbn [negb orb andb Str.take String.eqb Ascii.eqb append].
  reflexivity.
Qed.

Lemma urljoin_rooted_segment (r : Response) (host dir file seg : string) :
  alnum host = true -> alnum dir = true -> alnum file = true ->
  alnum seg = true ->
  host <> EmptyString -> seg <> EmptyString ->
  _url r = ("http://" ++ host ++ "/" ++ dir ++ "/" ++ file)%string ->
  fst (Response_urljoin (Urllib.AStr ("/" ++ seg)) r)
  = Ok (Urllib.AStr ("http://" ++ host ++ "/" ++ seg)).
Proof.
  intros Hh Hd Hf Hs Nh Ns Hr.
  unfold Response_urljoin, bind, getattr, call. cbn [fst]. rewrite Hr.
  destruct (@alnum_head seg "" Hs Ns) as (c & seg' & -> & Hc & _).
  unfold Urllib.urljoin.
  cbn [Urllib.arg_truthy append String.eqb negb Urllib._coerce_args
       Urllib.is_str Bool.eqb andb obind].
  rewrite (@urlparse_http _ host (dir ++ String "/" file)%string ""
             Hh (@clean_path dir file Hd Hf)).
  cbn [obind Urllib.scheme].
  rewrite (@urlparse_path _ (String "/" (String c seg')) eq_refl
             (@slash_alnum_clean _ Hs)).
  2:{ cbn [Str.take String.eqb]. rewrite Hc.
      destruct (Ascii.eqb "/" "/"); reflexivity. }
  cbn [obind Urllib.scheme Urllib.netloc Urllib.path Urllib.params
       Urllib.query Urllib.fragment].
  assert (Ss : Str.split "/" (String "/" (String c seg'))
               = [EmptyString; String c seg']).
  { change (String "/" (String c seg')) with ("" ++ String "/" (String c seg'))%string.
    rewrite (@split_alnum_slash "" _ eq_refl), (@split_alnum _ Hs).
    reflexivity. }
  destruct (@alnum_not_dots _ Hs) as [D2 D1].
  assert (Eh : (host =? "") = false) by (apply String.eqb_neq; exact Nh).
  rewrite Ss.
  change (negb ("http" =? "http") || negb (Str.mem "http" Urllib.uses_relative))
    with false.
  change (Str.mem "http" Urllib.uses_netloc) with true.
  change (String "/" (String c seg') =? "") with false.
  change (Str.take 1 (String "/" (String c seg')) =? "/") with true.
  cbn [andb negb last]. rewrite D1, D2.
  cbn [orb fold_left].
  rewrite !resolve_plain by (assumption || reflexivity).
  cbn [app Str.join append String.eqb].
  unfold Urllib.urlunparse, Urllib.urlunsplit, Urllib._coerce_result.
  cbn [Urllib.scheme Urllib.netloc Urllib.path Urllib.params Urllib.query
       Urllib.fragment String.eqb negb].
  rewrite Eh. cbn [negb orb andb Str.take String.eqb Ascii.eqb append].
  reflexivity.
Qed.

Lemma urljoin_absolute (r : Response) (host dir file host' seg : string) :
  alnum host = true -> alnum dir = true -> alnum file = true ->
  alnum host' = true -> alnum seg = true -> host' <> EmptyString ->
  _url r = ("http://" ++ host ++ "/" ++ dir ++ "/" ++ file)%string ->
  fst (Response_urljoin (Urllib.AStr ("http://" ++ host' ++ "/" ++ seg)) r)
  = Ok (Urllib.AStr ("http://" ++ host' ++ "/" ++ seg)).
Proof.
  intros Hh Hd Hf Hh' Hs Nh' Hr.
  unfold Response_urljoin, bind, getattr, call. cbn [fst]. rewrite Hr.
  unfold Urllib.urljoin.
  cbn [Urllib.arg_truthy append String.eqb negb Urllib._coerce_args
       Urllib.is_str Bool.eqb andb obind].
  rewrite (@urlparse_http _ host (dir ++ String "/" file)%string ""
             Hh (@clean_path dir file Hd Hf)).
  cbn [obind Urllib.scheme].
  rewrite (@urlparse_http _ host' seg "http" Hh' (@slash_alnum_clean _ Hs)).
  cbn [obind Urllib.scheme Urllib.netloc Urllib.path Urllib.params
       Urllib.query Urllib.fragment].
  assert (Eh : (host' =? "") = false) by (apply String.eqb_neq; exact Nh').
  change (negb ("http" =? "http") || negb (Str.mem "http" Urllib.uses_relative))
    with false.
  change (Str.mem "http" Urllib.uses_netloc) with true.
  rewrite Eh. cbn [andb negb].
  unfold Urllib.urlunparse, Urllib.urlunsplit, Urllib._coerce_result.
  cbn [Urllib.scheme Urllib.netloc Urllib.path Urllib.params Urllib.query
       Urllib.fragment String.eqb negb].
  rewrite Eh. cbn [negb orb andb Str.take String.eqb Ascii.eqb append].
  reflexivity.
Qed.

(** X12.  References made of plain parts.  On a response whose URL is
    [http://host/dir/file], the parts being made of ASCII letters and
    digits ([file] may be empty), joining a segment [seg] of letters and
    digits replaces the last segment of the path, joining [/seg] replaces
    the whole path, scheme and host being those of the response, and
    joining an absolute URL [http://host'/seg] gives that URL. *)
Theorem urljoin_plain_segment (r : Response)
    (host dir file seg host' : string) :
  alnum host = true -> alnum dir = true -> alnum file = true ->
  alnum seg = true -> alnum host' = true ->
  host <> EmptyString -> dir <> EmptyString -> seg <> EmptyString ->
  host' <> EmptyString ->
  _url r = ("http://" ++ host ++ "/" ++ dir ++ "/" ++ file)%string ->
  fst (Response_urljoin (Urllib.AStr seg) r)
  = Ok (Urllib.AStr ("http://" ++ host ++ "/" ++ dir ++ "/" ++ seg))
  /\ fst (Response_urljoin (Urllib.AStr ("/" ++ seg)) r)
     = Ok (Urllib.AStr ("http://" ++ host ++ "/" ++ seg))
  /\ fst (Response_urljoin
            (Urllib.AStr ("http://" ++ host' ++ "/" ++ seg)) r)
     = Ok (Urllib.AStr ("http://" ++ host' ++ "/" ++ seg)).
Proof.
  intros Hh Hd Hf Hs Hh' Nh Nd Ns Nh' Hr. conjs.
  - exact (@urljoin_segment r host dir file seg Hh Hd Hf Hs Nh Nd Ns Hr).
  - exact (@urljoin_rooted_segment r host dir file seg Hh Hd Hf Hs Nh Ns Hr).
  - exact (@urljoin_absolute r host dir file host' seg Hh Hd Hf Hh' Hs Nh' Hr).
Qed.

End Joining.

(** * [urljoin] on text *)

Section JoinOnText.
Context {W : World}.

Lemma urlsplit_raises url scheme0 e :
  (forall netloc x, check_bracketed_netloc netloc = Raise x -> x = ValueError) ->
  (forall netloc x, checknetloc_nfkc netloc = Raise x -> x = ValueError) ->
  Urllib.urlsplit check_bracketed_netloc checknetloc_nfkc url scheme0
  = Raise e ->
  e = ValueError.
Proof.
  intros bracketed_raises nfkc_raises.
  unfold Urllib.urlsplit, Urllib._checknetloc, obind.
  repeat match goal with
         | |- context [match ?x with _ => _ end] =>
             lazymatch x with
             | context [match _ with _ => _ end] => fail
             | _ => destruct x eqn:?
             end
         | |- context [if ?x then _ else _] =>
             lazymatch x with
             | context [match _ with _ => _ end] => fail
             | context [if _ then _ else _] => fail
             | _ => destruct x eqn:?
             end
         end;
    try discriminate; intros [= <-]; eauto.
Qed.

Lemma urlparse_raises url scheme0 e :
  (forall netloc x, check_bracketed_netloc netloc = Raise x -> x = ValueError) ->
  (forall netloc x, checknetloc_nfkc netloc = Raise x -> x = ValueError) ->
  Urllib.urlparse check_bracketed_netloc checknetloc_nfkc url scheme0
  = Raise e ->
  e = ValueError.
Proof.
  intros Hb Hn. unfold Urllib.urlparse, obind.
  destruct (Urllib.urlsplit _ _ url scheme0) as [sr|x] eqn:E.
  - destruct (Str.mem _ _ && Str.contains _ _);
      [destruct (Urllib._splitparams _)|]; discriminate.
  - intros [= <-]. exact (urlsplit_raises _ _ Hb Hn E).
Qed.

(** X16.  [Response.urljoin] keeps text as text.  The netloc
    validations of [urllib] raising nothing but [ValueError], the method
    given a [str] returns a [str] or raises [ValueError] (a URL whose
    netloc does not pass validation); it raises no [TypeError], and the
    response is left as it is. *)
Theorem urljoin_on_text_gives_text (r : Response) (s : string) :
  (forall netloc x, check_bracketed_netloc netloc = Raise x -> x = ValueError) ->
  (forall netloc x, checknetloc_nfkc netloc = Raise x -> x = ValueError) ->
  snd (Response_urljoin (Urllib.AStr s) r) = r
  /\ match fst (Response_urljoin (Urllib.AStr s) r) with
     | Ok (Urllib.AStr _) => True
     | Ok _ => False
     | Raise e => e = ValueError
     end.
Proof.
  intros Hb Hn. split; [reflexivity|].
  unfold Response_urljoin, bind, getattr, call. cbn [fst].
  unfold Urllib.urljoin, Urllib._coerce_result, Urllib._coerce_args.
  cbn [Urllib.arg_truthy Urllib.is_str Bool.eqb negb].
  destruct (negb (negb (_url r =? ""))); [exact I|].
  destruct (negb (negb (s =? ""))); [exact I|].
  rewrite andb_false_r. cbn [obind].
  destruct (Urllib.urlparse _ _ (_url r) EmptyString) as [bp|x] eqn:Eb;
    cbn [obind]; [|exact (urlparse_raises _ _ Hb Hn Eb)].
  destruct (Urllib.urlparse _ _ s (Urllib.scheme bp)) as [p|x] eqn:Ep;
    cbn [obind]; [|exact (urlparse_raises _ _ Hb Hn Ep)].
  repeat match goal with
         | |- context [if ?x then _ else _] =>
             lazymatch x with
             | context [if _ then _ else _] => fail
             | _ => destruct x
             end
         end; exact I.
Qed.

End JoinOnText.

(** * UTF-8 bodies without a declaration, in the Fragment *)

Section FragmentUtf8.
Import Examples.
Local Open Scope N_scope.

Ltac run := vm_compute; reflexivity.

Lemma startswith_prefix p l :
  W3lib.startswith p l = true -> exists rest, l = (p ++ rest)%list.
Proof.
  revert l. induction p as [|x p IH]; intros l; [exists l; reflexivity|].
  destruct l as [|y l]; cbn [W3lib.startswith]; [discriminate|].
  intros H. apply andb_prop in H. destruct H as [Hx Hs].
  apply Byte.byte_dec_bl in Hx. subst y.
  destruct (IH l Hs) as [rest ->]. exists rest. reflexivity.
Qed.

(** UTF-8 bytes start with no BOM unless the text starts with U+FEFF:
    the bytes [0xFE] and [0xFF] of the other BOMs occur in no UTF-8
    text. *)
Lemma utf_8_no_bom T l :
  Fragment.codec_encode Fragment.c_utf_8 T = Ok l ->
  hd_error T <> Some 0xFEFF ->
  W3lib.read_bom l = None.
Proof.
  intros He Hhd. unfold W3lib.read_bom.
  destruct (find (fun e => W3lib.startswith (fst e) l) W3lib._BOM_TABLE)
    as [[bom enc]|] eqn:F; [|reflexivity].
  exfalso.
  apply find_some in F. destruct F as [Hin Hs]. cbn [fst] in Hs.
  destruct (startswith_prefix _ _ Hs) as [rest ->].
  pose proof (scan_utf_8_codec_encode _ He) as Hscan.
  rewrite map_app in Hscan.
  cbn in Hin.
  destruct Hin as [E|[E|[E|[E|[E|[]]]]]]; injection E as <- _;
    cbn [W3lib.BOM_UTF32_BE W3lib.BOM_UTF32_LE W3lib.BOM_UTF16_BE
         W3lib.BOM_UTF16_LE W3lib.BOM_UTF8 map app] in Hscan.
  - change (Fragment.scan_utf_8
              (Byte.to_N x00 :: Byte.to_N x00 :: Byte.to_N xfe
                 :: Byte.to_N xff :: map Byte.to_N rest))
      with (Some 0 :: Some 0 :: None
              :: Fragment.scan_utf_8 (Byte.to_N xff :: map Byte.to_N rest))
      in Hscan.
    destruct T as [|c0 [|c1 [|c2 T]]]; discriminate Hscan.
  - change (Fragment.scan_utf_8
              (Byte.to_N xff :: Byte.to_N xfe :: Byte.to_N x00
                 :: Byte.to_N x00 :: map Byte.to_N rest))
      with (None :: Fragment.scan_utf_8
                      (Byte.to_N xfe :: Byte.to_N x00 :: Byte.to_N x00
                         :: map Byte.to_N rest))
      in Hscan.
    destruct T; discriminate Hscan.
  - change (Fragment.scan_utf_8
              (Byte.to_N xfe :: Byte.to_N xff :: map Byte.to_N rest))
      with (None :: Fragment.scan_utf_8
                      (Byte.to_N xff :: map Byte.to_N rest))
      in Hscan.
    destruct T; discriminate Hscan.
  - change (Fragment.scan_utf_8
              (Byte.to_N xff :: Byte.to_N xfe :: map Byte.to_N rest))
      with (None :: Fragment.scan_utf_8
                      (Byte.to_N xfe :: map Byte.to_N rest))
      in Hscan.
    destruct T; discriminate Hscan.
  - change (Fragment.scan_utf_8
              (Byte.to_N xef :: Byte.to_N xbb :: Byte.to_N xbf
                 :: map Byte.to_N rest))
      with (Some 0xFEFF :: Fragment.scan_utf_8 (map Byte.to_N rest))
      in Hscan.
    destruct T as [|c0 T]; [discriminate Hscan|].
    cbn [map] in Hscan. apply Hhd. cbn [hd_error]. congruence.
Qed.

(** A strict [ascii] decode fails on a byte outside ASCII. *)
Lemma ascii_strict_fails l :
  Fragment.is_ascii_bytes l = false ->
  Fragment.bytes_decode l "ascii" Strict = Raise UnicodeError.
Proof.
  change (Fragment.bytes_decode l "ascii" Strict)
    with (Fragment.handle_errors Strict
            (Fragment.scan_ascii (map Byte.to_N l))).
  induction l as [|x l IH];
    cbn [Fragment.is_ascii_bytes forallb map Fragment.scan_ascii
         Fragment.handle_errors]; [discriminate|].
  destruct (Byte.to_N x <? 128); cbn [andb Fragment.handle_errors obind].
  - intros H. unfold Fragment.scan_ascii in IH.
    unfold Fragment.is_ascii_bytes in IH. rewrite (IH H). reflexivity.
  - reflexivity.
Qed.

(** On ASCII bytes the [cp1252] and [utf-8] decoders agree. *)
Lemma ascii_scans_agree l :
  Fragment.is_ascii_bytes l = true ->
  Fragment.scan_cp1252 (map Byte.to_N l)
  = Fragment.scan_utf_8 (map Byte.to_N l).
Proof.
  induction l as [|x l IH]; [reflexivity|].
  cbn [Fragment.is_ascii_bytes forallb]. intros H.
  apply andb_prop in H. destruct H as [Hx Hl].
  cbn [map Fragment.scan_cp1252 Fragment.scan_utf_8].
  change (map Fragment.cp1252_char (map Byte.to_N l))
    with (Fragment.scan_cp1252 (map Byte.to_N l)).
  rewrite (IH Hl), Hx.
  unfold Fragment.cp1252_char.
  apply N.ltb_lt in Hx.
  destruct (N.leb_spec 0x80 (Byte.to_N x)); [lia|]. reflexivity.
Qed.

Lemma utf_8_body_text T l (self : TextResponse (W := W)) :
  Fragment.str_encode T "utf-8" = Ok l ->
  hd_error T <> Some 0xFEFF ->
  ~ In "<"%byte l ->
  response [] (BodyBytes l) None = Ok self ->
  fst (encoding self)
  = Ok (Some (if Fragment.is_ascii_bytes l then "cp1252" else "utf-8"))
  /\ fst (text self) = Ok T.
Proof.
  intros He Hhd _ H.
  change (Fragment.str_encode T "utf-8")
    with (Fragment.codec_encode Fragment.c_utf_8 T) in He.
  destruct (TextResponse_new_spec _ _ _ _ _ _ _ H)
    as (_ & Henc & Hh & _ & _ & _ & Hb & _).
  cbn [stored_body] in Hb. injection Hb as Hb.
  assert (H0 : truthy (_encoding self) = false) by (rewrite Henc; reflexivity).
  assert (H1 : content_type self = Ok EmptyString).
  { unfold content_type. rewrite Hh. run. }
  assert (H2 : document_declared self = None) by reflexivity.
  assert (H3 : W3lib.read_bom (body self) = None).
  { rewrite <- Hb. exact (utf_8_no_bom _ He Hhd). }
  destruct (auto_detect_settles (reach_new _ _ _ _ _ _ _ H) H0 H1
              eq_refl H2 H3 (candidates_decode_errors (body self)))
    as (t & Ee & Ed & Et).
  rewrite Ee, Et, <- Ed, <- Hb.
  pose proof (scan_utf_8_codec_encode _ He) as Hscan.
  unfold auto_detected. cbn [first_decodable].
  change (bytes_decode (World := W) l _DEFAULT_ENCODING Strict)
    with (Fragment.bytes_decode l "ascii" Strict).
  change (bytes_decode (World := W) l "utf-8" Strict)
    with (Fragment.handle_errors Strict
            (Fragment.scan_utf_8 (map Byte.to_N l))).
  destruct (Fragment.is_ascii_bytes l) eqn:Ea.
  - destruct (ascii_decodes _ Ea) as [t' Ht']. rewrite Ht'.
    split; [reflexivity|].
    change (Fragment.handle_errors Replace
              (Fragment.scan_cp1252 (map Byte.to_N l)) = Ok T).
    rewrite (ascii_scans_agree _ Ea), Hscan. apply handle_errors_Some.
  - rewrite (ascii_strict_fails _ Ea), Hscan, handle_errors_Some.
    split; [reflexivity|].
    change (Fragment.handle_errors Replace
              (Fragment.scan_utf_8 (map Byte.to_N l)) = Ok T).
    rewrite Hscan. apply handle_errors_Some.
Qed.

(** X13.  A UTF-8 body comes back without any declaration.  In the
    Fragment, a response built from the UTF-8 bytes of a text that does
    not start with U+FEFF, with no header and no override (the bytes
    holding no markup), has that text as its [text]; its encoding is
    [utf-8], or [cp1252] when the bytes are pure ASCII. *)
Theorem utf_8_body_comes_back T l (self : TextResponse (W := W)) :
  Fragment.str_encode T "utf-8" = Ok l ->
  hd_error T <> Some 0xFEFF ->
  ~ In "<"%byte l ->
  response [] (BodyBytes l) None = Ok self ->
  fst (encoding self)
  = Ok (Some (if Fragment.is_ascii_bytes l then "cp1252" else "utf-8"))
  /\ fst (text self) = Ok T.
Proof. exact (@utf_8_body_text T l self). Qed.

End FragmentUtf8.

(** * The further properties on concrete responses *)

Section FragmentMore.
Import Examples MoreExamples.
Local Open Scope N_scope.

Ltac run := vm_compute; reflexivity.

(** X1, on the response with the header [charset=UTF-8] and the body
    [0xA3], after its selector was built. *)
Lemma text_is_function_of_inputs_witness :
  reachable (after OpSelector with_header)
  /\ fst (text (after OpSelector with_header))
     = resolveText (after OpSelector with_header)
  /\ resolveText (after OpSelector with_header) = Ok [0xFFFD].
Proof.
  assert (R : reachable (after OpSelector with_header))
    by (apply reach_op, with_header_reachable).
  split; [exact R|].
  split; [exact (text_is_function_of_inputs R) | run].
Defined.

(** X2, on the response with the body [hello]. *)
Lemma selector_is_function_of_inputs_witness :
  reachable hello
  /\ fst (selector hello) = resolveSelector hello
  /\ fst (xpath "//a" hello)
     = match resolveSelector hello with
       | Ok s => parsel_xpath s "//a"
       | Raise e => Raise e
       end
  /\ resolveSelector hello
     = Ok (Fragment.mkSelector (u "hello") "http://example.com/a/b").
Proof.
  destruct (selector_is_function_of_inputs hello_reachable) as [A B].
  split; [exact hello_reachable|].
  split; [exact A|]. split; [exact (B "//a"%string) | run].
Defined.

(** X3, on a response whose caches are all empty. *)
Lemma selector_built_once_witness :
  fst (selector fresh_hello) = Ok (Fragment.mkSelector (u "hello") "")
  /\ _cached_selector (snd (selector fresh_hello))
     = Some (Fragment.mkSelector (u "hello") "")
  /\ selector (snd (selector fresh_hello))
     = (Ok (Fragment.mkSelector (u "hello") ""), snd (selector fresh_hello))
  /\ xpath "//a" (snd (selector fresh_hello))
     = (parsel_xpath (World := W) (Fragment.mkSelector (u "hello") "") "//a",
        snd (selector fresh_hello)).
Proof.
  destruct (selector_built_once fresh_hello) as [A _].
  assert (Hs : fst (selector fresh_hello)
               = Ok (Fragment.mkSelector (u "hello") "")) by run.
  destruct (A _ _ (returned _ _ Hs)) as (A1 & A2 & A3).
  split; [exact Hs|]. split; [exact A1|]. split; [exact A2|].
  exact (A3 "//a"%string).
Defined.

(** X4, on the response with the header [charset=UTF-8]. *)
Lemma declared_signals_of_inputs_witness :
  reachable with_header
  /\ fst (_headers_encoding with_header) = transport_declared with_header
  /\ fst (_body_declared_encoding with_header)
     = Ok (document_declared with_header)
  /\ fst (_declared_encoding with_header) = declared with_header
  /\ declared with_header = Ok (Some "utf-8").
Proof.
  destruct (declared_signals_of_inputs with_header_reachable) as (A & B & C).
  split; [exact with_header_reachable|].
  split; [exact A|]. split; [exact B|]. split; [exact C | run].
Defined.

(** X5, on the response with the body [hello]. *)
Lemma encoding_is_never_None_witness :
  reachable hello /\ exists e, fst (encoding hello) = Ok (Some e).
Proof.
  split; [exact hello_reachable|].
  exact (encoding_is_never_None hello_reachable).
Defined.

(** X6, on a body that is the UTF-8 BOM followed by [hi]. *)
Lemma bom_decides_when_undeclared_witness :
  reachable with_bom
  /\ truthy (_encoding with_bom) = false
  /\ content_type with_bom = Ok EmptyString
  /\ W3lib.read_bom (body with_bom) = Some ("utf-8", W3lib.BOM_UTF8)
  /\ (exists t,
         fst (encoding with_bom) = Ok (Some "utf-8")
         /\ bytes_decode (World := W)
              (skipn (length W3lib.BOM_UTF8) (body with_bom)) "utf-8" Replace
            = Ok t
         /\ fst (text with_bom) = Ok t)
  /\ fst (text with_bom) = Ok (u "hi").
Proof.
  assert (R : reachable with_bom) by (apply reachable_response; run).
  assert (H0 : truthy (_encoding with_bom) = false) by run.
  assert (H1 : content_type with_bom = Ok EmptyString) by run.
  assert (H3 : W3lib.read_bom (body with_bom)
               = Some ("utf-8"%string, W3lib.BOM_UTF8)) by run.
  split; [exact R|]. split; [exact H0|]. split; [exact H1|].
  split; [exact H3|]. split; [|run].
  exact (bom_decides_when_undeclared R H0 H1 eq_refl eq_refl H3).
Defined.


(** X8, on a response built without a request and on one built with
    one. *)
Lemma meta_of_the_request_witness :
  (plain = Ok page
   /\ meta depth_meta page = (Raise AttributeError, page))
  /\ (requested = Ok (built_plain requested)
      /\ meta depth_meta (built_plain requested)
         = (Ok [("depth"%string, 1%Z)], built_plain requested))
  /\ (response [] (BodyBytes (b "hello")) None = Ok hello
      /\ TextResponse_meta depth_meta hello = (Raise AttributeError, hello)).
Proof.
  destruct (meta_of_the_request (W := W) depth_meta) as (A & B & C & _).
  assert (Hp : plain = Ok page) by (apply built_plain_ok; run).
  assert (Hq : requested = Ok (built_plain requested))
    by (apply built_plain_ok; run).
  assert (Hh : response [] (BodyBytes (b "hello")) None = Ok hello)
    by (apply built_ok; run).
  split; [split; [exact Hp | exact (A _ _ _ _ _ _ Hp)]|].
  split; [split; [exact Hq | exact (B _ _ _ _ _ _ _ Hq)]|].
  split; [exact Hh | exact (C _ _ _ _ _ _ _ Hh)].
Defined.

(** X9, on two responses that differ in their flags only. *)
Lemma str_tells_status_and_url_witness :
  fst (Response__str__ page) = Ok "<200 http://example.com/a/b>"%string
  /\ fst (Response__str__ page)
     = fst (Response__str__ (set_flags ["cached"%string] page))
  /\ status page = status (set_flags ["cached"%string] page)
  /\ _url page = _url (set_flags ["cached"%string] page).
Proof.
  assert (E : fst (Response__str__ page)
              = fst (Response__str__ (set_flags ["cached"%string] page)))
    by run.
  destruct (str_tells_status_and_url page (set_flags ["cached"%string] page))
    as (_ & A).
  split; [run|]. split; [exact E|]. exact (A E).
Defined.

(** X10, on [Response("")] and on [Response("http://example.com/a/b")]. *)
Lemma urljoin_edge_cases_witness :
  (_url (built_plain nowhere) = EmptyString
   /\ Response_urljoin (Urllib.ABytes (b "x")) (built_plain nowhere)
      = (Ok (Urllib.ABytes (b "x")), built_plain nowhere))
  /\ (_url page <> EmptyString
      /\ Response_urljoin (Urllib.AStr EmptyString) page
         = (Ok (Urllib.AStr "http://example.com/a/b"), page)
      /\ Response_urljoin (Urllib.ABytes (b "c")) page
         = (Raise TypeError, page)).
Proof.
  assert (H0 : _url (built_plain nowhere) = EmptyString) by run.
  assert (Hu : _url page = "http://example.com/a/b"%string) by run.
  assert (H1 : _url page <> EmptyString) by (rewrite Hu; discriminate).
  split.
  - split; [exact H0|].
    exact (proj1 (urljoin_edge_cases (built_plain nowhere)) H0 _).
  - destruct (proj2 (urljoin_edge_cases page) H1) as (A & _ & C).
    split; [exact H1|]. split; [rewrite <- Hu at 1; exact A|].
    apply C. discriminate.
Defined.

(** X12, on [Response("http://localhost/docs/index")]. *)
Lemma urljoin_plain_segment_witness :
  _url (built_plain local) = "http://localhost/docs/index"%string
  /\ fst (Response_urljoin (Urllib.AStr "about") (built_plain local))
     = Ok (Urllib.AStr "http://localhost/docs/about")
  /\ fst (Response_urljoin (Urllib.AStr "/about") (built_plain local))
     = Ok (Urllib.AStr "http://localhost/about")
  /\ fst (Response_urljoin (Urllib.AStr "http://mirror/about")
            (built_plain local))
     = Ok (Urllib.AStr "http://mirror/about").
Proof.
  assert (Hu : _url (built_plain local) = "http://localhost/docs/index"%string)
    by run.
  split; [exact Hu|].
  refine (@urljoin_plain_segment W (built_plain local) "localhost" "docs"
            "index" "about" "mirror" _ _ _ _ _ _ _ _ _ Hu);
    solve [reflexivity | discriminate].
Defined.

(** X13, on the UTF-8 bytes of [h], U+00E9, U+20AC. *)
Lemma utf_8_body_comes_back_witness :
  Fragment.str_encode [0x68; 0xE9; 0x20AC] "utf-8" = Ok utf_8_bytes
  /\ response [] (BodyBytes utf_8_bytes) None
     = Ok (built (response [] (BodyBytes utf_8_bytes) None))
  /\ fst (encoding (built (response [] (BodyBytes utf_8_bytes) None)))
     = Ok (Some "utf-8")
  /\ fst (text (built (response [] (BodyBytes utf_8_bytes) None)))
     = Ok [0x68; 0xE9; 0x20AC].
Proof.
  assert (He : Fragment.str_encode [0x68; 0xE9; 0x20AC] "utf-8"
               = Ok utf_8_bytes) by run.
  assert (Hr : response [] (BodyBytes utf_8_bytes) None
               = Ok (built (response [] (BodyBytes utf_8_bytes) None)))
    by (apply built_ok; run).
  assert (Hhd : hd_error [0x68; 0xE9; 0x20AC] <> Some 0xFEFF) by discriminate.
  assert (Hlt : ~ In "<"%byte utf_8_bytes).
  { intros [E|[E|[E|[E|[E|[E|[]]]]]]]; discriminate E. }
  destruct (utf_8_body_comes_back _ He Hhd Hlt Hr) as [A B].
  split; [exact He|]. split; [exact Hr|]. split; [exact A | exact B].
Defined.

(** X14, on the response with the header [charset=UTF-8] and the body
    [0xA3]: the byte does not decode and is replaced. *)
Lemma declared_text_is_lossy_decode_witness :
  reachable with_header
  /\ declared with_header = Ok (Some "utf-8")
  /\ fst (encoding with_header) = Ok (Some "utf-8")
  /\ fst (text with_header)
     = bytes_decode (World := W) (body with_header) "utf-8" Replace
  /\ fst (text with_header) = Ok [0xFFFD].
Proof.
  assert (Hd : declared with_header = Ok (Some "utf-8"%string)) by run.
  assert (Hn : W3lib.read_bom (body with_header) = None) by run.
  destruct (@declared_text_is_lossy_decode W with_header "utf-8" "utf-8"
              with_header_reachable Hd) as [A B].
  - discriminate.
  - run.
  - discriminate.
  - discriminate.
  - intros m. rewrite Hn. discriminate.
  - split; [exact with_header_reachable|]. split; [exact Hd|].
    split; [exact A|]. split; [exact B | run].
Defined.

(** X15, on [xpath] run on the response with the body [hello]. *)
Lemma answers_never_change_witness :
  reachable hello
  /\ fst (encoding (after (OpXpath "//a") hello)) = fst (encoding hello)
  /\ fst (text (after (OpXpath "//a") hello)) = fst (text hello)
  /\ fst (selector (after (OpXpath "//a") hello)) = fst (selector hello)
  /\ fst (text hello) = Ok (u "hello").
Proof.
  destruct (answers_never_change (OpXpath "//a") hello_reachable)
    as (A & B & C).
  split; [exact hello_reachable|]. split; [exact A|]. split; [exact B|].
  split; [exact C | run].
Defined.

(** X16, on [Response("http://example.com/a/b")]: a segment joins,
    and a netloc with an unmatched bracket raises [ValueError]. *)
Lemma urljoin_on_text_gives_text_witness :
  (forall netloc x,
      check_bracketed_netloc (World := W) netloc = Raise x -> x = ValueError)
  /\ (forall netloc x,
         checknetloc_nfkc (World := W) netloc = Raise x -> x = ValueError)
  /\ fst (Response_urljoin (Urllib.AStr "c") page)
     = Ok (Urllib.AStr "http://example.com/a/c")
  /\ fst (Response_urljoin (Urllib.AStr "http://[") page) = Raise ValueError
  /\ match fst (Response_urljoin (Urllib.AStr "http://[") page) with
     | Ok (Urllib.AStr _) => True
     | Ok _ => False
     | Raise e => e = ValueError
     end.
Proof.
  assert (Hb : forall netloc x,
             check_bracketed_netloc (World := W) netloc = Raise x ->
             x = ValueError) by (intros netloc x E; discriminate E).
  assert (Hn : forall netloc x,
             checknetloc_nfkc (World := W) netloc = Raise x ->
             x = ValueError) by (intros netloc x E; discriminate E).
  split; [exact Hb|]. split; [exact Hn|].
  split; [reflexivity|]. split; [reflexivity|].
  exact (proj2 (urljoin_on_text_gives_text page "http://[" Hb Hn)).
Defined.

(** X17, on the text U+20AC: [latin-1] cannot encode it and [klingon]
    names no codec, while under [utf-8] the constructor returns. *)
Lemma text_body_encode_errors_witness :
  (str_encode (World := W) [0x20AC] "latin-1" = Raise UnicodeError
   /\ response [] (BodyText [0x20AC]) (Some "latin-1") = Raise UnicodeError)
  /\ (str_encode (World := W) [0x20AC] "klingon" = Raise LookupError
      /\ response [] (BodyText [0x20AC]) (Some "klingon") = Raise LookupError)
  /\ (response [] (BodyText [0x20AC]) (Some "utf-8")
      = Ok (forced_utf8 (BodyText [0x20AC]))
      /\ str_encode (World := W) [0x20AC] "utf-8"
         = Ok (body (forced_utf8 (BodyText [0x20AC])))
      /\ body (forced_utf8 (BodyText [0x20AC])) = [xe2; x82; xac]).
Proof.
  destruct (text_body_encode_errors (W := W)) as [A B].
  assert (H1 : str_encode (World := W) [0x20AC] "latin-1" = Raise UnicodeError)
    by run.
  assert (H2 : str_encode (World := W) [0x20AC] "klingon" = Raise LookupError)
    by run.
  assert (H3 : response [] (BodyText [0x20AC]) (Some "utf-8")
               = Ok (forced_utf8 (BodyText [0x20AC])))
    by (apply built_ok; run).
  split; [split; [exact H1 | exact (A _ _ _ _ _ _ _ _ H1)]|].
  split; [split; [exact H2 | exact (A _ _ _ _ _ _ _ _ H2)]|].
  split; [exact H3|]. split; [exact (B _ _ _ _ _ _ _ _ H3) | run].
Defined.

(** X18, on the body [hello] under two URLs, two statuses and two
    lists of headers without [Content-Type]. *)
Lemma encoding_reads_three_inputs_witness :
  response [] (BodyBytes (b "hello")) None = Ok hello
  /\ TextResponse_new (W := W) (UrlStr "http://localhost/") 404
       [(b "Server", b "nginx")] (BodyBytes (b "hello")) None None None
     = Ok (built (TextResponse_new (W := W) (UrlStr "http://localhost/") 404
                    [(b "Server", b "nginx")] (BodyBytes (b "hello")) None
                    None None))
  /\ fst (encoding hello)
     = fst (encoding
              (built (TextResponse_new (W := W) (UrlStr "http://localhost/")
                        404 [(b "Server", b "nginx")]
                        (BodyBytes (b "hello")) None None None)))
  /\ fst (text hello)
     = fst (text
              (built (TextResponse_new (W := W) (UrlStr "http://localhost/")
                        404 [(b "Server", b "nginx")]
                        (BodyBytes (b "hello")) None None None))).
Proof.
  assert (H1 : response [] (BodyBytes (b "hello")) None = Ok hello)
    by (apply built_ok; run).
  assert (H2 : TextResponse_new (W := W) (UrlStr "http://localhost/") 404
                 [(b "Server", b "nginx")] (BodyBytes (b "hello")) None None
                 None
               = Ok (built (TextResponse_new (W := W)
                              (UrlStr "http://localhost/") 404
                              [(b "Server", b "nginx")]
                              (BodyBytes (b "hello")) None None None)))
    by (apply built_ok; run).
  assert (Hh : Headers_get (World := W) [] (b "Content-Type") (b "")
               = Headers_get (World := W) [(b "Server", b "nginx")]
                   (b "Content-Type") (b "")) by run.
  split; [exact H1|]. split; [exact H2|].
  exact (@encoding_reads_three_inputs W _ _ _ _ _ _ _ _ _ _ _ _ _ _ Hh H1 H2).
Defined.

End FragmentMore.
